(** * Control plane of the VPS worker system (backend/app): wallet ledger,
      worker callbacks, worker registry, event bus and purchase flow. *)

From Stdlib Require Import ZArith Ascii String List Lia.
From Stdlib Require Import Floats DecimalString.
From stdpp Require Import base gmap strings list sorting.

Open Scope string_scope.
Open Scope Z_scope.
Set Warnings "-register-all".

(* ------------------------------------------------------------------ *)
(** ** Database rows (app.models), as used by the services *)

(** [dict] payloads ([meta], checklist items) as association lists. *)
Definition Meta := list (string * string).

(** [Wallet(user_id, balance, updated_at)]. *)
Record Wallet := mkWallet {
  wl_balance : Z;
  wl_updated_at : option Z
}.

(** [LedgerEntry(user_id, type, amount, balance_after, ref_id, meta)]. *)
Record LedgerEntry := mkLedgerEntry {
  le_user_id : string;
  le_type : string;
  le_amount : Z;
  le_balance_after : Z;
  le_ref_id : option string;
  le_meta : Meta
}.

(** [Worker] row (the generation read by the callback code: it still has
    [token_id], [current_jobs] and [last_heartbeat]). *)
Record Worker := mkWorker {
  w_name : option string;
  w_base_url : string;
  w_token_id : option string;
  w_status : string;
  w_max_sessions : Z;
  w_current_jobs : Z;
  w_last_heartbeat : option Z;
  w_created_at : Z
}.

(** [AdminToken] row: encrypted secret and revocation stamp. *)
Record AdminToken := mkAdminToken {
  at_token_ciphertext : string;
  at_revoked_at : option Z
}.

(** [VpsProduct] row, with its many-to-many worker pool. *)
Record VpsProduct := mkVpsProduct {
  p_price_coins : Z;
  p_provision_action : Z;
  p_is_active : bool;
  p_workers : list string
}.

(** JSON values as [json.loads] returns them; [JReal] is a non-integral
    number, kept by its [str()] text and its truth value. *)
Inductive Json :=
  | JNull
  | JBool (b : bool)
  | JInt (z : Z)
  | JReal (repr : string) (nonzero : bool)
  | JStr (s : string)
  | JList (l : list Json)
  | JObj (fields : list (string * Json)).

(** [VpsSession] row; the worker-supplied columns hold what
    [payload.get(...)] returned. *)
Record VpsSession := mkVpsSession {
  vs_user_id : option string;
  vs_product_id : option string;
  vs_worker_id : option string;
  vs_status : string;
  vs_checklist : Json;
  vs_rdp_host : Json;
  vs_rdp_port : Json;
  vs_rdp_user : Json;
  vs_rdp_password : Json;
  vs_log_url : Json;
  vs_idempotency_key : option string;
  vs_updated_at : option Z
}.

(** The state seen through one SQLAlchemy [Session] (the unit of work):
    flushed and committed rows alike.  [users] holds the legacy
    [User.coins] column of every user. *)
Record DB := mkDB {
  users : gmap string Z;
  wallets : gmap string Wallet;
  ledger : list LedgerEntry;
  workers : gmap string Worker;
  tokens : gmap string AdminToken;
  products : gmap string VpsProduct;
  sessions : gmap string VpsSession
}.

Definition set_users (m : gmap string Z) (db : DB) : DB :=
  mkDB m db.(wallets) db.(ledger) db.(workers) db.(tokens) db.(products) db.(sessions).
Definition set_wallets (m : gmap string Wallet) (db : DB) : DB :=
  mkDB db.(users) m db.(ledger) db.(workers) db.(tokens) db.(products) db.(sessions).
Definition set_ledger (l : list LedgerEntry) (db : DB) : DB :=
  mkDB db.(users) db.(wallets) l db.(workers) db.(tokens) db.(products) db.(sessions).
Definition set_workers (m : gmap string Worker) (db : DB) : DB :=
  mkDB db.(users) db.(wallets) db.(ledger) m db.(tokens) db.(products) db.(sessions).
Definition set_sessions (m : gmap string VpsSession) (db : DB) : DB :=
  mkDB db.(users) db.(wallets) db.(ledger) db.(workers) db.(tokens) db.(products) m.

(* ------------------------------------------------------------------ *)
(** ** Errors and the state/exception monad of a request *)

(** [fastapi.HTTPException(status_code, detail)]; other Python exceptions
    escaping a handler surface as a 500. *)
Inductive HttpError :=
  | HTTPException (status_code : Z) (detail : string).

(** A computation reads and writes the unit of work and may raise; the
    state reached when it raises is kept, so writes made before a
    [raise] stay visible. *)
Definition M (A : Type) := DB -> DB * (HttpError + A).

Definition ret {A} (a : A) : M A := fun db => (db, inr a).
Definition raise {A} (e : HttpError) : M A := fun db => (db, inl e).
Definition bind {A B} (m : M A) (k : A -> M B) : M B :=
  fun db => match m db with
            | (db', inl e) => (db', inl e)
            | (db', inr a) => k a db'
            end.
Definition get_db : M DB := fun db => (db, inr db).
Definition modify (f : DB -> DB) : M unit := fun db => (f db, inr tt).

Notation "'let!' x := m 'in' k" := (bind m (fun x => k))
  (at level 200, x name, m at level 100, k at level 200).

(* ------------------------------------------------------------------ *)
(** ** WalletService (app/services/wallet.py) *)

(** [int(user.coins or 0)]. *)
Definition user_coins (db : DB) (u : string) : Z :=
  default 0 (db.(users) !! u).

(** [WalletService.get_balance]:
    [int(wallet.balance if wallet else user.coins or 0)]. *)
Definition get_balance (db : DB) (u : string) : Z :=
  match db.(wallets) !! u with
  | Some w => w.(wl_balance)
  | None => user_coins db u
  end.

(** [WalletService.adjust_balance(user, amount, entry_type, ref_id, meta)];
    [clock] is [datetime.now(timezone.utc)]. *)
Definition adjust_balance (u : string) (amount : Z) (entry_type : string)
    (ref_id : option string) (meta : option Meta) (clock : Z) : M Z :=
  fun db =>
  let '(db1, seed_balance) :=
    match db.(wallets) !! u with
    | None =>
        (* wallet = Wallet(user_id=user.id, balance=seed_balance);
           db.add(wallet); db.flush() *)
        let seed := user_coins db u in
        (set_wallets (<[u := mkWallet seed None]> db.(wallets)) db, seed)
    | Some w => (db, w.(wl_balance))
    end in
  let new_balance := seed_balance + amount in
  if new_balance <? 0 then
    (db1, inl (HTTPException 400 "Insufficient balance"))
  else
    let entry := mkLedgerEntry u entry_type amount new_balance ref_id
                   (default [] meta) in
    let db2 := set_ledger (db1.(ledger) ++ [entry])
                 (set_users (<[u := new_balance]> db1.(users))
                   (set_wallets (<[u := mkWallet new_balance (Some clock)]>
                                   db1.(wallets)) db1)) in
    (db2, inr new_balance).

(** Sum of the amounts of the ledger entries of user [u]. *)
Definition ledger_sum (u : string) (l : list LedgerEntry) : Z :=
  fold_right (fun e acc => if String.eqb e.(le_user_id) u
                           then e.(le_amount) + acc else acc) 0 l.

(** The stored wallet balance of [u], if the wallet row exists. *)
Definition wallet_balance (db : DB) (u : string) : option Z :=
  wl_balance <$> db.(wallets) !! u.

(** One [adjust_balance] call of a sequence. *)
Record AdjustCall := mkAdjustCall {
  ac_user : string;
  ac_amount : Z;
  ac_type : string;
  ac_ref : option string;
  ac_clock : Z
}.

(** Runs a sequence of calls on one unit of work; a rejected call leaves
    the state it reached before raising. *)
Fixpoint run_adjusts (calls : list AdjustCall) (db : DB) : DB :=
  match calls with
  | [] => db
  | c :: cs =>
      run_adjusts cs
        (fst (adjust_balance c.(ac_user) c.(ac_amount) c.(ac_type)
                c.(ac_ref) None c.(ac_clock) db))
  end.

Definition empty_db : DB := mkDB ∅ ∅ [] ∅ ∅ ∅ ∅.

Example adjust_test_wallet_service :
  let db0 := set_users {[ "w" := 0 ]} empty_db in
  let '(db1, r1) := adjust_balance "w" 10 "ads.reward" None None 1 db0 in
  let '(db2, r2) := adjust_balance "w" (-3) "debit.test" None None 2 db1 in
  let '(_, r3) := adjust_balance "w" (-100) "debit.fail" None None 3 db2 in
  r1 = inr 10 /\ r2 = inr 7 /\ user_coins db2 "w" = 7 /\
  length db2.(ledger) = 2%nat /\ r3 = inl (HTTPException 400 "Insufficient balance").
Proof. vm_compute. repeat split. Qed.

(* ------------------------------------------------------------------ *)
(** ** Python helpers over JSON values *)

(** Truth value of a JSON value in Python ([not x]). *)
Definition py_truthy (j : Json) : bool :=
  match j with
  | JNull => false
  | JBool b => b
  | JInt z => negb (z =? 0)
  | JReal _ nz => nz
  | JStr s => negb (String.eqb s EmptyString)
  | JList l => negb (Nat.eqb (length l) 0)
  | JObj f => negb (Nat.eqb (length f) 0)
  end.

(** [str(x)] for the scalar values a session id can carry. *)
Definition py_str (j : Json) : string :=
  match j with
  | JNull => "None"
  | JBool true => "True"
  | JBool false => "False"
  | JInt z => DecimalString.NilZero.string_of_int (Z.to_int z)
  | JReal r _ => r
  | JStr s => s
  | JList _ => "[...]"
  | JObj _ => "{...}"
  end.

(** [dict.get(key)] on a decoded object: the last binding of a key wins,
    as in [json.loads]. *)
Definition obj_get (fields : list (string * Json)) (k : string) : option Json :=
  fold_left (fun acc kv => if String.eqb kv.1 k then Some kv.2 else acc) fields None.

(** [x == "lit"] for a decoded JSON value. *)
Definition py_eq_str (j : Json) (lit : string) : bool :=
  match j with JStr t => String.eqb t lit | _ => false end.

(** [payload.get(k, d)]. *)
Definition get_or (fields : list (string * Json)) (k : string) (d : Json) : Json :=
  default d (obj_get fields k).

(** One [event_bus.publish(session.id, {"event": ..., "data": ...})]. *)
Record Published := mkPublished {
  pub_session : string;
  pub_event : string;
  pub_data : list (string * Json)
}.

(** Inbound request: the three signature headers ([request.headers.get],
    decoded as Latin-1, one character per byte) and the raw body bytes. *)
Record Request := mkRequest {
  x_worker_id : option string;
  x_timestamp : option string;
  x_signature : option string;
  req_body : string
}.

(** [s.isascii()]. *)
Definition py_isascii (s : string) : bool :=
  forallb (fun c => Nat.ltb (nat_of_ascii c) 128) (list_ascii_of_string s).

(** [hmac.compare_digest(a, b)] on two [str]: whether they are equal;
    [None] is the [TypeError] it raises when either holds a non-ASCII
    character. *)
Definition compare_digest (a b : string) : option bool :=
  if py_isascii a && py_isascii b then Some (String.eqb a b) else None.

(** [not header]: absent or empty. *)
Definition header_missing (h : option string) : bool :=
  match h with None => true | Some s => String.eqb s EmptyString end.

Definition err {A} (code : Z) (detail : string) : M A :=
  raise (HTTPException code detail).

Definition write_session (su : string) (s : VpsSession) : M unit :=
  modify (fun db => set_sessions (<[su := s]> db.(sessions)) db).
Definition write_worker (wu : string) (w : Worker) : M unit :=
  modify (fun db => set_workers (<[wu := w]> db.(workers)) db).

Definition CLOCK_SKEW_SECONDS : float := 300%float.

(* ------------------------------------------------------------------ *)
(** ** Worker callbacks (app/api/worker_callbacks.py) *)

(** One call of a worker-facing endpoint: registration, or a signed
    status, checklist or result callback. *)
Inductive WorkerCall :=
  | CallRegister (new_id : string) (clock : Z) (payload : list (string * Json))
  | CallStatus (now : float) (clock : Z) (req : Request)
  | CallChecklist (now : float) (clock : Z) (req : Request)
  | CallResult (now : float) (clock : Z) (req : Request).

Section Callbacks.

(** Library primitives the handlers call: [UUID(s)] (canonical text, or
    [ValueError]), [float(s)] (or [ValueError]), [json.loads], [int(x)]
    on a JSON value, [decrypt_secret] (AES-GCM, which raises on a bad
    ciphertext) and [hmac.new(key, msg, sha256).hexdigest()]. *)
Variable parse_uuid : string -> option string.
Variable py_float : string -> option float.
Variable json_loads : string -> option Json.
Variable py_int : Json -> option Z.
Variable decrypt_secret : string -> option string.
Variable hmac_sha256_hex : string -> string -> string.

(** [crypto.compute_worker_signature(secret, payload, timestamp)]. *)
Definition compute_worker_signature (secret body timestamp : string) : string :=
  hmac_sha256_hex secret (body ++ timestamp).

(** [crypto.verify_worker_signature]: [hmac.compare_digest] on the two
    [str] values (its constant running time is not modelled). *)
Definition verify_worker_signature (secret body timestamp signature : string) : option bool :=
  compare_digest (compute_worker_signature secret body timestamp) signature.

(** [_verify_request(request, db)]; [now] is
    [datetime.now(timezone.utc).timestamp()].  Returns the worker id, the
    worker row and the body. *)
Definition _verify_request (now : float) (req : Request) : M (string * Worker * string) :=
  fun db =>
  if header_missing req.(x_worker_id) || header_missing req.(x_timestamp)
     || header_missing req.(x_signature) then
    err 401 "Missing worker signature headers" db
  else
  let worker_id_header := default EmptyString req.(x_worker_id) in
  let timestamp_header := default EmptyString req.(x_timestamp) in
  let signature_header := default EmptyString req.(x_signature) in
  match parse_uuid worker_id_header with
  | None => err 400 "Invalid worker id" db
  | Some wu =>
  match db.(workers) !! wu with
  | None => err 401 "Unknown worker" db
  | Some w =>
  match w.(w_token_id) with
  | None => err 401 "Unknown worker" db
  | Some tid =>
  match db.(tokens) !! tid with
  | None => err 401 "Worker token revoked" db
  | Some tok =>
  if tok.(at_revoked_at) then err 401 "Worker token revoked" db else
  let body := req.(req_body) in
  match py_float timestamp_header with
  | None => err 400 "Invalid timestamp" db
  | Some timestamp_value =>
  if (CLOCK_SKEW_SECONDS <? abs (now - timestamp_value))%float then
    err 401 "Clock skew too large" db
  else
  match decrypt_secret tok.(at_token_ciphertext) with
  | None => err 500 "Internal Server Error" db
  | Some secret =>
  match verify_worker_signature secret body timestamp_header signature_header with
  | None => err 500 "Internal Server Error" db
  | Some true => ret (wu, w, body) db
  | Some false => err 401 "Invalid signature" db
  end end end end end end end.

(** [_load_session(db, session_id)]. *)
Definition _load_session (su : string) : M VpsSession :=
  fun db => match db.(sessions) !! su with
            | None => err 404 "Session not found" db
            | Some s => ret s db
            end.

(** [json.loads(body)] followed by the [session_id] lookup shared by the
    checklist and result handlers: [payload.get("session_id")], the
    400 when it is falsy, then [UUID(str(session_id))] (a [ValueError]
    there escapes as a 500). *)
Definition load_payload (body : string) : M (list (string * Json)) :=
  match json_loads body with
  | Some (JObj fields) => ret fields
  | _ => err 500 "Internal Server Error"
  end.

Definition payload_session_id (fields : list (string * Json)) : M string :=
  let session_id := get_or fields "session_id" JNull in
  if negb (py_truthy session_id) then err 400 "Missing session_id" else
  match parse_uuid (py_str session_id) with
  | None => err 500 "Internal Server Error"
  | Some su => ret su
  end.

(** The worker bookkeeping at the end of [worker_result]. *)
Definition result_worker_update (w : Worker) (clock : Z) : Worker :=
  let cj := if negb (w.(w_current_jobs) =? 0)
            then Z.max (w.(w_current_jobs) - 1) 0 else w.(w_current_jobs) in
  mkWorker w.(w_name) w.(w_base_url) w.(w_token_id)
           (if negb (cj =? 0) then "busy" else "idle")
           w.(w_max_sessions) cj (Some clock) w.(w_created_at).

(** The session changes of the [ready] branch. *)
Definition session_ready (s : VpsSession) (fields : list (string * Json)) (clock : Z) : VpsSession :=
  mkVpsSession s.(vs_user_id) s.(vs_product_id) s.(vs_worker_id) "ready"
    s.(vs_checklist)
    (get_or fields "rdp_host" JNull) (get_or fields "rdp_port" JNull)
    (get_or fields "rdp_user" JNull) (get_or fields "rdp_password" JNull)
    (get_or fields "log_url" JNull) s.(vs_idempotency_key) (Some clock).

(** The session changes of the [failed] branch. *)
Definition session_failed (s : VpsSession) (clock : Z) : VpsSession :=
  mkVpsSession s.(vs_user_id) s.(vs_product_id) s.(vs_worker_id) "failed"
    s.(vs_checklist) s.(vs_rdp_host) s.(vs_rdp_port) s.(vs_rdp_user)
    s.(vs_rdp_password) s.(vs_log_url) s.(vs_idempotency_key) (Some clock).

Definition REFUND_META : Meta := [("reason", "worker_failed")].

(** [user = db.get(User, session.user_id) if session.user_id else None]
    and [session.product]: the refund target, when both exist. *)
Definition refund_target (db : DB) (s : VpsSession) : option (string * VpsProduct) :=
  match s.(vs_user_id), s.(vs_product_id) with
  | Some uid, Some pid =>
      match db.(users) !! uid, db.(products) !! pid with
      | Some _, Some p => Some (uid, p)
      | _, _ => None
      end
  | _, _ => None
  end.

(** [POST /workers/callback/result]; [now] as in [_verify_request],
    [clock] is [datetime.now(timezone.utc)].  Returns the events
    published after the commit, in order. *)
Definition worker_result (now : float) (clock : Z) (req : Request) : M (list Published) :=
  let! vr := _verify_request now req in
  let '(wu, worker, body) := vr in
  let! fields := load_payload body in
  let! su := payload_session_id fields in
  let! session := _load_session su in
  let status_value := get_or fields "status" JNull in
  let! db0 := get_db in
  let target := refund_target db0 session in
  let! session' :=
    (if py_eq_str status_value "ready" then
       let s1 := session_ready session fields clock in
       let! _ := write_session su s1 in ret s1
     else if py_eq_str status_value "failed" then
       let s1 := session_failed session clock in
       let! _ := write_session su s1 in
       match target with
       | Some (uid, p) =>
           let! _ := adjust_balance uid p.(p_price_coins) "vps.refund"
                       (Some su) (Some REFUND_META) clock in
           ret s1
       | None => ret s1
       end
     else err 400 "Invalid status") in
  let! _ := write_worker wu (result_worker_update worker clock) in
  let! _ := write_session su session' in
  let status_event := mkPublished su "status.update" [("status", JStr session'.(vs_status))] in
  if String.eqb session'.(vs_status) "ready" then
    ret [status_event;
         mkPublished su "ready"
           [("rdp_host", session'.(vs_rdp_host)); ("rdp_port", session'.(vs_rdp_port));
            ("rdp_user", session'.(vs_rdp_user)); ("rdp_password", session'.(vs_rdp_password));
            ("log_url", session'.(vs_log_url))]]
  else if String.eqb session'.(vs_status) "failed" then
    ret [status_event;
         mkPublished su "failed"
           [("message", get_or fields "message" (JStr "Worker reported failure"))]]
  else ret [status_event].

(** [POST /workers/callback/status] (the write-only telemetry columns
    [last_net_mbps] and [last_req_rate] are not modelled). *)
Definition worker_status (now : float) (clock : Z) (req : Request) : M unit :=
  let! vr := _verify_request now req in
  let '(wu, worker, body) := vr in
  let! fields := load_payload body in
  match py_int (get_or fields "current_jobs" (JInt worker.(w_current_jobs))) with
  | None => err 500 "Internal Server Error"
  | Some current_jobs =>
      write_worker wu
        (mkWorker worker.(w_name) worker.(w_base_url) worker.(w_token_id)
           (if 0 <? current_jobs then "busy" else "idle")
           worker.(w_max_sessions) current_jobs (Some clock) worker.(w_created_at))
  end.

(** [POST /workers/callback/checklist]. *)
Definition worker_checklist (now : float) (clock : Z) (req : Request) : M (list Published) :=
  let! vr := _verify_request now req in
  let '(wu, worker, body) := vr in
  let! fields := load_payload body in
  let! su := payload_session_id fields in
  let! session := _load_session su in
  let raw := get_or fields "items" JNull in
  let items := if py_truthy raw then raw else JList [] in
  let s1 := mkVpsSession session.(vs_user_id) session.(vs_product_id)
              session.(vs_worker_id) session.(vs_status) items
              session.(vs_rdp_host) session.(vs_rdp_port) session.(vs_rdp_user)
              session.(vs_rdp_password) session.(vs_log_url)
              session.(vs_idempotency_key) (Some clock) in
  let! _ := write_session su s1 in
  ret [mkPublished su "checklist.update" [("items", items)]].

(** [str(base_url).rstrip('/')]. *)
Fixpoint strip_trailing_slashes (rev_chars : list Ascii.ascii) : list Ascii.ascii :=
  match rev_chars with
  | "/"%char :: rest => strip_trailing_slashes rest
  | _ => rev_chars
  end.

Definition rstrip_slash (s : string) : string :=
  String.string_of_list_ascii
    (rev (strip_trailing_slashes (rev (String.list_ascii_of_string s)))).

(** [Worker.name] as assigned from a JSON value ([None] for null). *)
Definition json_name (j : Json) : option string :=
  match j with JNull => None | _ => Some (py_str j) end.

(** [select(Worker).where(Worker.token_id == t, Worker.base_url == u).first()]. *)
Definition find_worker_by_token_url (db : DB) (t u : string) : option (string * Worker) :=
  List.find (fun iw => match iw.2.(w_token_id) with
                       | Some t' => String.eqb t' t && String.eqb iw.2.(w_base_url) u
                       | None => false
                       end)
            (map_to_list db.(workers)).

(** [POST /workers/register]; [new_id] is the [uuid4()] a new [Worker]
    row receives and [clock] is [datetime.now(timezone.utc)].  A new row
    gets the column defaults: 3 sessions, no jobs. *)
Definition worker_register (new_id : string) (clock : Z) (payload : list (string * Json)) : M string :=
  let token_id := get_or payload "token_id" JNull in
  let admin_token_plain := get_or payload "admin_token" JNull in
  let base_url := get_or payload "base_url" JNull in
  let name := get_or payload "name" JNull in
  if negb (py_truthy token_id) || negb (py_truthy admin_token_plain)
     || negb (py_truthy base_url) then err 400 "Missing registration fields" else
  match parse_uuid (py_str token_id) with
  | None => err 400 "Invalid token id"
  | Some token_uuid =>
  let! db := get_db in
  match db.(tokens) !! token_uuid with
  | None => err 401 "Token unavailable"
  | Some token =>
  if token.(at_revoked_at) then err 401 "Token unavailable" else
  match decrypt_secret token.(at_token_ciphertext) with
  | None => err 500 "Internal Server Error"
  | Some secret =>
  if negb (py_eq_str admin_token_plain secret) then err 401 "Token mismatch" else
  let normalized_url := rstrip_slash (py_str base_url) in
  match find_worker_by_token_url db token_uuid normalized_url with
  | Some (wid, existing) =>
      let! _ := write_worker wid
        (mkWorker (if py_truthy name then json_name name else existing.(w_name))
           normalized_url existing.(w_token_id) "idle" existing.(w_max_sessions)
           existing.(w_current_jobs) (Some clock) existing.(w_created_at)) in
      ret wid
  | None =>
      let! _ := write_worker new_id
        (mkWorker (json_name name) normalized_url (Some token_uuid) "idle" 3 0 None clock) in
      ret new_id
  end end end end.

(** A sequence of worker-facing calls on one database; each call sees the
    state the previous one left. *)
Definition worker_call_step (db : DB) (c : WorkerCall) : DB :=
  match c with
  | CallRegister new_id clock payload => fst (worker_register new_id clock payload db)
  | CallStatus now clock req => fst (worker_status now clock req db)
  | CallChecklist now clock req => fst (worker_checklist now clock req db)
  | CallResult now clock req => fst (worker_result now clock req db)
  end.

Definition run_worker_calls (calls : list WorkerCall) (db : DB) : DB :=
  foldl worker_call_step db calls.

(** The same result callback delivered [n] times. *)
Definition repeat_worker_result (n : nat) (now : float) (clock : Z) (req : Request) (db : DB) : DB :=
  Nat.iter n (fun d => fst (worker_result now clock req d)) db.

(** The ledger entries of [n] successive refunds of [price] to [uid] for
    session [su], starting from balance [b]. *)
Definition refund_entries (uid su : string) (price b : Z) (n : nat) : list LedgerEntry :=
  map (fun k => mkLedgerEntry uid "vps.refund" price (b + Z.of_nat (S k) * price)
                  (Some su) REFUND_META) (seq 0 n).

End Callbacks.

(* ------------------------------------------------------------------ *)
(** ** VpsProductService._resolve_workers (app/services/vps_products.py) *)

(** [select(Worker).where(Worker.id.in_(worker_ids))], the unknown ids,
    then the rows whose status is not ["active"]. *)
Definition _resolve_workers (worker_ids : list string) : M (list (string * Worker)) :=
  fun db =>
  match worker_ids with
  | [] => ret [] db
  | _ =>
    let found := filter (fun iw => iw.1 ∈ worker_ids) (map_to_list db.(workers)) in
    let missing := filter (fun i => db.(workers) !! i = None) worker_ids in
    match missing with
    | _ :: _ => err 400 "Unknown worker ids" db
    | [] =>
    let inactive := filter (fun iw => iw.2.(w_status) <> "active") found in
    match inactive with
    | [] => ret found db
    | _ => err 400 "Inactive workers" db
    end
    end
  end.

(* ------------------------------------------------------------------ *)
(** ** Active-session counts (app/services/worker_registry.py) *)

Definition ACTIVE_STATUSES : list string := ["pending"; "provisioning"; "ready"].

(** One row of the [GROUP BY worker_id] count. *)
Definition count_session (worker_ids : list string) (row : string * VpsSession)
    (acc : gmap string Z) : gmap string Z :=
  match row.2.(vs_worker_id) with
  | Some wid =>
      if bool_decide (wid ∈ worker_ids) && bool_decide (row.2.(vs_status) ∈ ACTIVE_STATUSES)
      then <[wid := default 0 (acc !! wid) + 1]> acc else acc
  | None => acc
  end.

(** [WorkerRegistryService._active_session_counts(worker_ids)]: for each
    listed worker with at least one session in [ACTIVE_STATUSES], that
    number of sessions; workers without one are absent (read with
    [counts.get(id, 0)]). *)
Definition _active_session_counts (worker_ids : list string) (db : DB) : gmap string Z :=
  match worker_ids with
  | [] => ∅
  | _ => foldr (count_session worker_ids) ∅ (map_to_list db.(sessions))
  end.

(** [counts.get(worker.id, 0)]. *)
Definition count_get (counts : gmap string Z) (wid : string) : Z :=
  default 0 (counts !! wid).

(** The number of sessions assigned to [wid] whose status is active,
    counted directly over the session table. *)
Definition active_sessions_of (db : DB) (wid : string) : nat :=
  length (filter (fun row => row.2.(vs_worker_id) = Some wid
                             /\ row.2.(vs_status) ∈ ACTIVE_STATUSES)
                 (map_to_list db.(sessions))).

(** Modelled from the spec: the dispatch-time worker selection of
    [VpsService.purchase_and_create] (app/services/vps.py is not in
    src/).  "Among a product's assigned workers with status active and
    activeSessionCount < max_sessions, choose one (least-loaded,
    tie-broken by most-recently-created); fail with NoCapacity if none
    qualify" ([None] is NoCapacity).  The counts are those of
    [_active_session_counts] over the product's pool. *)
Definition select_worker (product : VpsProduct) (db : DB) : option (string * Worker) :=
  let ids := product.(p_workers) in
  let counts := _active_session_counts ids db in
  let eligible :=
    omap (fun wid => match db.(workers) !! wid with
                     | Some w =>
                         if String.eqb w.(w_status) "active"
                            && (count_get counts wid <? w.(w_max_sessions))
                         then Some (wid, w) else None
                     | None => None
                     end) ids in
  let better (a b : string * Worker) : bool :=
    (count_get counts a.1 <? count_get counts b.1)
    || ((count_get counts a.1 =? count_get counts b.1)
        && (b.2.(w_created_at) <? a.2.(w_created_at))) in
  match eligible with
  | [] => None
  | c :: cs => Some (fold_left (fun best x => if better x best then x else best) cs c)
  end.

(* ------------------------------------------------------------------ *)
(** ** SessionEventBus (app/services/event_bus.py) *)

(** An event is a [dict]; [event.copy()] is the same value. *)
Definition Event := list (string * Json).

(** [asyncio.Queue(maxsize)]: [maxsize <= 0] means unbounded. *)
Record AsyncQueue := mkAsyncQueue {
  q_maxsize : Z;
  q_items : list Event
}.

(** [Queue.full()]. *)
Definition queue_full (q : AsyncQueue) : bool :=
  (0 <? q.(q_maxsize)) && (q.(q_maxsize) <=? Z.of_nat (length q.(q_items))).

(** [Queue.put_nowait(x)]; [None] is [QueueFull]. *)
Definition put_nowait (q : AsyncQueue) (x : Event) : option AsyncQueue :=
  if queue_full q then None
  else Some (mkAsyncQueue q.(q_maxsize) (q.(q_items) ++ [x])%list).

(** [Queue.get_nowait()]; [None] is [QueueEmpty]. *)
Definition get_nowait (q : AsyncQueue) : option (AsyncQueue * Event) :=
  match q.(q_items) with
  | [] => None
  | x :: rest => Some (mkAsyncQueue q.(q_maxsize) rest, x)
  end.

(** The body of the [for queue in queues] loop of [publish]: put, and on
    [QueueFull] drop the oldest item and put again; an exception in that
    retry is swallowed ([continue]). *)
Definition deliver (q : AsyncQueue) (item : Event) : AsyncQueue :=
  match put_nowait q item with
  | Some q' => q'
  | None =>
      match get_nowait q with
      | None => q
      | Some (q1, _) =>
          match put_nowait q1 item with
          | Some q2 => q2
          | None => q1
          end
      end
  end.

(** The bus: [_subscribers] (a set of queue objects per session, as the
    list of their ids) and the queue objects themselves, shared by id;
    [next_queue] names the next [asyncio.Queue] created. *)
Record Bus := mkBus {
  subscribers : gmap string (list nat);
  queues : gmap nat AsyncQueue;
  next_queue : nat
}.

Definition empty_bus : Bus := mkBus ∅ ∅ 0.

(** [SessionEventBus.publish(session_id, event)]. *)
Definition publish (b : Bus) (sid : string) (event : Event) : Bus :=
  let qs := default [] (b.(subscribers) !! sid) in
  mkBus b.(subscribers)
    (foldl (fun m qid => match m !! qid with
                         | Some q => <[qid := deliver q event]> m
                         | None => m
                         end) b.(queues) qs)
    b.(next_queue).

(** [SessionEventBus.subscribe(session_id, max_queue_items=...)]: returns
    the new queue. *)
Definition subscribe (b : Bus) (sid : string) (max_queue_items : Z) : Bus * nat :=
  let qid := b.(next_queue) in
  let cur := default [] (b.(subscribers) !! sid) in
  (mkBus (<[sid := if bool_decide (qid ∈ cur) then cur else qid :: cur]> b.(subscribers))
         (<[qid := mkAsyncQueue max_queue_items []]> b.(queues))
         (S qid), qid).

(** [SessionEventBus.unsubscribe(session_id, queue)]: discard, drop the
    empty set, drain the queue. *)
Definition unsubscribe (b : Bus) (sid : string) (qid : nat) : Bus :=
  match b.(subscribers) !! sid with
  | None | Some [] => b
  | Some subs =>
      let rest := filter (fun x => x <> qid) subs in
      mkBus (match rest with
             | [] => delete sid b.(subscribers)
             | _ => <[sid := rest]> b.(subscribers)
             end)
            (match b.(queues) !! qid with
             | Some q => <[qid := mkAsyncQueue q.(q_maxsize) []]> b.(queues)
             | None => b.(queues)
             end)
            b.(next_queue)
  end.

(** A streaming consumer's [await queue.get()] on a non-empty queue. *)
Definition consume (b : Bus) (qid : nat) : Bus :=
  match b.(queues) !! qid with
  | Some q =>
      match get_nowait q with
      | Some (q', _) => mkBus b.(subscribers) (<[qid := q']> b.(queues)) b.(next_queue)
      | None => b
      end
  | None => b
  end.

Inductive BusOp :=
  | OpSubscribe (sid : string) (max_queue_items : Z)
  | OpPublish (sid : string) (event : Event)
  | OpUnsubscribe (sid : string) (qid : nat)
  | OpConsume (qid : nat).

Definition bus_step (b : Bus) (op : BusOp) : Bus :=
  match op with
  | OpSubscribe sid n => (subscribe b sid n).1
  | OpPublish sid e => publish b sid e
  | OpUnsubscribe sid qid => unsubscribe b sid qid
  | OpConsume qid => consume b qid
  end.

Definition run_bus (ops : list BusOp) : Bus := foldl bus_step empty_bus ops.

(* ------------------------------------------------------------------ *)
(** ** Purchase (VpsService.purchase_and_create) *)

(** Modelled from the spec: the idempotency lookup of
    [VpsService.purchase_and_create] (app/services/vps.py is not in
    src/): the session stored for (user, idempotency key), if any. *)
Definition find_session_by_key (db : DB) (u key : string) : option string :=
  match filter (fun row => row.2.(vs_user_id) = Some u
                           /\ row.2.(vs_idempotency_key) = Some key)
               (map_to_list db.(sessions)) with
  | [] => None
  | row :: _ => Some row.1
  end.

(** A unit of work that is rolled back when it raises. *)
Definition atomically {A} (m : M A) : M A :=
  fun db => match m db with
            | (_, inl e) => (db, inl e)
            | r => r
            end.

(** Modelled from the spec: [VpsService.purchase_and_create(user,
    product_id, idempotency_key, worker_client, callback_base)]
    (app/services/vps.py is not in src/).  "If a session already exists
    for (user, idempotency key), return it unchanged - no new debit, no
    new dispatch.  Otherwise: atomically debit product.price (fails with
    InsufficientFunds ... and the whole operation aborts with no session
    created); select a worker; dispatch; on dispatch success, persist the
    session as provisioning with the chosen worker ... and idempotency
    key.  On dispatch failure, the wallet debit must be compensated
    (refunded) and no session persisted."  [dispatch_ok wid sid] is the
    outcome of the job-creation request, [new_sid] the new session's id.
    The result is the session id, whether it was created, and the
    dispatches made (worker id, session id). *)
Definition purchase_and_create (dispatch_ok : string -> string -> bool)
    (new_sid : string) (clock : Z) (u product_id key : string)
    : M (string * bool * list (string * string)) :=
  fun db =>
  match find_session_by_key db u key with
  | Some sid => ret (sid, false, []) db
  | None =>
  match db.(products) !! product_id with
  | None => err 404 "Product not found" db
  | Some p =>
  if negb p.(p_is_active) then err 404 "Product not found" db else
  (let! sel :=
     atomically
       (let! _ := adjust_balance u (- p.(p_price_coins)) "vps.purchase"
                    (Some new_sid) None clock in
        fun db1 => match select_worker p db1 with
                   | None => err 503 "No capacity" db1
                   | Some x => ret x db1
                   end) in
   let '(wid, _) := sel in
   if dispatch_ok wid new_sid then
     let! _ := write_session new_sid
                 (mkVpsSession (Some u) (Some product_id) (Some wid) "provisioning"
                    (JList []) JNull JNull JNull JNull JNull (Some key) (Some clock)) in
     ret (new_sid, true, [(wid, new_sid)])
   else
     let! _ := adjust_balance u p.(p_price_coins) "vps.refund" (Some new_sid) None clock in
     err 502 "Dispatch failed") db
  end end.

(* ------------------------------------------------------------------ *)
(** ** WorkerRegistryService (app/services/worker_registry.py) *)

Definition set_tokens (m : gmap string AdminToken) (db : DB) : DB :=
  mkDB db.(users) db.(wallets) db.(ledger) db.(workers) m db.(products) db.(sessions).
Definition set_products (m : gmap string VpsProduct) (db : DB) : DB :=
  mkDB db.(users) db.(wallets) db.(ledger) db.(workers) db.(tokens) m db.(sessions).

(** [str.isspace()] of one character (text is read as Latin-1): the
    controls 0x09-0x0d, the separators 0x1c-0x1f, space, NEL and
    NO-BREAK SPACE. *)
Definition py_isspace (c : ascii) : bool :=
  let n := nat_of_ascii c in
  (Nat.leb 9 n && Nat.leb n 13) || (Nat.leb 28 n && Nat.leb n 32)
  || Nat.eqb n 133 || Nat.eqb n 160.

Fixpoint lstrip_chars (cs : list ascii) : list ascii :=
  match cs with
  | c :: rest => if py_isspace c then lstrip_chars rest else cs
  | [] => []
  end.

(** [s.strip()]. *)
Definition py_strip (s : string) : string :=
  string_of_list_ascii
    (rev (lstrip_chars (rev (lstrip_chars (list_ascii_of_string s))))).

(** [WorkerRegistryService._normalize_url(raw)]. *)
Definition _normalize_url (raw : string) : M string :=
  let url := py_strip raw in
  if String.eqb url EmptyString then err 400 "base_url required"
  else ret (rstrip_slash url).

(** [WorkerRegistryService.get_worker(worker_id)]: the row, with its
    [_active_sessions] attribute. *)
Definition get_worker (worker_id : string) : M (Worker * Z) :=
  fun db =>
  match db.(workers) !! worker_id with
  | None => err 404 "Worker not found." db
  | Some w => ret (w, count_get (_active_session_counts [worker_id] db) worker_id) db
  end.

(** [order_by(Worker.created_at.desc())]. *)
Definition created_desc (a b : string * Worker) : Prop :=
  b.2.(w_created_at) <= a.2.(w_created_at).
#[global] Instance created_desc_dec : RelDecision created_desc.
Proof. intros a b. unfold created_desc. apply _. Defined.

(** [WorkerRegistryService.list_workers()]: each row with its
    [_active_sessions] attribute. *)
Definition list_workers : M (list (string * Worker * Z)) :=
  fun db =>
  let ws := merge_sort created_desc (map_to_list db.(workers)) in
  let counts := _active_session_counts (map fst ws) db in
  ret (map (fun iw => (iw.1, iw.2, count_get counts iw.1)) ws) db.

(* ------------------------------------------------------------------ *)
(** ** The admin audit log (app/admin/audit.py) *)

(** [AuditContext(actor_user_id, ip, ua)]. *)
Record AuditContext := mkAuditContext {
  ctx_actor_user_id : option string;
  ctx_ip : option string;
  ctx_ua : option string
}.

(** A value of the [before] and [after] dicts the services pass:
    [None], a [str] or an [int] ([_normalize] leaves them as they are). *)
Inductive AuditValue :=
  | AVNone
  | AVStr (s : string)
  | AVInt (z : Z).

(** [==] on those values. *)
Definition audit_value_eqb (a b : AuditValue) : bool :=
  match a, b with
  | AVNone, AVNone => true
  | AVStr x, AVStr y => String.eqb x y
  | AVInt x, AVInt y => Z.eqb x y
  | _, _ => false
  end.

(** [str] of an optional string column. *)
Definition py_opt_str (o : option string) : AuditValue :=
  match o with Some v => AVStr v | None => AVNone end.

(** [AuditLog] row; [al_diff_json] is what [diff_dict] returned. *)
Record AuditLog := mkAuditLog {
  al_actor_user_id : option string;
  al_action : string;
  al_target_type : string;
  al_target_id : option string;
  al_diff_json : option (list (string * (AuditValue * AuditValue)));
  al_ip : option string;
  al_ua : option string
}.

(** [a < b] on [str]: code points compared lexicographically. *)
Fixpoint str_ltb (a b : string) : bool :=
  match a, b with
  | EmptyString, String _ _ => true
  | EmptyString, EmptyString => false
  | String _ _, EmptyString => false
  | String c a', String d b' =>
      if Nat.ltb (nat_of_ascii c) (nat_of_ascii d) then true
      else if Nat.eqb (nat_of_ascii c) (nat_of_ascii d) then str_ltb a' b'
      else false
  end.

Fixpoint insert_key (k : string) (l : list string) : list string :=
  match l with
  | [] => [k]
  | x :: l' => if str_ltb k x then k :: l else x :: insert_key k l'
  end.

(** [sorted(set(before) | set(after))]. *)
Definition sorted_keys (ks : list string) : list string :=
  foldr insert_key [] (remove_dups ks).

(** [d.get(key)] on a dict literal. *)
Definition dict_get (d : list (string * AuditValue)) (key : string) : AuditValue :=
  match List.find (fun kv => String.eqb kv.1 key) d with
  | Some kv => kv.2
  | None => AVNone
  end.

(** [diff_dict(before, after)]. *)
Definition diff_dict (before after : option (list (string * AuditValue)))
    : option (list (string * (AuditValue * AuditValue))) :=
  match before, after with
  | None, None => None
  | _, _ =>
      let b := default [] before in
      let a := default [] after in
      let changes :=
        flat_map (fun key => if audit_value_eqb (dict_get b key) (dict_get a key) then []
                             else [(key, (dict_get b key, dict_get a key))])
          (sorted_keys (map fst b ++ map fst a)) in
      match changes with [] => None | _ => Some changes end
  end.

(** The state of an admin request: the unit of work and the [AuditLog]
    rows added to it. *)
Record AState := mkAState {
  as_db : DB;
  audit_logs : list AuditLog
}.

Definition AM (A : Type) := AState -> AState * (HttpError + A).

Definition aret {A} (a : A) : AM A := fun s => (s, inr a).
Definition aerr {A} (code : Z) (detail : string) : AM A :=
  fun s => (s, inl (HTTPException code detail)).
Definition abind {A B} (m : AM A) (k : A -> AM B) : AM B :=
  fun s => match m s with
           | (s', inl e) => (s', inl e)
           | (s', inr a) => k a s'
           end.

Notation "'let@' x := m 'in' k" := (abind m (fun x => k))
  (at level 200, x name, m at level 100, k at level 200).

(** A table operation run inside an admin request. *)
Definition on_db {A} (m : M A) : AM A :=
  fun s => let '(db', r) := m s.(as_db) in (mkAState db' s.(audit_logs), r).

(** [record_audit(db, context=..., action, target_type, target_id, before,
    after)]: the [AuditLog] row it adds.  The JSONL file sink is best
    effort (every exception is swallowed) and is not modelled. *)
Definition record_audit (context : AuditContext) (action target_type : string)
    (target_id : option string) (before after : option (list (string * AuditValue)))
    : AM AuditLog :=
  fun s =>
  let entry := mkAuditLog context.(ctx_actor_user_id) action target_type target_id
                 (diff_dict before after) context.(ctx_ip) context.(ctx_ua) in
  (mkAState s.(as_db) (s.(audit_logs) ++ [entry]), inr entry).

(** How [httpx.get(urljoin(url + "/", "health"), ...)] followed by
    [response.raise_for_status()] ends: normally, with an [httpx.HTTPError]
    whose text is given, or with another exception (such as
    [httpx.InvalidURL], which is not an [httpx.HTTPError]). *)
Inductive HealthOutcome :=
  | HealthOk
  | HealthHTTPError (text : string)
  | HealthOtherError.

(** [WorkerRegistryService.register_worker(name, base_url, max_sessions,
    context)]: [health_check url] is the outcome of the health probe of
    the normalized URL; an exception other than [httpx.HTTPError] is not
    caught and surfaces as a 500.  [new_id] and [clock] are the new row's
    id and [created_at].  The row gets no token and no jobs. *)
Definition register_worker (health_check : string -> HealthOutcome) (new_id : string)
    (clock : Z) (context : AuditContext) (name : option string) (base_url : string)
    (max_sessions : Z) : AM (Worker * Z) :=
  let@ normalized_url := on_db (_normalize_url base_url) in
  match health_check normalized_url with
  | HealthHTTPError exc => aerr 400 ("Worker health check failed: " +:+ exc)
  | HealthOtherError => aerr 500 "Internal Server Error"
  | HealthOk =>
      let w := mkWorker name normalized_url None "active" max_sessions 0 None clock in
      let@ _ := on_db (write_worker new_id w) in
      let@ _ := record_audit context "worker.register" "worker" (Some new_id) None
                  (Some [("name", py_opt_str w.(w_name)); ("base_url", AVStr w.(w_base_url));
                         ("max_sessions", AVInt w.(w_max_sessions))]) in
      aret (w, 0)
  end.

(** The [before] and [after] dicts of [update_worker]. *)
Definition worker_audit_dict (w : Worker) : list (string * AuditValue) :=
  [("name", py_opt_str w.(w_name)); ("base_url", AVStr w.(w_base_url));
   ("status", AVStr w.(w_status)); ("max_sessions", AVInt w.(w_max_sessions))].

(** [WorkerRegistryService.update_worker(worker_id, name, base_url, status,
    max_sessions, context)] ([None] is an omitted field).  The parameter
    [status] shadows [fastapi.status], so for an unknown id
    [status.HTTP_404_NOT_FOUND] raises [AttributeError] (on [None] or on a
    [str]) before the [HTTPException] is built: the request ends in a 500.
    The attributes are set on the loaded object and reach the table at the
    commit, so a raise in [_normalize_url] leaves the row as it was.
    [updated_at] is not modelled. *)
Definition update_worker (context : AuditContext) (worker_id : string)
    (name base_url status : option string) (max_sessions : option Z) : AM (Worker * Z) :=
  fun s =>
  match s.(as_db).(workers) !! worker_id with
  | None => aerr 500 "Internal Server Error" s
  | Some w =>
      let before := worker_audit_dict w in
      let name' := match name with Some n => Some n | None => w.(w_name) end in
      (let@ url' := on_db (match base_url with
                           | Some u => _normalize_url u
                           | None => ret w.(w_base_url)
                           end) in
       let w' := mkWorker name' url' w.(w_token_id) (default w.(w_status) status)
                   (default w.(w_max_sessions) max_sessions) w.(w_current_jobs)
                   w.(w_last_heartbeat) w.(w_created_at) in
       let@ _ := on_db (write_worker worker_id w') in
       let@ db' := on_db get_db in
       let counts := _active_session_counts [worker_id] db' in
       let@ _ := record_audit context "worker.update" "worker" (Some worker_id)
                   (Some before) (Some (worker_audit_dict w')) in
       aret (w', count_get counts worker_id)) s
  end.

(* ------------------------------------------------------------------ *)
(** ** TokenVaultService.revoke_token (app/services/token_vault.py) *)

(** What [TokenVaultService.revoke_token(token_id)] does to the
    [admin_tokens] table and what it returns; [clock] is
    [datetime.now(timezone.utc)].  The whole method, with its audit
    entry, is [TokenVaultService.revoke_token] below. *)
Definition revoke_token (token_id : string) (clock : Z) : M AdminToken :=
  fun db =>
  match db.(tokens) !! token_id with
  | None => err 404 "Token not found." db
  | Some token =>
      if token.(at_revoked_at) then ret token db
      else
        let token' := mkAdminToken token.(at_token_ciphertext) (Some clock) in
        ret token' (set_tokens (<[token_id := token']> db.(tokens)) db)
  end.

Module TokenVaultService.

(** [TokenVaultService.revoke_token(token_id, context)]: [isoformat] is
    [datetime.isoformat] on the stored stamps. *)
Definition revoke_token (isoformat : Z -> string) (clock : Z) (context : AuditContext)
    (token_id : string) : AM AdminToken :=
  fun s =>
  match s.(as_db).(tokens) !! token_id with
  | None => aerr 404 "Token not found." s
  | Some token =>
      if token.(at_revoked_at) then aret token s
      else
        let before := [("revoked_at", match token.(at_revoked_at) with
                                      | Some t => AVStr (isoformat t)
                                      | None => AVNone
                                      end)] in
        let token' := mkAdminToken token.(at_token_ciphertext) (Some clock) in
        (let@ _ := on_db (modify (fun db => set_tokens (<[token_id := token']> db.(tokens)) db)) in
         let@ _ := record_audit context "admin.token.revoke" "admin_token" (Some token_id)
                     (Some before) (Some [("revoked_at", AVStr (isoformat clock))]) in
         aret token') s
  end.

End TokenVaultService.

(* ------------------------------------------------------------------ *)
(** ** VpsProductService (app/services/vps_products.py) *)

(** [VpsProductService._get_product(product_id)]. *)
Definition _get_product (product_id : string) : M VpsProduct :=
  fun db =>
  match db.(products) !! product_id with
  | None => err 404 "Product not found." db
  | Some p => ret p db
  end.

Definition write_product (pid : string) (p : VpsProduct) : M unit :=
  modify (fun db => set_products (<[pid := p]> db.(products)) db).

(** [VpsProductService.create_product(...)]; [new_id] is the new row's id.
    The pool is the list of rows [_resolve_workers] returned.  [name],
    [description] and the audit record are not modelled. *)
Definition create_product (new_id : string) (price_coins provision_action : Z)
    (is_active : bool) (worker_ids : list string) : M VpsProduct :=
  if price_coins <? 0 then err 400 "price_coins must be >= 0" else
  let! ws := _resolve_workers worker_ids in
  let product := mkVpsProduct price_coins provision_action is_active (map fst ws) in
  let! _ := write_product new_id product in
  ret product.

(** [VpsProductService.update_product(product_id, ...)] ([None] is an
    omitted field); the changes reach the table at the commit.  [name],
    [description], [updated_at] and the audit record are not modelled. *)
Definition update_product (product_id : string) (price_coins provision_action : option Z)
    (is_active : option bool) (worker_ids : option (list string)) : M VpsProduct :=
  let! product := _get_product product_id in
  let! price := match price_coins with
                | Some c => if c <? 0 then err 400 "price_coins must be >= 0" else ret c
                | None => ret product.(p_price_coins)
                end in
  let! pool := match worker_ids with
               | Some ids => let! ws := _resolve_workers ids in ret (map fst ws)
               | None => ret product.(p_workers)
               end in
  let product' := mkVpsProduct price (default product.(p_provision_action) provision_action)
                    (default product.(p_is_active) is_active) pool in
  let! _ := write_product product_id product' in
  ret product'.

(** [VpsProductService.deactivate_product(product_id)]. *)
Definition deactivate_product (product_id : string) : M VpsProduct :=
  let! product := _get_product product_id in
  let product' := mkVpsProduct product.(p_price_coins) product.(p_provision_action)
                    false product.(p_workers) in
  let! _ := write_product product_id product' in
  ret product'.

(** [VpsProductService.delete_product(product_id)]: the row is deleted
    and its former values returned. *)
Definition delete_product (product_id : string) : M VpsProduct :=
  let! product := _get_product product_id in
  let! _ := modify (fun db => set_products (delete product_id db.(products)) db) in
  ret product.

(** The catalogue operations of the admin API. *)
Inductive ProductOp :=
  | OpCreate (new_id : string) (price_coins provision_action : Z) (is_active : bool)
      (worker_ids : list string)
  | OpUpdate (product_id : string) (price_coins provision_action : option Z)
      (is_active : option bool) (worker_ids : option (list string))
  | OpDeactivate (product_id : string)
  | OpDelete (product_id : string).

Definition product_step (db : DB) (op : ProductOp) : DB :=
  match op with
  | OpCreate i c a act ids => fst (create_product i c a act ids db)
  | OpUpdate i c a act ids => fst (update_product i c a act ids db)
  | OpDeactivate i => fst (deactivate_product i db)
  | OpDelete i => fst (delete_product i db)
  end.

Definition run_products (ops : list ProductOp) (db : DB) : DB :=
  foldl product_step db ops.

(* ------------------------------------------------------------------ *)
(** ** GiftCodeService (app/services/giftcodes.py) *)

(** [GiftCode] row (table [gift_codes]); [created_at] is not modelled. *)
Record GiftCode := mkGiftCode {
  gc_title : string;
  gc_code : string;
  gc_reward_amount : Z;
  gc_total_uses : Z;
  gc_redeemed_count : Z;
  gc_is_active : bool;
  gc_created_by : option string;
  gc_updated_at : option Z
}.

(** [GiftCodeRedemption] row (table [gift_code_redemptions]). *)
Record GiftCodeRedemption := mkGiftCodeRedemption {
  gr_gift_code_id : string;
  gr_user_id : string;
  gr_reward_amount : Z
}.

(** The unit of work of a gift-code request: the tables of [DB] and the
    two gift-code tables. *)
Record GiftState := mkGiftState {
  gs_db : DB;
  gift_codes : gmap string GiftCode;
  redemptions : list GiftCodeRedemption
}.

Definition GM (A : Type) := GiftState -> GiftState * (HttpError + A).

Definition gret {A} (a : A) : GM A := fun gs => (gs, inr a).
Definition gerr {A} (code : Z) (detail : string) : GM A :=
  fun gs => (gs, inl (HTTPException code detail)).
Definition gbind {A B} (m : GM A) (k : A -> GM B) : GM B :=
  fun gs => match m gs with
            | (gs', inl e) => (gs', inl e)
            | (gs', inr a) => k a gs'
            end.

Notation "'let?' x := m 'in' k" := (gbind m (fun x => k))
  (at level 200, x name, m at level 100, k at level 200).

(** A [DB] computation (e.g. [WalletService]) run on the same session. *)
Definition lift_db {A} (m : M A) : GM A :=
  fun gs => let '(db', r) := m gs.(gs_db) in
            (mkGiftState db' gs.(gift_codes) gs.(redemptions), r).

Definition write_code (cid : string) (gc : GiftCode) : GM unit :=
  fun gs => (mkGiftState gs.(gs_db) (<[cid := gc]> gs.(gift_codes)) gs.(redemptions), inr tt).

(** [str.upper()] of one character (text is read as Latin-1): the letters
    a-z and the Latin-1 letters U+00E0-U+00FE but U+00F7 move down by 32,
    U+00DF becomes "SS"; U+00B5 and U+00FF, whose upper case lies outside
    Latin-1, are kept like every other character. *)
Definition py_upper_char (c : ascii) : list ascii :=
  let n := nat_of_ascii c in
  if (Nat.leb 97 n && Nat.leb n 122)
     || (Nat.leb 224 n && Nat.leb n 254 && negb (Nat.eqb n 247))
  then [ascii_of_nat (n - 32)]
  else if Nat.eqb n 223 then ["S"; "S"]%char
  else [c].

(** [s.upper()]. *)
Definition py_upper (s : string) : string :=
  string_of_list_ascii (flat_map py_upper_char (list_ascii_of_string s)).

(** [Result.scalar_one_or_none()]: [MultipleResultsFound] escapes as a 500. *)
Definition scalar_one_or_none {A} (rows : list A) : GM (option A) :=
  match rows with
  | [] => gret None
  | [x] => gret (Some x)
  | _ => gerr 500 "Internal Server Error"
  end.

(** [GiftCodeService.get_by_id(gift_code_id)]. *)
Definition get_by_id (gift_code_id : string) : GM GiftCode :=
  fun gs => match gs.(gift_codes) !! gift_code_id with
            | None => gerr 404 "giftcode_not_found" gs
            | Some gc => gret gc gs
            end.

(** [GiftCodeService._normalize_code(code)]. *)
Definition _normalize_code (code : string) : GM string :=
  let normalized := py_upper (py_strip code) in
  if String.eqb normalized EmptyString then gerr 400 "giftcode_code_required"
  else if Nat.ltb 64 (String.length normalized) then gerr 400 "giftcode_code_too_long"
  else gret normalized.

(** [select(GiftCode).where(GiftCode.code == code)], with
    [.where(GiftCode.id != exclude_id)] when an id is excluded. *)
Definition codes_with (gs : GiftState) (code : string) (exclude_id : option string)
    : list (string * GiftCode) :=
  filter (fun ic => ic.2.(gc_code) = code /\ Some ic.1 <> exclude_id)
         (map_to_list gs.(gift_codes)).

(** [GiftCodeService._ensure_unique_code(normalized_code, exclude_id)]. *)
Definition _ensure_unique_code (normalized_code : string) (exclude_id : option string) : GM unit :=
  fun gs =>
  (let? existing := scalar_one_or_none (codes_with gs normalized_code exclude_id) in
   match existing with
   | Some _ => gerr 409 "giftcode_code_taken"
   | None => gret tt
   end) gs.

(** [GiftCodeService.create_code(title, code, reward_amount, total_uses,
    is_active, created_by)]; [new_id] is the new row's id.  A title longer
    than the [String(150)] column fails at the commit. *)
Definition create_code (new_id : string) (title code : string) (reward_amount total_uses : Z)
    (is_active : bool) (created_by : option string) : GM GiftCode :=
  if reward_amount <? 1 then gerr 400 "giftcode_reward_invalid" else
  if total_uses <? 1 then gerr 400 "giftcode_total_invalid" else
  let? normalized_code := _normalize_code code in
  let? _ := _ensure_unique_code normalized_code None in
  let gift_code := mkGiftCode (py_strip title) normalized_code reward_amount total_uses
                     0 is_active created_by None in
  if Nat.ltb 150 (String.length gift_code.(gc_title)) then gerr 500 "Internal Server Error" else
  let? _ := write_code new_id gift_code in
  gret gift_code.

(** [GiftCodeService.update_code(gift_code, ...)] on the row the router
    loaded with [get_by_id(gift_code_id)] ([None] is an omitted field);
    [clock] is [datetime.now(timezone.utc)].  The attributes reach the
    table at the commit. *)
Definition update_code (gift_code_id : string) (clock : Z) (title code : option string)
    (reward_amount total_uses : option Z) (is_active : option bool) : GM GiftCode :=
  let? gift_code := get_by_id gift_code_id in
  let? code' := match code with
                | Some c =>
                    let? normalized := _normalize_code c in
                    if String.eqb normalized gift_code.(gc_code) then gret gift_code.(gc_code)
                    else let? _ := _ensure_unique_code normalized (Some gift_code_id) in
                         gret normalized
                | None => gret gift_code.(gc_code)
                end in
  let title' := match title with Some t => py_strip t | None => gift_code.(gc_title) end in
  let? reward' := match reward_amount with
                  | Some r => if r <? 1 then gerr 400 "giftcode_reward_invalid" else gret r
                  | None => gret gift_code.(gc_reward_amount)
                  end in
  let? total' := match total_uses with
                 | Some t =>
                     if t <? 1 then gerr 400 "giftcode_total_invalid"
                     else if t <? gift_code.(gc_redeemed_count)
                     then gerr 400 "giftcode_total_below_redeemed"
                     else gret t
                 | None => gret gift_code.(gc_total_uses)
                 end in
  let active' := default gift_code.(gc_is_active) is_active in
  let gift_code' := mkGiftCode title' code' reward' total' gift_code.(gc_redeemed_count)
                      active' gift_code.(gc_created_by) (Some clock) in
  if Nat.ltb 150 (String.length title') then gerr 500 "Internal Server Error" else
  let? _ := write_code gift_code_id gift_code' in
  gret gift_code'.

(** [select(GiftCodeRedemption).where(gift_code_id == ..., user_id == ...)]. *)
Definition redemptions_of (gs : GiftState) (cid uid : string) : list GiftCodeRedemption :=
  filter (fun r => r.(gr_gift_code_id) = cid /\ r.(gr_user_id) = uid) gs.(redemptions).

(** [GiftCodeService.redeem_code(user, code)] for the user with id [uid];
    [clock] is [datetime.now(timezone.utc)]. *)
Definition redeem_code (uid : string) (clock : Z) (code : string)
    : GM (GiftCodeRedemption * GiftCode) :=
  let? normalized_code := _normalize_code code in
  fun gs =>
  (let? found := scalar_one_or_none (codes_with gs normalized_code None) in
   match found with
   | None => gerr 404 "giftcode_not_found"
   | Some (cid, gift_code) =>
   if negb gift_code.(gc_is_active) then gerr 404 "giftcode_not_found" else
   if gift_code.(gc_total_uses) <=? gift_code.(gc_redeemed_count)
   then gerr 409 "giftcode_out_of_stock" else
   fun gs1 =>
   (let? existing := scalar_one_or_none (redemptions_of gs1 cid uid) in
    match existing with
    | Some _ => gerr 409 "giftcode_already_redeemed"
    | None =>
        let? _ := lift_db (adjust_balance uid gift_code.(gc_reward_amount) "giftcode.redeem"
                             (Some cid) (Some [("code", gift_code.(gc_code))]) clock) in
        let redemption := mkGiftCodeRedemption cid uid gift_code.(gc_reward_amount) in
        let gift_code' := mkGiftCode gift_code.(gc_title) gift_code.(gc_code)
                            gift_code.(gc_reward_amount) gift_code.(gc_total_uses)
                            (gift_code.(gc_redeemed_count) + 1) gift_code.(gc_is_active)
                            gift_code.(gc_created_by) (Some clock) in
        let? _ := write_code cid gift_code' in
        let? _ := (fun gs2 => (mkGiftState gs2.(gs_db) gs2.(gift_codes)
                                  (gs2.(redemptions) ++ [redemption]), inr tt)) in
        gret (redemption, gift_code')
    end) gs1
   end) gs.

(** The gift-code operations of the admin and user APIs ([delete_code]
    is left out: its effect on the redemption rows depends on the ORM
    mapping of app.models, which is not in src/). *)
Inductive GiftOp :=
  | GCreate (new_id title code : string) (reward_amount total_uses : Z) (is_active : bool)
      (created_by : option string)
  | GUpdate (gift_code_id : string) (clock : Z) (title code : option string)
      (reward_amount total_uses : option Z) (is_active : option bool)
  | GRedeem (uid : string) (clock : Z) (code : string).

Definition gift_step (gs : GiftState) (op : GiftOp) : GiftState :=
  match op with
  | GCreate i t c r n a b => fst (create_code i t c r n a b gs)
  | GUpdate i k t c r n a => fst (update_code i k t c r n a gs)
  | GRedeem u k c => fst (redeem_code u k c gs)
  end.

Definition run_gift (ops : list GiftOp) (gs : GiftState) : GiftState :=
  foldl gift_step gs ops.

(* ------------------------------------------------------------------ *)
(** ** Secrets (app/security/crypto.py) *)

(** [mask_token(token)], a [str] as its list of code points. *)
Definition BULLET : Z := 8226.

Definition mask_token (token : list Z) : list Z :=
  if Nat.leb (length token) 4 then token
  else take 4 token ++ List.repeat BULLET (length token - 4).

(** The fallback [AESGCM] class, used when [cryptography] is missing;
    bytes are lists of integers in [0, 256). *)
Section FallbackAESGCM.

(** [hashlib.sha256(m).digest()] and
    [hmac.new(key, m, hashlib.sha256).digest()]. *)
Variable sha256_digest : list Z -> list Z.
Variable hmac_sha256_digest : list Z -> list Z -> list Z.

Definition _TAG_LENGTH : nat := 32.

(** [counter.to_bytes(4, "big")] (for [counter < 2^32]). *)
Definition to_bytes4_big (n : Z) : list Z :=
  [Z.land (Z.shiftr n 24) 255; Z.land (Z.shiftr n 16) 255;
   Z.land (Z.shiftr n 8) 255; Z.land n 255].

(** The [while len(output) < length] loop of [_expand]; each round adds
    one digest, so [length] rounds suffice for digests of at least one
    byte, and [fuel] bounds the rounds. *)
Fixpoint expand_loop (fuel : nat) (key nonce : list Z) (length : nat) (counter : Z)
    (output : list Z) : list Z :=
  match fuel with
  | O => output
  | S fuel' =>
      if Nat.ltb (List.length output) length then
        expand_loop fuel' key nonce length (counter + 1)
          (output ++ sha256_digest (nonce ++ to_bytes4_big counter ++ key))
      else output
  end.

(** [AESGCM._expand(nonce, length)]. *)
Definition _expand (key nonce : list Z) (length : nat) : list Z :=
  take length (expand_loop length key nonce length 0 []).

(** [associated_data or b""]. *)
Definition ad_bytes (associated_data : option (list Z)) : list Z :=
  default [] associated_data.

(** [AESGCM.encrypt(nonce, data, associated_data)]. *)
Definition aesgcm_encrypt (key nonce data : list Z) (associated_data : option (list Z)) : list Z :=
  let stream := _expand key nonce (length data) in
  let ciphertext := zip_with Z.lxor data stream in
  let mac := hmac_sha256_digest key (nonce ++ ciphertext ++ ad_bytes associated_data) in
  ciphertext ++ mac.

(** [AESGCM.decrypt(nonce, data, associated_data)]: the plaintext, or the
    text of the [ValueError] it raises. *)
Definition aesgcm_decrypt (key nonce data : list Z) (associated_data : option (list Z))
    : string + list Z :=
  if Nat.ltb (length data) _TAG_LENGTH then inl "ciphertext too short" else
  let ciphertext := take (length data - _TAG_LENGTH) data in
  let tag := drop (length data - _TAG_LENGTH) data in
  let expected := hmac_sha256_digest key (nonce ++ ciphertext ++ ad_bytes associated_data) in
  if bool_decide (tag = expected) then
    let stream := _expand key nonce (length ciphertext) in
    inr (zip_with Z.lxor ciphertext stream)
  else inl "authentication failed".

End FallbackAESGCM.

(* ------------------------------------------------------------------ *)
(** ** A concrete callback scenario *)

(** Stand-ins for the library primitives: canonical ids are their own
    text, every timestamp except "nan" reads as 1000.0, the decrypted
    secret is "k", and a keyed digest that is injective in its message. *)
Definition cb_parse_uuid (s : string) : option string := Some s.
Definition cb_py_float (s : string) : option float :=
  if String.eqb s "nan" then Some nan else Some 1000%float.
Definition cb_decrypt (ct : string) : option string := Some "k".
Definition cb_hmac (key msg : string) : string := "mac:" +:+ key +:+ msg.
Definition cb_py_int (j : Json) : option Z := match j with JInt z => Some z | _ => None end.

Definition cb_fields : list (string * Json) :=
  [("session_id", JStr "s1"); ("status", JStr "failed")].
Definition cb_json_loads (body : string) : option Json := Some (JObj cb_fields).

Definition cb_body : string := "session s1 failed".
Definition cb_req : Request :=
  mkRequest (Some "w1") (Some "1000") (Some (cb_hmac "k" (cb_body +:+ "1000"))) cb_body.

Definition cb_worker : Worker := mkWorker (Some "w1") "http://w1" (Some "t1") "busy" 3 1 None 0.
Definition cb_basic : VpsProduct := mkVpsProduct 25 1 true ["w1"].
Definition cb_session (st : string) : VpsSession :=
  mkVpsSession (Some "u1") (Some "basic") (Some "w1") st (JList []) JNull JNull JNull JNull JNull
    (Some "key-1") None.

Definition cb_register_payload : list (string * Json) :=
  [("token_id", JStr "t1"); ("admin_token", JStr "k"); ("base_url", JStr "http://w2/");
   ("name", JStr "w2")].
Definition cb_register_db : DB :=
  mkDB ∅ ∅ [] ∅ {[ "t1" := mkAdminToken "ct" None ]} ∅ ∅.

Definition cb_db (st : string) : DB :=
  mkDB {[ "u1" := 50 ]} ∅ [] {[ "w1" := cb_worker ]} {[ "t1" := mkAdminToken "ct" None ]}
       {[ "basic" := cb_basic ]} {[ "s1" := cb_session st ]}.

(* ================================================================== *)
(** * Proofs *)

(* ------------------------------------------------------------------ *)
(** ** Wallet ledger *)

(** The wallet invariant that [adjust_balance] maintains: a wallet row
    holds the legacy coins [c0 u] it was seeded with plus the user's
    ledger entries, and is not negative; without a wallet row the user has
    no ledger entries and still holds [c0 u] legacy coins. *)
Definition wallet_inv (c0 : string -> Z) (db : DB) : Prop :=
  forall v, match db.(wallets) !! v with
            | Some w => w.(wl_balance) = c0 v + ledger_sum v db.(ledger)
                        /\ 0 <= w.(wl_balance)
            | None => ledger_sum v db.(ledger) = 0 /\ user_coins db v = c0 v
            end.

Lemma ledger_sum_app_single (v : string) (l : list LedgerEntry) (e : LedgerEntry) :
  ledger_sum v (l ++ [e]) =
  ledger_sum v l + (if String.eqb e.(le_user_id) v then e.(le_amount) else 0).
Proof.
  unfold ledger_sum. rewrite fold_right_app. simpl.
  induction l as [|x l IH]; simpl.
  - destruct (String.eqb (le_user_id e) v); lia.
  - rewrite IH. destruct (String.eqb (le_user_id x) v); lia.
Qed.

Lemma user_coins_insert (db : DB) (m : gmap string Z) (u v : string) (n : Z) :
  users db = m ->
  user_coins (set_users (<[u := n]> m) db) v =
  if String.eqb u v then n else user_coins db v.
Proof.
  intros <-. unfold user_coins; simpl.
  destruct (String.eqb_spec u v) as [->|Hne].
  - by rewrite lookup_insert_eq.
  - by rewrite lookup_insert_ne.
Qed.

Lemma adjust_balance_inv (c0 : string -> Z) (u : string) (amount : Z)
    (ty : string) (r : option string) (meta : option Meta) (clock : Z) (db : DB) :
  (forall v, 0 <= c0 v) -> wallet_inv c0 db ->
  wallet_inv c0 (fst (adjust_balance u amount ty r meta clock db)).
Proof.
  intros Hc0 Hinv. unfold adjust_balance.
  destruct (wallets db !! u) as [w|] eqn:Hw.
  - destruct (w.(wl_balance) + amount <? 0) eqn:Hneg; simpl; [exact Hinv|].
    apply Z.ltb_ge in Hneg.
    intros v. simpl. rewrite ledger_sum_app_single. simpl.
    destruct (String.eqb_spec u v) as [->|Hne].
    + rewrite lookup_insert_eq; simpl.
      specialize (Hinv v). rewrite Hw in Hinv. destruct Hinv as [Hb _]. lia.
    + rewrite lookup_insert_ne by exact Hne.
      specialize (Hinv v). destruct (wallets db !! v) as [w'|] eqn:Hw'.
      * rewrite Z.add_0_r. exact Hinv.
      * rewrite Z.add_0_r. unfold user_coins; simpl.
        rewrite lookup_insert_ne by exact Hne. exact Hinv.
  - specialize (Hinv u) as Hu. rewrite Hw in Hu. destruct Hu as [Hs Hcu].
    destruct (user_coins db u + amount <? 0) eqn:Hneg; simpl.
    + intros v. simpl. destruct (String.eqb_spec u v) as [->|Hne].
      * rewrite lookup_insert_eq; simpl. rewrite Hs, Hcu.
        specialize (Hc0 v). lia.
      * rewrite lookup_insert_ne by exact Hne. exact (Hinv v).
    + apply Z.ltb_ge in Hneg.
      intros v. simpl. rewrite ledger_sum_app_single. simpl.
      destruct (String.eqb_spec u v) as [->|Hne].
      * rewrite !lookup_insert_eq; simpl. rewrite Hs, <- Hcu. lia.
      * rewrite !lookup_insert_ne by exact Hne.
        specialize (Hinv v). destruct (wallets db !! v) as [w'|] eqn:Hw'.
        -- rewrite Z.add_0_r. exact Hinv.
        -- rewrite Z.add_0_r. unfold user_coins; simpl.
           rewrite lookup_insert_ne by exact Hne. exact Hinv.
Qed.

Lemma run_adjusts_inv (c0 : string -> Z) (calls : list AdjustCall) (db : DB) :
  (forall v, 0 <= c0 v) -> wallet_inv c0 db -> wallet_inv c0 (run_adjusts calls db).
Proof.
  intros Hc0. revert db. induction calls as [|c cs IH]; intros db Hinv; simpl.
  - exact Hinv.
  - apply IH. by apply adjust_balance_inv.
Qed.

(* ------------------------------------------------------------------ *)
(** ** Claims on the wallet ledger *)

Lemma adjust_balance_frame (u : string) (amount : Z) (ty : string)
    (r : option string) (meta : option Meta) (clock : Z) (db : DB) :
  let db' := fst (adjust_balance u amount ty r meta clock db) in
  db'.(sessions) = db.(sessions) /\ db'.(products) = db.(products) /\
  db'.(workers) = db.(workers) /\ db'.(tokens) = db.(tokens).
Proof.
  unfold adjust_balance.
  destruct (wallets db !! u); [destruct (_ <? 0)|destruct (_ <? 0)];
    simpl; repeat split.
Qed.

Lemma adjust_balance_success (u : string) (amount : Z) (ty : string)
    (r : option string) (meta : option Meta) (clock : Z) (db db' : DB) (n : Z) :
  adjust_balance u amount ty r meta clock db = (db', inr n) ->
  n = get_balance db u + amount /\ 0 <= n /\
  db'.(ledger) = (db.(ledger) ++ [mkLedgerEntry u ty amount n r (default [] meta)])%list /\
  get_balance db' u = n /\ db'.(users) !! u = Some n.
Proof.
  unfold adjust_balance, get_balance.
  destruct (wallets db !! u) as [w|] eqn:Hw.
  - destruct (w.(wl_balance) + amount <? 0) eqn:Hneg; [discriminate|].
    apply Z.ltb_ge in Hneg. intros H; injection H as <- <-. simpl.
    rewrite !lookup_insert_eq. repeat split; lia.
  - destruct (user_coins db u + amount <? 0) eqn:Hneg; [discriminate|].
    apply Z.ltb_ge in Hneg. intros H; injection H as <- <-. simpl.
    rewrite !lookup_insert_eq. repeat split; lia.
Qed.

Lemma adjust_balance_succeeds (u : string) (amount : Z) (ty : string)
    (r : option string) (meta : option Meta) (clock : Z) (db : DB) :
  0 <= get_balance db u + amount ->
  exists db', adjust_balance u amount ty r meta clock db = (db', inr (get_balance db u + amount)).
Proof.
  unfold adjust_balance, get_balance. intros Hnn.
  destruct (wallets db !! u) as [w|] eqn:Hw.
  - destruct (w.(wl_balance) + amount <? 0) eqn:Hneg;
      [apply Z.ltb_lt in Hneg; lia | eexists; reflexivity].
  - destruct (user_coins db u + amount <? 0) eqn:Hneg;
      [apply Z.ltb_lt in Hneg; lia | eexists; reflexivity].
Qed.

(** C2 (as stated: the stored balance equals the sum of the user's ledger
    entries) fails: a user with 100 legacy coins and no wallet row gets a
    wallet seeded with those coins, so one reward of 10 leaves a balance
    of 110 against a ledger sum of 10. *)
Lemma C2_balance_differs_from_ledger_sum :
  let db1 := run_adjusts [mkAdjustCall "u" 10 "ads.reward" None 1]
               (set_users {[ "u" := 100 ]} empty_db) in
  wallet_balance db1 "u" = Some 110 /\ ledger_sum "u" db1.(ledger) = 10 /\
  wallet_balance db1 "u" <> Some (ledger_sum "u" db1.(ledger)).
Proof. vm_compute. repeat split; discriminate. Qed.

(** C2 (amended): starting from no wallet rows, an empty ledger and
    non-negative legacy coins, after any sequence of [adjust_balance]
    calls every stored wallet balance equals the user's initial legacy
    coins plus the sum of the user's ledger entries, and is never
    negative. *)
Theorem wallet_balance_is_seed_plus_ledger (calls : list AdjustCall) (db0 : DB) :
  db0.(wallets) = ∅ -> db0.(ledger) = [] -> (forall v, 0 <= user_coins db0 v) ->
  forall u b, wallet_balance (run_adjusts calls db0) u = Some b ->
  b = user_coins db0 u + ledger_sum u (run_adjusts calls db0).(ledger) /\ 0 <= b.
Proof.
  intros Hw Hl Hc u b Hb.
  assert (Hinv : wallet_inv (user_coins db0) (run_adjusts calls db0)).
  { apply run_adjusts_inv; [exact Hc|].
    intros v. rewrite Hw, lookup_empty, Hl. split; reflexivity. }
  specialize (Hinv u). unfold wallet_balance in Hb.
  destruct (wallets (run_adjusts calls db0) !! u) as [w|]; simpl in Hb;
    [|discriminate].
  injection Hb as <-. exact Hinv.
Qed.

Lemma wallet_balance_is_seed_plus_ledger_witness :
  let db0 := set_users {[ "u" := 100 ]} empty_db in
  let calls := [mkAdjustCall "u" 10 "ads.reward" None 1;
                mkAdjustCall "u" (-30) "vps.purchase" None 2] in
  wallet_balance (run_adjusts calls db0) "u" = Some 80 /\
  80 = user_coins db0 "u" + ledger_sum "u" (run_adjusts calls db0).(ledger) /\ 0 <= 80.
Proof.
  intros db0 calls. split; [vm_compute; reflexivity|].
  apply (wallet_balance_is_seed_plus_ledger calls db0);
    [reflexivity | reflexivity | | vm_compute; reflexivity].
  intros v. unfold user_coins; simpl.
  destruct (String.eqb_spec v "u") as [->|Hne].
  - rewrite lookup_singleton_eq. simpl. lia.
  - rewrite lookup_singleton_ne by congruence. simpl. lia.
Defined.

(** C3 (as stated: a rejected call creates no wallet row) fails: for a
    user without a wallet row, the row seeded with the legacy coins is
    added and flushed before the balance check rejects the call. *)
Lemma C3_rejection_flushes_wallet_row :
  let db := set_users {[ "u" := 5 ]} empty_db in
  db.(wallets) !! "u" = None /\
  adjust_balance "u" (-10) "vps.purchase" None None 1 db =
    (set_wallets {[ "u" := mkWallet 5 None ]} db,
     inl (HTTPException 400 "Insufficient balance")).
Proof. split; reflexivity. Qed.

(** C3 (amended): [adjust_balance u delta] rejects with "Insufficient
    balance" exactly when the current balance plus [delta] is negative;
    then no ledger entry is added, the legacy coins and the balance are
    unchanged, and the only write is the seeded wallet row when the user
    had none.  Otherwise it stores the new balance (wallet and legacy
    coins), appends exactly one ledger entry recording [delta], and
    returns the new balance. *)
Theorem adjust_balance_spec (u : string) (amount : Z) (ty : string)
    (r : option string) (meta : option Meta) (clock : Z) (db : DB) :
  let cur := get_balance db u in
  let '(db', res) := adjust_balance u amount ty r meta clock db in
  (cur + amount < 0 ->
     res = inl (HTTPException 400 "Insufficient balance") /\
     db'.(ledger) = db.(ledger) /\ db'.(users) = db.(users) /\
     get_balance db' u = cur /\
     db' = match db.(wallets) !! u with
           | Some _ => db
           | None => set_wallets (<[u := mkWallet cur None]> db.(wallets)) db
           end) /\
  (0 <= cur + amount ->
     res = inr (cur + amount) /\
     db'.(ledger) = (db.(ledger) ++
                    [mkLedgerEntry u ty amount (cur + amount) r (default [] meta)])%list /\
     get_balance db' u = cur + amount /\ user_coins db' u = cur + amount).
Proof.
  unfold get_balance, adjust_balance.
  destruct (wallets db !! u) as [w|] eqn:Hw.
  - destruct (w.(wl_balance) + amount <? 0) eqn:Hneg.
    + apply Z.ltb_lt in Hneg. split; [|lia].
      intros _. rewrite Hw. repeat split.
    + apply Z.ltb_ge in Hneg. split; [lia|]. intros _.
      unfold user_coins; simpl. rewrite !lookup_insert_eq. repeat split.
  - destruct (user_coins db u + amount <? 0) eqn:Hneg.
    + apply Z.ltb_lt in Hneg. split; [|lia].
      intros _. simpl. rewrite lookup_insert_eq. repeat split.
    + apply Z.ltb_ge in Hneg. split; [lia|]. intros _.
      unfold user_coins; simpl. rewrite !lookup_insert_eq. repeat split.
Qed.

(* ------------------------------------------------------------------ *)
(** ** Purchase *)

(** The scenario of [test_purchase_and_create_idempotent]: balance 100,
    price 25, one active worker with capacity 3. *)
Definition scenario_db : DB :=
  mkDB {[ "user" := 100 ]} ∅ []
       {[ "worker-1" := mkWorker (Some "worker-1") "http://worker" None "active" 3 0 None 0 ]}
       ∅
       {[ "basic" := mkVpsProduct 25 1 true ["worker-1"] ]}
       ∅.

Example purchase_scenario :
  let '(db1, r1) := purchase_and_create (fun _ _ => true) "s1" 1 "user" "basic" "abc-123" scenario_db in
  let '(db2, r2) := purchase_and_create (fun _ _ => true) "s2" 2 "user" "basic" "abc-123" db1 in
  r1 = inr ("s1", true, [("worker-1", "s1")]) /\ get_balance db1 "user" = 75 /\
  r2 = inr ("s1", false, []) /\ get_balance db2 "user" = 75.
Proof. vm_compute. repeat split. Qed.

Lemma get_balance_set_sessions (m : gmap string VpsSession) (db : DB) (u : string) :
  get_balance (set_sessions m db) u = get_balance db u.
Proof. reflexivity. Qed.

Lemma find_session_by_key_insert (db : DB) (u key k : string) (s : VpsSession) :
  find_session_by_key db u key = None ->
  s.(vs_user_id) = Some u -> s.(vs_idempotency_key) = Some key ->
  find_session_by_key (set_sessions (<[k := s]> db.(sessions)) db) u key = Some k.
Proof.
  unfold find_session_by_key; simpl. intros Hnone Hu Hk.
  set (P := fun row : string * VpsSession =>
              row.2.(vs_user_id) = Some u /\ row.2.(vs_idempotency_key) = Some key).
  assert (Hempty : filter P (map_to_list (sessions db)) = []).
  { destruct (filter P (map_to_list (sessions db))) as [|row rest] eqn:E; [reflexivity|].
    exfalso. unfold P in E. rewrite E in Hnone. discriminate. }
  assert (Hall : forall x, x ∈ filter P (map_to_list (<[k:=s]> (sessions db))) -> x = (k, s)).
  { intros [i v] Hx. apply list_elem_of_filter in Hx as [HP Hin].
    apply elem_of_map_to_list in Hin.
    destruct (String.eqb_spec k i) as [->|Hne].
    - rewrite lookup_insert_eq in Hin. congruence.
    - rewrite lookup_insert_ne in Hin by exact Hne.
      exfalso. eapply (filter_nil_not_elem_of P); [exact Hempty|exact HP|].
      by apply elem_of_map_to_list. }
  assert (Hin : (k, s) ∈ filter P (map_to_list (<[k:=s]> (sessions db)))).
  { apply list_elem_of_filter. split; [split; assumption|].
    apply elem_of_map_to_list. apply lookup_insert_eq. }
  destruct (filter P (map_to_list (<[k:=s]> (sessions db)))) as [|row rest] eqn:Hf.
  - apply elem_of_nil in Hin. contradiction.
  - assert (row = (k, s)) as -> by (apply Hall; left). reflexivity.
Qed.

(** C1: a purchase for a fresh (user, idempotency key) that succeeds
    creates the session, dispatches once and debits the product price
    once; repeating it with the same key returns the same session id and
    leaves the whole state unchanged, with no dispatch. *)
Theorem purchase_idempotent (dispatch_ok : string -> string -> bool)
    (sid1 sid2 : string) (c1 c2 : Z) (u pid key : string) (db db1 : DB)
    (sid : string) (created : bool) (dispatched : list (string * string)) :
  find_session_by_key db u key = None ->
  purchase_and_create dispatch_ok sid1 c1 u pid key db = (db1, inr (sid, created, dispatched)) ->
  purchase_and_create dispatch_ok sid2 c2 u pid key db1 = (db1, inr (sid, false, [])) /\
  created = true /\ length dispatched = 1%nat /\
  exists p, db.(products) !! pid = Some p /\
    get_balance db1 u = get_balance db u - p.(p_price_coins) /\
    db1.(ledger) = (db.(ledger) ++
      [mkLedgerEntry u "vps.purchase" (- p.(p_price_coins))
         (get_balance db u - p.(p_price_coins)) (Some sid1) []])%list.
Proof.
  intros Hfind H. unfold purchase_and_create in H. rewrite Hfind in H.
  destruct (products db !! pid) as [p|] eqn:Hp; [|discriminate].
  destruct (p_is_active p) eqn:Hact; simpl in H; [|discriminate].
  unfold bind, atomically in H.
  destruct (adjust_balance u (- p_price_coins p) "vps.purchase" (Some sid1) None c1 db)
    as [dba [e|n]] eqn:Ha; [discriminate|].
  destruct (select_worker p dba) as [[wid w]|] eqn:Hsel; simpl in H; [|discriminate].
  destruct (dispatch_ok wid sid1) eqn:Hd; simpl in H.
  - injection H as <- <- <- <-.
    pose proof (adjust_balance_frame u (- p_price_coins p) "vps.purchase" (Some sid1) None c1 db)
      as Hfr. rewrite Ha in Hfr. simpl in Hfr. destruct Hfr as [Hses _].
    apply adjust_balance_success in Ha as (-> & _ & Hl & Hb & _).
    split; [|split; [reflexivity|split; [reflexivity|]]].
    + unfold purchase_and_create.
      rewrite (find_session_by_key_insert dba u key sid1); try reflexivity.
      unfold find_session_by_key in *. rewrite Hses. exact Hfind.
    + exists p. split; [reflexivity|]. simpl.
      rewrite get_balance_set_sessions, Hb, Hl. split; [lia|].
      reflexivity.
  - destruct (adjust_balance u (p_price_coins p) "vps.refund" (Some sid1) None c1 dba)
      as [dbb [e|m]]; discriminate.
Qed.

Lemma purchase_idempotent_witness :
  find_session_by_key scenario_db "user" "abc-123" = None /\
  purchase_and_create (fun _ _ => true) "s1" 1 "user" "basic" "abc-123" scenario_db =
    (fst (purchase_and_create (fun _ _ => true) "s1" 1 "user" "basic" "abc-123" scenario_db),
     inr ("s1", true, [("worker-1", "s1")])) /\
  purchase_and_create (fun _ _ => true) "s2" 2 "user" "basic" "abc-123"
    (fst (purchase_and_create (fun _ _ => true) "s1" 1 "user" "basic" "abc-123" scenario_db)) =
    (fst (purchase_and_create (fun _ _ => true) "s1" 1 "user" "basic" "abc-123" scenario_db),
     inr ("s1", false, [])).
Proof.
  split; [vm_compute; reflexivity|]. split; [vm_compute; reflexivity|].
  apply (purchase_idempotent (fun _ _ => true) "s1" "s2" 1 2 "user" "basic" "abc-123"
           scenario_db _ "s1" true [("worker-1", "s1")]).
  - vm_compute. reflexivity.
  - vm_compute. reflexivity.
Defined.

(* ------------------------------------------------------------------ *)
(** ** Active-session counts and worker selection *)

Lemma foldr_count_session (ids : list string) (wid : string) (l : list (string * VpsSession)) :
  wid ∈ ids ->
  count_get (foldr (count_session ids) ∅ l) wid =
  Z.of_nat (length (filter (fun row => row.2.(vs_worker_id) = Some wid
                                       /\ row.2.(vs_status) ∈ ACTIVE_STATUSES) l)).
Proof.
  intros Hin. induction l as [|[k s] l IH]; [reflexivity|].
  rewrite filter_cons. cbn [foldr]. unfold count_session at 1. cbn [fst snd].
  destruct (vs_worker_id s) as [wid'|] eqn:Hw.
  - destruct (bool_decide (wid' ∈ ids) && bool_decide (vs_status s ∈ ACTIVE_STATUSES)) eqn:Hb.
    + apply andb_true_iff in Hb as [H1 H2]. apply bool_decide_eq_true in H1, H2.
      destruct (String.eqb_spec wid' wid) as [->|Hne].
      * rewrite decide_True by (split; [reflexivity|exact H2]).
        unfold count_get in *. rewrite lookup_insert_eq. cbn [default length].
        rewrite IH. unfold id. lia.
      * rewrite decide_False by (intros [Heq _]; congruence).
        unfold count_get in *. rewrite lookup_insert_ne by congruence. exact IH.
    + rewrite decide_False; [exact IH|].
      intros [Heq Hact]. injection Heq as ->.
      apply andb_false_iff in Hb as [H|H]; apply bool_decide_eq_false in H; contradiction.
  - rewrite decide_False by (intros [Heq _]; congruence). exact IH.
Qed.

(** [counts.get(w, 0)] over [_active_session_counts] is the number of the
    worker's sessions in an active status. *)
Lemma active_session_counts_get (ids : list string) (db : DB) (wid : string) :
  wid ∈ ids ->
  count_get (_active_session_counts ids db) wid = Z.of_nat (active_sessions_of db wid).
Proof.
  intros Hin. unfold _active_session_counts, active_sessions_of.
  destruct ids as [|i ids']; [apply elem_of_nil in Hin; contradiction|].
  by apply foldr_count_session.
Qed.

Lemma fold_left_choice {A} (f : A -> A -> A) (cs : list A) (c : A) :
  (forall best x, f best x = best \/ f best x = x) ->
  fold_left f cs c ∈ c :: cs.
Proof.
  intros Hf. revert c. induction cs as [|x cs IH]; intros c; simpl.
  - left.
  - destruct (Hf c x) as [-> | ->].
    + specialize (IH c). apply elem_of_cons in IH as [->|IH]; [left|right; right; exact IH].
    + right. apply IH.
Qed.

(** C7: the selected worker belongs to the product's pool, is active and
    has fewer sessions in pending, provisioning or ready (counted over the
    session table) than its [max_sessions]; no selection (NoCapacity)
    happens only when every active worker of the pool is at or over its
    [max_sessions]. *)
Theorem select_worker_respects_capacity (p : VpsProduct) (db : DB) :
  match select_worker p db with
  | Some (wid, w) =>
      wid ∈ p.(p_workers) /\ db.(workers) !! wid = Some w /\ w.(w_status) = "active" /\
      Z.of_nat (active_sessions_of db wid) < w.(w_max_sessions)
  | None =>
      forall wid w, wid ∈ p.(p_workers) -> db.(workers) !! wid = Some w ->
      w.(w_status) = "active" -> w.(w_max_sessions) <= Z.of_nat (active_sessions_of db wid)
  end.
Proof.
  unfold select_worker.
  set (counts := _active_session_counts (p_workers p) db).
  set (f := fun wid => match workers db !! wid with
                       | Some w => if String.eqb (w_status w) "active"
                                      && (count_get counts wid <? w_max_sessions w)
                                   then Some (wid, w) else None
                       | None => None
                       end).
  assert (Helig : forall y, y ∈ omap f (p_workers p) ->
            y.1 ∈ p_workers p /\ workers db !! y.1 = Some y.2 /\ w_status y.2 = "active" /\
            Z.of_nat (active_sessions_of db y.1) < w_max_sessions y.2).
  { intros [wid w] Hy. apply list_elem_of_omap in Hy as (wid' & Hin & Hf).
    unfold f in Hf. destruct (workers db !! wid') as [w'|] eqn:Hw; [|discriminate].
    destruct (String.eqb (w_status w') "active" && _) eqn:Hc; [|discriminate].
    injection Hf as <- <-. apply andb_true_iff in Hc as [Hs Hlt].
    apply String.eqb_eq in Hs. apply Z.ltb_lt in Hlt.
    unfold counts in Hlt. rewrite active_session_counts_get in Hlt by exact Hin.
    simpl. auto. }
  fold f. destruct (omap f (p_workers p)) as [|c cs] eqn:Hom.
  - intros wid w Hin Hw Hs.
    destruct (Z.le_gt_cases (w_max_sessions w) (Z.of_nat (active_sessions_of db wid)))
      as [Hle|Hgt]; [exact Hle|exfalso].
    assert (Hf : f wid = Some (wid, w)).
    { unfold f. rewrite Hw, Hs. simpl. unfold counts.
      rewrite active_session_counts_get by exact Hin.
      by rewrite (proj2 (Z.ltb_lt _ _) Hgt). }
    assert (Hy : (wid, w) ∈ omap f (p_workers p)).
    { apply list_elem_of_omap. eauto. }
    rewrite Hom in Hy. apply elem_of_nil in Hy. exact Hy.
  - match goal with |- context [fold_left ?g cs c] => set (step := g) end.
    assert (Hin : fold_left step cs c ∈ c :: cs).
    { apply fold_left_choice. intros best x. unfold step. case_match; auto. }
    destruct (fold_left step cs c) as [wid w].
    exact (Helig (wid, w) Hin).
Qed.

(* ------------------------------------------------------------------ *)
(** ** Event bus *)

(** What [run_bus] keeps: a session's subscriber ids are distinct and
    name existing queues, and a queue with a positive [maxsize] holds at
    most that many items. *)
Definition bus_inv (b : Bus) : Prop :=
  (forall sid l, b.(subscribers) !! sid = Some l ->
     NoDup l /\ forall qid, qid ∈ l -> is_Some (b.(queues) !! qid)) /\
  (forall qid q, b.(queues) !! qid = Some q ->
     1 <= q.(q_maxsize) -> Z.of_nat (length q.(q_items)) <= q.(q_maxsize)).

(** The queue [deliver] leaves: the oldest item dropped when it was full,
    then the event appended. *)
Definition delivered (q : AsyncQueue) (e : Event) : AsyncQueue :=
  mkAsyncQueue q.(q_maxsize)
    ((if queue_full q then tail q.(q_items) else q.(q_items)) ++ [e])%list.

Lemma deliver_bounded (q : AsyncQueue) (e : Event) :
  1 <= q.(q_maxsize) -> Z.of_nat (length q.(q_items)) <= q.(q_maxsize) ->
  deliver q e = delivered q e /\
  Z.of_nat (length (deliver q e).(q_items)) <= q.(q_maxsize).
Proof.
  intros H1 Hle. destruct q as [m items]. simpl in *.
  unfold deliver, delivered, put_nowait, get_nowait, queue_full. simpl.
  destruct ((0 <? m) && (m <=? Z.of_nat (length items))) eqn:Hf.
  - apply andb_true_iff in Hf as [_ Hf]. apply Z.leb_le in Hf.
    destruct items as [|x rest]; simpl in *; [lia|].
    destruct ((0 <? m) && (m <=? Z.of_nat (length rest))) eqn:Hf2.
    + apply andb_true_iff in Hf2 as [_ Hf2]. apply Z.leb_le in Hf2. lia.
    + simpl. split; [reflexivity|]. rewrite length_app. simpl. lia.
  - apply andb_false_iff in Hf as [Hf|Hf]; [apply Z.ltb_ge in Hf; lia|].
    apply Z.leb_gt in Hf. simpl. split; [reflexivity|]. rewrite length_app. simpl. lia.
Qed.

(** [asyncio.Queue(maxsize)] with [maxsize <= 0] is never full. *)
Lemma deliver_unbounded (q : AsyncQueue) (e : Event) :
  q.(q_maxsize) <= 0 ->
  queue_full q = false /\ deliver q e = mkAsyncQueue q.(q_maxsize) (q.(q_items) ++ [e])%list.
Proof.
  intros H. assert (Hf : queue_full q = false).
  { unfold queue_full. destruct (Z.ltb_spec 0 (q_maxsize q)); [lia|reflexivity]. }
  split; [exact Hf|]. unfold deliver, put_nowait. by rewrite Hf.
Qed.

Lemma deliver_delivered (q : AsyncQueue) (e : Event) :
  (1 <= q.(q_maxsize) -> Z.of_nat (length q.(q_items)) <= q.(q_maxsize)) ->
  deliver q e = delivered q e.
Proof.
  intros Hq. destruct (Z.le_gt_cases 1 (q_maxsize q)) as [H1|H1].
  - exact (proj1 (deliver_bounded q e H1 (Hq H1))).
  - destruct (deliver_unbounded q e ltac:(lia)) as [Hf ->].
    unfold delivered. by rewrite Hf.
Qed.

Definition publish_one (e : Event) (m : gmap nat AsyncQueue) (qid : nat) : gmap nat AsyncQueue :=
  match m !! qid with
  | Some q => <[qid := deliver q e]> m
  | None => m
  end.

Lemma publish_queues (b : Bus) (sid : string) (e : Event) :
  (publish b sid e).(queues) = foldl (publish_one e) b.(queues) (default [] (b.(subscribers) !! sid)).
Proof. reflexivity. Qed.

Lemma foldl_publish_one (e : Event) (qs : list nat) (m : gmap nat AsyncQueue) (qid : nat) :
  NoDup qs ->
  foldl (publish_one e) m qs !! qid =
  if bool_decide (qid ∈ qs) then (fun q => deliver q e) <$> m !! qid else m !! qid.
Proof.
  revert m. induction qs as [|x qs IH]; intros m Hnd; simpl.
  - reflexivity.
  - apply NoDup_cons in Hnd as [Hx Hnd]. rewrite IH by exact Hnd.
    destruct (decide (qid = x)) as [->|Hne].
    + rewrite bool_decide_false by exact Hx. rewrite bool_decide_true by (left).
      unfold publish_one. destruct (m !! x) as [q|] eqn:Hq.
      * by rewrite lookup_insert_eq.
      * by rewrite Hq.
    + assert (Hm : publish_one e m x !! qid = m !! qid).
      { unfold publish_one. destruct (m !! x); [by rewrite lookup_insert_ne|reflexivity]. }
      rewrite Hm.
      assert (bool_decide (qid ∈ x :: qs) = bool_decide (qid ∈ qs)) as ->
        by (apply bool_decide_ext; rewrite elem_of_cons; naive_solver).
      reflexivity.
Qed.

Lemma bus_inv_empty : bus_inv empty_bus.
Proof. split; intros ? ? H; simpl in H; by rewrite lookup_empty in H. Qed.

Lemma bus_inv_subs (b : Bus) (sid : string) :
  bus_inv b ->
  NoDup (default [] (b.(subscribers) !! sid)) /\
  forall i, i ∈ default [] (b.(subscribers) !! sid) -> is_Some (b.(queues) !! i).
Proof.
  intros [Hs _]. destruct (subscribers b !! sid) as [l|] eqn:Hl; simpl;
    [exact (Hs _ _ Hl) | split; [constructor | intros ? H; by apply elem_of_nil in H]].
Qed.

Lemma bus_inv_publish (b : Bus) (sid : string) (e : Event) :
  bus_inv b -> bus_inv (publish b sid e).
Proof.
  intros Hb. destruct (bus_inv_subs b sid Hb) as [Hnd _].
  destruct Hb as [Hs Hq]. set (qs := default [] (subscribers b !! sid)). fold qs in Hnd.
  split.
  - intros sid' l Hl. simpl in Hl. destruct (Hs _ _ Hl) as [Hnd' Hin]. split; [exact Hnd'|].
    intros qid Hqid. rewrite publish_queues. fold qs. rewrite foldl_publish_one by exact Hnd.
    destruct (Hin qid Hqid) as [q Hq']. rewrite Hq'. case_bool_decide; eexists; reflexivity.
  - intros qid q Hqq H1. rewrite publish_queues in Hqq. fold qs in Hqq.
    rewrite foldl_publish_one in Hqq by exact Hnd.
    case_bool_decide.
    + destruct (queues b !! qid) as [q0|] eqn:Hq0; simpl in Hqq; [|discriminate].
      injection Hqq as <-.
      assert (Hm : q_maxsize (deliver q0 e) = q_maxsize q0)
        by (rewrite (deliver_delivered q0 e (Hq _ _ Hq0)); reflexivity).
      rewrite Hm in H1 |- *.
      exact (proj2 (deliver_bounded q0 e H1 (Hq _ _ Hq0 H1))).
    + exact (Hq _ _ Hqq H1).
Qed.

Lemma bus_inv_subscribe (b : Bus) (sid : string) (n : Z) :
  bus_inv b -> bus_inv (subscribe b sid n).1.
Proof.
  intros [Hs Hq]. split.
  - intros sid' l Hl. simpl in Hl.
    destruct (decide (sid = sid')) as [->|Hne].
    + rewrite lookup_insert_eq in Hl. injection Hl as <-.
      set (cur := default [] (subscribers b !! sid')).
      assert (Hcur : NoDup cur /\ forall qid, qid ∈ cur -> is_Some (queues b !! qid)).
      { unfold cur. destruct (subscribers b !! sid') as [l|] eqn:Hl; simpl;
          [exact (Hs _ _ Hl) | split; [constructor | intros ? H; by apply elem_of_nil in H]]. }
      destruct Hcur as [Hnd Hin]. simpl.
      case_bool_decide as Hmem.
      * split; [exact Hnd|]. intros qid Hqid.
        destruct (decide (qid = next_queue b)) as [->|Hne];
          [rewrite lookup_insert_eq; eexists; reflexivity|].
        rewrite lookup_insert_ne by congruence. exact (Hin qid Hqid).
      * split; [by constructor|]. intros qid Hqid.
        destruct (decide (qid = next_queue b)) as [->|Hne];
          [rewrite lookup_insert_eq; eexists; reflexivity|].
        rewrite lookup_insert_ne by congruence.
        apply elem_of_cons in Hqid as [->|Hqid]; [contradiction|exact (Hin qid Hqid)].
    + rewrite lookup_insert_ne in Hl by exact Hne. destruct (Hs _ _ Hl) as [Hnd Hin].
      split; [exact Hnd|]. intros qid Hqid. simpl.
      destruct (decide (qid = next_queue b)) as [->|Hne'];
        [rewrite lookup_insert_eq; eexists; reflexivity|].
      rewrite lookup_insert_ne by congruence. exact (Hin qid Hqid).
  - intros qid q Hqq. simpl in Hqq.
    destruct (decide (qid = next_queue b)) as [->|Hne].
    + rewrite lookup_insert_eq in Hqq. injection Hqq as <-. simpl. lia.
    + rewrite lookup_insert_ne in Hqq by congruence. exact (Hq _ _ Hqq).
Qed.

Lemma bus_inv_unsubscribe (b : Bus) (sid : string) (qid : nat) :
  bus_inv b -> bus_inv (unsubscribe b sid qid).
Proof.
  intros [Hs Hq]. unfold unsubscribe.
  destruct (subscribers b !! sid) as [[|x xs]|] eqn:Hl; try (split; assumption).
  destruct (Hs _ _ Hl) as [Hnd Hin].
  assert (Hkeys : forall i, is_Some (queues b !! i) ->
            is_Some ((match queues b !! qid with
                      | Some q => <[qid := mkAsyncQueue (q_maxsize q) []]> (queues b)
                      | None => queues b end) !! i)).
  { intros i Hi. destruct (queues b !! qid) as [q|] eqn:Hqid; [|exact Hi].
    destruct (decide (i = qid)) as [->|Hne];
      [rewrite lookup_insert_eq; eexists; reflexivity | by rewrite lookup_insert_ne]. }
  split.
  - intros sid' l Hl'. simpl in Hl'.
    assert (Hold : NoDup l /\ forall i, i ∈ l -> is_Some (queues b !! i)).
    { destruct (filter (fun y => y <> qid) (x :: xs)) as [|r rs] eqn:Hf.
      - destruct (decide (sid = sid')) as [->|Hne].
        + by rewrite lookup_delete_eq in Hl'.
        + rewrite lookup_delete_ne in Hl' by exact Hne. exact (Hs _ _ Hl').
      - destruct (decide (sid = sid')) as [->|Hne].
        + rewrite lookup_insert_eq in Hl'. injection Hl' as <-. rewrite <- Hf.
          split; [by apply NoDup_filter|].
          intros i Hi. apply list_elem_of_filter in Hi as [_ Hi]. exact (Hin i Hi).
        + rewrite lookup_insert_ne in Hl' by exact Hne. exact (Hs _ _ Hl'). }
    destruct Hold as [Hnd' Hin']. split; [exact Hnd'|]. intros i Hi. apply Hkeys, Hin', Hi.
  - intros i q Hqq. simpl in Hqq.
    destruct (queues b !! qid) as [q0|] eqn:Hq0; [|exact (Hq _ _ Hqq)].
    destruct (decide (i = qid)) as [->|Hne].
    + rewrite lookup_insert_eq in Hqq. injection Hqq as <-. simpl. lia.
    + rewrite lookup_insert_ne in Hqq by congruence. exact (Hq _ _ Hqq).
Qed.

Lemma bus_inv_consume (b : Bus) (qid : nat) :
  bus_inv b -> bus_inv (consume b qid).
Proof.
  intros [Hs Hq]. unfold consume.
  destruct (queues b !! qid) as [q|] eqn:Hq0; [|split; assumption].
  destruct q as [m items]. unfold get_nowait. simpl.
  destruct items as [|x rest]; [split; assumption|].
  pose proof (Hq _ _ Hq0) as H2. simpl in H2.
  split.
  - intros sid l Hl. simpl in Hl. destruct (Hs _ _ Hl) as [Hnd Hin]. split; [exact Hnd|].
    intros i Hi. simpl. destruct (decide (i = qid)) as [->|Hne];
      [rewrite lookup_insert_eq; eexists; reflexivity | rewrite lookup_insert_ne by congruence; exact (Hin i Hi)].
  - intros i q' Hqq. simpl in Hqq. destruct (decide (i = qid)) as [->|Hne].
    + rewrite lookup_insert_eq in Hqq. injection Hqq as <-. simpl. intros H1.
      specialize (H2 H1). lia.
    + rewrite lookup_insert_ne in Hqq by congruence. exact (Hq _ _ Hqq).
Qed.

Lemma bus_step_inv (b : Bus) (op : BusOp) : bus_inv b -> bus_inv (bus_step b op).
Proof.
  intros Hb. destruct op as [sid n|sid e|sid qid|qid]; simpl.
  - by apply bus_inv_subscribe.
  - by apply bus_inv_publish.
  - by apply bus_inv_unsubscribe.
  - by apply bus_inv_consume.
Qed.

Lemma foldl_bus_inv (ops : list BusOp) (b : Bus) : bus_inv b -> bus_inv (foldl bus_step b ops).
Proof.
  revert b. induction ops as [|op ops IH]; intros b Hb; simpl; [exact Hb|].
  apply IH, bus_step_inv, Hb.
Qed.

Lemma run_bus_inv (ops : list BusOp) : bus_inv (run_bus ops).
Proof. apply foldl_bus_inv, bus_inv_empty. Qed.

(** Publishing a run of events to a session whose queue [qid] is
    unbounded appends them all to that queue. *)
Lemma publish_all_unbounded (es : list Event) (b : Bus) (sid : string) (qid : nat)
    (n : Z) (l : list Event) :
  bus_inv b -> n <= 0 -> qid ∈ default [] (b.(subscribers) !! sid) ->
  b.(queues) !! qid = Some (mkAsyncQueue n l) ->
  (foldl bus_step b (map (OpPublish sid) es)).(queues) !! qid = Some (mkAsyncQueue n (l ++ es))%list.
Proof.
  revert b l. induction es as [|e es IH]; intros b l Hb Hn Hmem Hq; simpl.
  - by rewrite app_nil_r.
  - rewrite cons_middle, app_assoc. apply IH.
    + by apply bus_inv_publish.
    + exact Hn.
    + exact Hmem.
    + rewrite publish_queues, foldl_publish_one by exact (proj1 (bus_inv_subs b sid Hb)).
      rewrite bool_decide_true by exact Hmem. rewrite Hq. simpl.
      by rewrite (proj2 (deliver_unbounded (mkAsyncQueue n l) e Hn)).
Qed.

(** C8 (as stated: a queue never holds more than [max_queue_items]
    events) fails: [asyncio.Queue(maxsize=0)] is unbounded, so a queue
    subscribed with [max_queue_items = 0] holds the published event. *)
Lemma C8_zero_capacity_queue_grows :
  let b := run_bus [OpSubscribe "s" 0; OpPublish "s" []; OpPublish "s" []] in
  (q_maxsize <$> b.(queues) !! 0%nat) = Some 0 /\
  (fun q => length q.(q_items)) <$> b.(queues) !! 0%nat = Some 2%nat.
Proof. vm_compute. split; reflexivity. Qed.

(** C8 (amended): after any sequence of subscribe, publish, unsubscribe
    and consume operations, no queue created with [max_queue_items >= 1]
    holds more than [max_queue_items] events, and a publish (a total
    function: it neither blocks nor raises) delivers the event to every
    queue subscribed to the session: the queue afterwards holds its
    items, minus the oldest one when it was full, followed by the event,
    within its bound when that is at least 1 and without dropping
    anything when it is [<= 0]; queues not subscribed to the session are
    untouched.  A queue subscribed with [max_queue_items <= 0] is
    unbounded: publishing any list of events to its session leaves all of
    them in it. *)
Theorem publish_bounded_evicts_oldest (ops : list BusOp) :
  let b := run_bus ops in
  (forall qid q, b.(queues) !! qid = Some q -> 1 <= q.(q_maxsize) ->
     Z.of_nat (length q.(q_items)) <= q.(q_maxsize)) /\
  (forall sid e qid,
     let b' := publish b sid e in
     if bool_decide (qid ∈ default [] (b.(subscribers) !! sid)) then
       exists q, b.(queues) !! qid = Some q /\
         b'.(queues) !! qid =
           Some (mkAsyncQueue q.(q_maxsize)
                  ((if queue_full q then tail q.(q_items) else q.(q_items)) ++ [e])%list) /\
         (1 <= q.(q_maxsize) ->
            Z.of_nat (length ((if queue_full q then tail q.(q_items) else q.(q_items)) ++ [e])%list)
              <= q.(q_maxsize)) /\
         (q.(q_maxsize) <= 0 -> queue_full q = false)
     else b'.(queues) !! qid = b.(queues) !! qid) /\
  (forall sid n es, n <= 0 ->
     (run_bus (ops ++ OpSubscribe sid n :: map (OpPublish sid) es)).(queues) !! b.(next_queue)
       = Some (mkAsyncQueue n es)).
Proof.
  intros b. pose proof (run_bus_inv ops) as Hb. fold b in Hb.
  split; [exact (proj2 Hb)|]. split.
  - intros sid e qid b'.
    destruct (bus_inv_subs b sid Hb) as [Hnd Hin].
    unfold b'. rewrite publish_queues, foldl_publish_one by exact Hnd.
    case_bool_decide as Hmem; [|reflexivity].
    destruct (Hin qid Hmem) as [q Hq0]. exists q. rewrite Hq0. simpl.
    pose proof (proj2 Hb _ _ Hq0) as Hq.
    split; [reflexivity|]. split; [by rewrite (deliver_delivered q e Hq)|]. split.
    + intros H1. pose proof (deliver_bounded q e H1 (Hq H1)) as [Hd Hlen].
      rewrite Hd in Hlen. exact Hlen.
    + intros H0. exact (proj1 (deliver_unbounded q e H0)).
  - intros sid n es Hn. unfold run_bus. rewrite foldl_app. fold (run_bus ops). fold b.
    simpl. apply (publish_all_unbounded es _ sid _ n []).
    + by apply bus_inv_subscribe.
    + exact Hn.
    + simpl. rewrite lookup_insert_eq. simpl.
      case_bool_decide as Hm; [exact Hm|left].
    + simpl. apply lookup_insert_eq.
Qed.

(* ------------------------------------------------------------------ *)
(** ** Worker callbacks *)

Lemma bind_inl {A B} (m : M A) (k : A -> M B) (db db' : DB) (e : HttpError) :
  m db = (db', inl e) -> bind m k db = (db', inl e).
Proof. intros H. unfold bind. by rewrite H. Qed.

Lemma bind_inr {A B} (m : M A) (k : A -> M B) (db db' : DB) (a : A) :
  m db = (db', inr a) -> bind m k db = k a db'.
Proof. intros H. unfold bind. by rewrite H. Qed.

(** A state change that activates no worker: every worker row is either
    left as it was or holds a status other than "active". *)
Definition no_activation (db db' : DB) : Prop :=
  forall k, db'.(workers) !! k = db.(workers) !! k \/
            exists w', db'.(workers) !! k = Some w' /\ w'.(w_status) <> "active".

(** A computation whose every run activates no worker. *)
Definition never_activates {A} (m : M A) : Prop :=
  forall db, no_activation db (fst (m db)).

Lemma no_activation_refl (db : DB) : no_activation db db.
Proof. intros k. by left. Qed.

Lemma no_activation_trans (db1 db2 db3 : DB) :
  no_activation db1 db2 -> no_activation db2 db3 -> no_activation db1 db3.
Proof.
  intros H12 H23 k. destruct (H23 k) as [E|E]; [|by right].
  rewrite E. exact (H12 k).
Qed.

Lemma never_activates_pure {A} (m : M A) :
  (forall db, fst (m db) = db) -> never_activates m.
Proof. intros H db. rewrite H. apply no_activation_refl. Qed.

Lemma never_activates_ret {A} (a : A) : never_activates (ret a).
Proof. apply never_activates_pure. reflexivity. Qed.

Lemma never_activates_err {A} (c : Z) (d : string) : never_activates (A:=A) (err c d).
Proof. apply never_activates_pure. reflexivity. Qed.

Lemma never_activates_get_db : never_activates get_db.
Proof. apply never_activates_pure. reflexivity. Qed.

Lemma never_activates_bind {A B} (m : M A) (k : A -> M B) :
  never_activates m -> (forall a, never_activates (k a)) -> never_activates (bind m k).
Proof.
  intros Hm Hk db. unfold bind. specialize (Hm db).
  destruct (m db) as [db' [e|a]]; simpl in *; [exact Hm|].
  exact (no_activation_trans _ _ _ Hm (Hk a db')).
Qed.

Lemma never_activates_write_session (su : string) (s : VpsSession) :
  never_activates (write_session su s).
Proof. intros db k. by left. Qed.

Lemma never_activates_write_worker (wu : string) (w : Worker) :
  w.(w_status) <> "active" -> never_activates (write_worker wu w).
Proof.
  intros Hs db k. simpl. destruct (decide (k = wu)) as [->|Hne].
  - right. exists w. split; [apply lookup_insert_eq|exact Hs].
  - left. by apply lookup_insert_ne.
Qed.

Lemma never_activates_adjust_balance (u : string) (amount : Z) (ty : string)
    (r : option string) (meta : option Meta) (clock : Z) :
  never_activates (adjust_balance u amount ty r meta clock).
Proof.
  intros db k. left. destruct (adjust_balance_frame u amount ty r meta clock db) as (_ & _ & Hw & _).
  by rewrite Hw.
Qed.

Lemma never_activates_load_session (su : string) : never_activates (_load_session su).
Proof. apply never_activates_pure. intros db. unfold _load_session. by case_match. Qed.

(** [_resolve_workers] rejects a list naming a worker that is not active. *)
Lemma resolve_workers_rejects_inactive (ids : list string) (db : DB) (wid : string) (w : Worker) :
  wid ∈ ids -> db.(workers) !! wid = Some w -> w.(w_status) <> "active" ->
  exists e, _resolve_workers ids db = (db, inl e).
Proof.
  intros Hin Hw Hs. unfold _resolve_workers.
  destruct ids as [|i ids']; [by apply elem_of_nil in Hin|].
  match goal with |- context [filter ?P (i :: ids')] => destruct (filter P (i :: ids')) end;
    [|eexists; reflexivity].
  match goal with |- context [filter ?Q (filter ?P ?l)] =>
    assert (Hmem : (wid, w) ∈ filter Q (filter P l)) end.
  { apply list_elem_of_filter. split; [exact Hs|].
    apply list_elem_of_filter. split; [exact Hin|]. by apply elem_of_map_to_list. }
  match goal with |- context [filter ?Q (filter ?P ?l)] => destruct (filter Q (filter P l)) end;
    [by apply elem_of_nil in Hmem | eexists; reflexivity].
Qed.

Section CallbackProofs.

Variable parse_uuid : string -> option string.
Variable py_float : string -> option float.
Variable json_loads : string -> option Json.
Variable py_int : Json -> option Z.
Variable decrypt_secret : string -> option string.
Variable hmac_sha256_hex : string -> string -> string.

Local Abbreviation verify := (_verify_request parse_uuid py_float decrypt_secret hmac_sha256_hex).
Local Abbreviation result :=
  (worker_result parse_uuid py_float json_loads decrypt_secret hmac_sha256_hex).
Local Abbreviation status_cb :=
  (worker_status parse_uuid py_float json_loads py_int decrypt_secret hmac_sha256_hex).
Local Abbreviation checklist_cb :=
  (worker_checklist parse_uuid py_float json_loads decrypt_secret hmac_sha256_hex).

(** The verifier only reads. *)
Lemma verify_pure (now : float) (req : Request) (db : DB) :
  fst (verify now req db) = db.
Proof.
  unfold _verify_request, err, raise, ret.
  repeat case_match; reflexivity.
Qed.

(** What the verifier accepts, check by check. *)
Definition verify_conditions (now : float) (req : Request) (db : DB)
    (wu : string) (w : Worker) (body : string) : Prop :=
  exists wid ts sig tid tok tv secret,
    req.(x_worker_id) = Some wid /\ wid <> EmptyString /\
    req.(x_timestamp) = Some ts /\ ts <> EmptyString /\
    req.(x_signature) = Some sig /\ sig <> EmptyString /\
    parse_uuid wid = Some wu /\ db.(workers) !! wu = Some w /\
    w.(w_token_id) = Some tid /\ db.(tokens) !! tid = Some tok /\
    tok.(at_revoked_at) = None /\
    py_float ts = Some tv /\ (CLOCK_SKEW_SECONDS <? abs (now - tv))%float = false /\
    decrypt_secret tok.(at_token_ciphertext) = Some secret /\
    sig = compute_worker_signature hmac_sha256_hex secret req.(req_body) ts /\
    py_isascii sig = true /\
    body = req.(req_body).

Lemma verify_ok_iff (now : float) (req : Request) (db : DB)
    (wu : string) (w : Worker) (body : string) :
  verify now req db = (db, inr (wu, w, body)) <-> verify_conditions now req db wu w body.
Proof.
  unfold _verify_request, verify_conditions, err, raise, ret.
  destruct req as [[wid|] [ts|] [sig|] b]; simpl;
    try (split;
         [ rewrite ?orb_true_r; simpl; discriminate
         | intros (? & ? & ? & ? & ? & ? & ? & Hx & _ & Hy & _ & Hz & _);
           first [discriminate Hx | discriminate Hy | discriminate Hz]]).
  destruct (String.eqb_spec wid EmptyString) as [Hw|Hw]; simpl;
    [split; [discriminate | intros (? & ? & ? & ? & ? & ? & ? & [= <-] & ? & _); contradiction]|].
  destruct (String.eqb_spec ts EmptyString) as [Ht|Ht]; simpl;
    [split; [discriminate | intros (? & ? & ? & ? & ? & ? & ? & _ & _ & [= <-] & ? & _); contradiction]|].
  destruct (String.eqb_spec sig EmptyString) as [Hs|Hs]; simpl;
    [split; [discriminate | intros (? & ? & ? & ? & ? & ? & ? & _ & _ & _ & _ & [= <-] & ? & _);
                            contradiction]|].
  split.
  - intros H.
    destruct (parse_uuid wid) as [wu'|] eqn:Hu; [|discriminate].
    destruct (workers db !! wu') as [w'|] eqn:Hwk; [|discriminate].
    destruct (w_token_id w') as [tid|] eqn:Htid; [|discriminate].
    destruct (tokens db !! tid) as [tok|] eqn:Htok; [|discriminate].
    destruct (at_revoked_at tok) eqn:Hrev; [discriminate|].
    destruct (py_float ts) as [tv|] eqn:Hf; [|discriminate].
    destruct (CLOCK_SKEW_SECONDS <? abs (now - tv))%float eqn:Hsk; [discriminate|].
    destruct (decrypt_secret (at_token_ciphertext tok)) as [secret|] eqn:Hdec; [|discriminate].
    destruct (verify_worker_signature hmac_sha256_hex secret b ts sig) as [[]|] eqn:Hsig;
      [|discriminate|discriminate].
    injection H as <- <- <-.
    unfold verify_worker_signature, compare_digest in Hsig.
    destruct (py_isascii (compute_worker_signature hmac_sha256_hex secret b ts) && py_isascii sig)
      eqn:Ha; [|discriminate].
    apply andb_prop in Ha as [_ Ha].
    injection Hsig as Hsig. apply String.eqb_eq in Hsig.
    exists wid, ts, sig, tid, tok, tv, secret. repeat split; auto.
  - intros (wid' & ts' & sig' & tid & tok & tv & secret &
            [= <-] & _ & [= <-] & _ & [= <-] & _ & Hu & Hwk & Htid & Htok & Hrev &
            Hf & Hsk & Hdec & Hsig & Ha & ->).
    rewrite Hu, Hwk, Htid, Htok, Hrev, Hf, Hsk, Hdec.
    unfold verify_worker_signature, compare_digest. rewrite <- Hsig, Ha, String.eqb_refl.
    reflexivity.
Qed.

Lemma load_payload_ok (body : string) (fields : list (string * Json)) (db : DB) :
  json_loads body = Some (JObj fields) ->
  load_payload json_loads body db = (db, inr fields).
Proof. intros H. unfold load_payload. by rewrite H. Qed.

Lemma payload_session_id_pure (fields : list (string * Json)) (db : DB) :
  fst (payload_session_id parse_uuid fields db) = db.
Proof. unfold payload_session_id, err, raise, ret. repeat case_match; reflexivity. Qed.

Lemma payload_session_id_ok (fields : list (string * Json)) (sid su : string) (db : DB) :
  get_or fields "session_id" JNull = JStr sid -> sid <> EmptyString -> parse_uuid sid = Some su ->
  payload_session_id parse_uuid fields db = (db, inr su).
Proof.
  intros Hg Hne Hu. unfold payload_session_id. rewrite Hg. simpl.
  destruct (String.eqb_spec sid EmptyString) as [|_]; [contradiction|]. simpl.
  by rewrite Hu.
Qed.

Lemma load_session_pure (su : string) (db : DB) : fst (_load_session su db) = db.
Proof. unfold _load_session, err, raise, ret. by case_match. Qed.


Ltac step H := rewrite (bind_inr _ _ _ _ _ H); cbv beta iota zeta.




Lemma worker_result_failed_step (now : float) (clock : Z) (req : Request) (db : DB)
    (wu : string) (w : Worker) (fields : list (string * Json)) (sid su : string)
    (s : VpsSession) (uid : string) (p : VpsProduct) :
  verify now req db = (db, inr (wu, w, req.(req_body))) ->
  json_loads req.(req_body) = Some (JObj fields) ->
  get_or fields "session_id" JNull = JStr sid -> sid <> EmptyString ->
  parse_uuid sid = Some su ->
  db.(sessions) !! su = Some s ->
  get_or fields "status" JNull = JStr "failed" ->
  refund_target db s = Some (uid, p) ->
  0 <= get_balance db uid + p.(p_price_coins) ->
  exists db' evs, result now clock req db = (db', inr evs) /\
    get_balance db' uid = get_balance db uid + p.(p_price_coins) /\
    db'.(users) !! uid = Some (get_balance db uid + p.(p_price_coins)) /\
    db'.(ledger) = (db.(ledger) ++ [mkLedgerEntry uid "vps.refund" p.(p_price_coins)
                       (get_balance db uid + p.(p_price_coins)) (Some su) REFUND_META])%list /\
    db'.(sessions) = <[su := session_failed s clock]> db.(sessions) /\
    db'.(workers) = <[wu := result_worker_update w clock]> db.(workers) /\
    db'.(tokens) = db.(tokens) /\ db'.(products) = db.(products).
Proof.
  intros Hv Hj Hg Hne Hu Hs Hst Ht Hnn.
  unfold worker_result. step Hv. step (load_payload_ok _ _ db Hj).
  step (payload_session_id_ok _ _ _ db Hg Hne Hu).
  assert (Hls : _load_session su db = (db, inr s)) by (unfold _load_session; rewrite Hs; reflexivity).
  step Hls.
  assert (Hg0 : get_db db = (db, inr db)) by reflexivity. step Hg0.
  rewrite Hst, Ht.
  change (py_eq_str (JStr "failed") "ready") with false.
  change (py_eq_str (JStr "failed") "failed") with true. cbv iota.
  set (s1 := session_failed s clock).
  set (db_a := set_sessions (<[su:=s1]> (sessions db)) db).
  assert (Hw : write_session su s1 db = (db_a, inr tt)) by reflexivity.
  assert (Hba : get_balance db_a uid = get_balance db uid) by reflexivity.
  destruct (adjust_balance_succeeds uid (p_price_coins p) "vps.refund" (Some su)
              (Some REFUND_META) clock db_a) as [db_b Hadj]; [by rewrite Hba|].
  pose proof (adjust_balance_frame uid (p_price_coins p) "vps.refund" (Some su)
                (Some REFUND_META) clock db_a) as Hfr.
  rewrite Hadj in Hfr. simpl in Hfr. destruct Hfr as (Hses & Hprod & Hwk & Htok).
  apply adjust_balance_success in Hadj as Hsucc. destruct Hsucc as (_ & _ & Hl & Hb & Husr).
  rewrite Hba in Hadj, Hl, Hb, Husr.
  assert (Hm : (let! _ := write_session su s1 in
                let! _ := adjust_balance uid (p_price_coins p) "vps.refund" (Some su)
                            (Some REFUND_META) clock in ret s1) db = (db_b, inr s1)).
  { rewrite (bind_inr _ _ _ _ _ Hw). rewrite (bind_inr _ _ _ _ _ Hadj). reflexivity. }
  step Hm.
  set (db_c := set_workers (<[wu := result_worker_update w clock]> (workers db_b)) db_b).
  assert (Hww : write_worker wu (result_worker_update w clock) db_b = (db_c, inr tt))
    by reflexivity.
  step Hww.
  set (db_d := set_sessions (<[su := s1]> (sessions db_c)) db_c).
  assert (Hws : write_session su s1 db_c = (db_d, inr tt)) by reflexivity.
  step Hws.
  change (vs_status s1) with "failed".
  change (("failed" =? "ready")%string) with false.
  change (("failed" =? "failed")%string) with true. cbv iota.
  eexists db_d, _. split; [reflexivity|].
  split; [exact Hb|]. split; [exact Husr|]. split; [exact Hl|].
  split; [|split; [|split]].
  - change (<[su:=s1]> (sessions db_b) = <[su:=s1]> (sessions db)).
    rewrite Hses. apply insert_insert_eq.
  - change (<[wu := result_worker_update w clock]> (workers db_b) =
            <[wu := result_worker_update w clock]> (workers db)). by rewrite Hwk.
  - exact Htok.
  - exact Hprod.
Qed.

(** C6: a provisioning session with a known owner and product; an
    authenticated result callback with status "failed" succeeds, stores
    the session as failed, credits the owner exactly the product price and
    appends exactly one ledger entry, typed "vps.refund", whose reference
    is the session id. *)
Theorem refund_on_failed_result (now : float) (clock : Z) (req : Request) (db : DB)
    (wu : string) (w : Worker) (fields : list (string * Json)) (sid su : string)
    (s : VpsSession) (uid pid : string) (c : Z) (p : VpsProduct) :
  verify now req db = (db, inr (wu, w, req.(req_body))) ->
  json_loads req.(req_body) = Some (JObj fields) ->
  get_or fields "session_id" JNull = JStr sid -> sid <> EmptyString ->
  parse_uuid sid = Some su ->
  db.(sessions) !! su = Some s -> s.(vs_status) = "provisioning" ->
  s.(vs_user_id) = Some uid -> db.(users) !! uid = Some c ->
  s.(vs_product_id) = Some pid -> db.(products) !! pid = Some p ->
  0 <= get_balance db uid -> 0 <= p.(p_price_coins) ->
  get_or fields "status" JNull = JStr "failed" ->
  let '(db', r) := result now clock req db in
  (exists evs, r = inr evs) /\
  (exists s', db'.(sessions) !! su = Some s' /\ s'.(vs_status) = "failed") /\
  get_balance db' uid = get_balance db uid + p.(p_price_coins) /\
  db'.(ledger) = (db.(ledger) ++ [mkLedgerEntry uid "vps.refund" p.(p_price_coins)
                     (get_balance db uid + p.(p_price_coins)) (Some su) REFUND_META])%list.
Proof.
  intros Hv Hj Hg Hne Hu Hs _ Huid Hc Hpid Hp Hb Hpr Hst.
  assert (Ht : refund_target db s = Some (uid, p)).
  { unfold refund_target. by rewrite Huid, Hpid, Hc, Hp. }
  destruct (worker_result_failed_step now clock req db wu w fields sid su s uid p
              Hv Hj Hg Hne Hu Hs Hst Ht ltac:(lia))
    as (db' & evs & Hr & Hbal & _ & Hl & Hses & _).
  rewrite Hr. split; [eexists; reflexivity|].
  split; [|split; assumption].
  exists (session_failed s clock). rewrite Hses. split; [apply lookup_insert_eq|reflexivity].
Qed.

(** Authentication of a fixed request survives a state change that keeps
    the tokens and the worker's token id. *)
Lemma verify_conditions_transfer (now : float) (req : Request) (db db' : DB)
    (wu : string) (w w' : Worker) (body : string) :
  verify_conditions now req db wu w body ->
  db'.(tokens) = db.(tokens) -> db'.(workers) !! wu = Some w' ->
  w'.(w_token_id) = w.(w_token_id) ->
  verify_conditions now req db' wu w' body.
Proof.
  intros (wid & ts & sig & tid & tok & tv & secret & H1 & H2 & H3 & H4 & H5 & H6 & H7 &
          _ & Htid & Htok & H11 & H12 & H13 & H14 & H15 & H16 & H17) Ht Hw Htid'.
  exists wid, ts, sig, tid, tok, tv, secret.
  rewrite Ht, Htid'. repeat split; assumption.
Qed.

Lemma result_worker_update_token (w : Worker) (clock : Z) :
  (result_worker_update w clock).(w_token_id) = w.(w_token_id).
Proof. reflexivity. Qed.

Lemma refund_entries_S (uid su : string) (price b : Z) (n : nat) :
  refund_entries uid su price b (S n) =
  (refund_entries uid su price b n ++
   [mkLedgerEntry uid "vps.refund" price (b + Z.of_nat (S n) * price) (Some su) REFUND_META])%list.
Proof. unfold refund_entries. by rewrite seq_S, map_app. Qed.

(** The state after [n] deliveries of the same failed result callback. *)
Lemma repeat_worker_result_inv (now : float) (clock : Z) (req : Request) (db : DB)
    (wu : string) (w : Worker) (fields : list (string * Json)) (sid su : string)
    (s : VpsSession) (uid pid : string) (c : Z) (p : VpsProduct) (n : nat) :
  verify now req db = (db, inr (wu, w, req.(req_body))) ->
  json_loads req.(req_body) = Some (JObj fields) ->
  get_or fields "session_id" JNull = JStr sid -> sid <> EmptyString ->
  parse_uuid sid = Some su -> db.(sessions) !! su = Some s ->
  s.(vs_user_id) = Some uid -> db.(users) !! uid = Some c ->
  s.(vs_product_id) = Some pid -> db.(products) !! pid = Some p ->
  0 <= get_balance db uid -> 0 <= p.(p_price_coins) ->
  get_or fields "status" JNull = JStr "failed" ->
  let dbn := repeat_worker_result parse_uuid py_float json_loads decrypt_secret
               hmac_sha256_hex n now clock req db in
  (exists wn, dbn.(workers) !! wu = Some wn /\ wn.(w_token_id) = w.(w_token_id)) /\
  dbn.(tokens) = db.(tokens) /\ dbn.(products) = db.(products) /\
  (exists sn, dbn.(sessions) !! su = Some sn /\ sn.(vs_user_id) = Some uid /\
              sn.(vs_product_id) = Some pid) /\
  (exists cn, dbn.(users) !! uid = Some cn) /\
  get_balance dbn uid = get_balance db uid + Z.of_nat n * p.(p_price_coins) /\
  dbn.(ledger) = (db.(ledger) ++ refund_entries uid su p.(p_price_coins) (get_balance db uid) n)%list.
Proof.
  intros Hv Hj Hg Hne Hu Hs Huid Hc Hpid Hp Hb Hpr Hst.
  pose proof Hv as Hcond. apply verify_ok_iff in Hcond.
  induction n as [|n IH]; simpl.
  - split; [exists w; split; [|reflexivity]|].
    { destruct Hcond as (? & ? & ? & ? & ? & ? & ? & _ & _ & _ & _ & _ & _ & _ & Hw & _). exact Hw. }
    split; [reflexivity|]. split; [reflexivity|].
    split; [exists s; auto|]. split; [exists c; exact Hc|].
    split; [lia|]. unfold refund_entries. simpl. by rewrite app_nil_r.
  - fold (repeat_worker_result parse_uuid py_float json_loads decrypt_secret hmac_sha256_hex
            n now clock req db).
    set (dbn := repeat_worker_result parse_uuid py_float json_loads decrypt_secret
                  hmac_sha256_hex n now clock req db) in *.
    destruct IH as ((wn & Hwn & Htid) & Htok & Hprod & (sn & Hsn & Hsu & Hsp) &
                    (cn & Hcn) & Hbal & Hl).
    assert (Hvn : verify now req dbn = (dbn, inr (wu, wn, req.(req_body)))).
    { apply verify_ok_iff. eapply verify_conditions_transfer; eassumption. }
    assert (Ht : refund_target dbn sn = Some (uid, p)).
    { unfold refund_target. rewrite Hsu, Hsp, Hcn, Hprod, Hp. reflexivity. }
    destruct (worker_result_failed_step now clock req dbn wu wn fields sid su sn uid p
                Hvn Hj Hg Hne Hu Hsn Hst Ht ltac:(lia))
      as (db' & evs & Hr & Hbal' & Hus' & Hl' & Hses' & Hwk' & Htok' & Hprod').
    rewrite Hr. simpl.
    split; [exists (result_worker_update wn clock); rewrite Hwk', lookup_insert_eq; auto|].
    split; [congruence|]. split; [congruence|].
    split; [exists (session_failed sn clock); rewrite Hses', lookup_insert_eq; auto|].
    split; [eexists; exact Hus'|].
    split; [rewrite Hbal', Hbal; lia|].
    rewrite Hl', Hl, refund_entries_S, <- app_assoc, Hbal. do 4 f_equal. lia.
Qed.

(** C9: the result handler does not look at the session's current status:
    [n] deliveries of the same authenticated "failed" result callback for a
    session with an owner and a product (for instance one already failed)
    each credit the product price again and append one more refund ledger
    entry, so the owner is credited [n] times the price. *)
Theorem repeated_failed_results_refund_n_times (now : float) (clock : Z) (req : Request) (db : DB)
    (wu : string) (w : Worker) (fields : list (string * Json)) (sid su : string)
    (s : VpsSession) (uid pid : string) (c : Z) (p : VpsProduct) (n : nat) :
  verify now req db = (db, inr (wu, w, req.(req_body))) ->
  json_loads req.(req_body) = Some (JObj fields) ->
  get_or fields "session_id" JNull = JStr sid -> sid <> EmptyString ->
  parse_uuid sid = Some su -> db.(sessions) !! su = Some s -> s.(vs_status) = "failed" ->
  s.(vs_user_id) = Some uid -> db.(users) !! uid = Some c ->
  s.(vs_product_id) = Some pid -> db.(products) !! pid = Some p ->
  0 <= get_balance db uid -> 0 <= p.(p_price_coins) ->
  get_or fields "status" JNull = JStr "failed" ->
  let dbn := repeat_worker_result parse_uuid py_float json_loads decrypt_secret
               hmac_sha256_hex n now clock req db in
  get_balance dbn uid = get_balance db uid + Z.of_nat n * p.(p_price_coins) /\
  dbn.(ledger) = (db.(ledger) ++ refund_entries uid su p.(p_price_coins) (get_balance db uid) n)%list /\
  length (refund_entries uid su p.(p_price_coins) (get_balance db uid) n) = n /\
  Forall (fun e => e.(le_user_id) = uid /\ e.(le_type) = "vps.refund" /\
                   e.(le_amount) = p.(p_price_coins) /\ e.(le_ref_id) = Some su)
         (refund_entries uid su p.(p_price_coins) (get_balance db uid) n).
Proof.
  intros Hv Hj Hg Hne Hu Hs _ Huid Hc Hpid Hp Hb Hpr Hst.
  destruct (repeat_worker_result_inv now clock req db wu w fields sid su s uid pid c p n
              Hv Hj Hg Hne Hu Hs Huid Hc Hpid Hp Hb Hpr Hst)
    as (_ & _ & _ & _ & _ & Hbal & Hl).
  split; [exact Hbal|]. split; [exact Hl|].
  unfold refund_entries. rewrite length_map, length_seq. split; [reflexivity|].
  apply List.Forall_forall. intros e He. apply in_map_iff in He as (k & <- & _).
  repeat split.
Qed.

Local Abbreviation register := (worker_register parse_uuid decrypt_secret).
Local Abbreviation run_calls :=
  (run_worker_calls parse_uuid py_float json_loads py_int decrypt_secret hmac_sha256_hex).

Ltac never_activates_tac :=
  repeat first
    [ apply never_activates_bind; [|intros ?]
    | apply never_activates_ret
    | apply never_activates_err
    | apply never_activates_get_db
    | apply never_activates_write_session
    | apply never_activates_adjust_balance
    | apply never_activates_load_session
    | apply never_activates_pure; apply verify_pure
    | apply never_activates_write_worker; cbn; repeat case_match; discriminate
    | progress cbv beta iota zeta
    | case_match ].

Lemma worker_call_never_activates (c : WorkerCall) (db : DB) :
  no_activation db (worker_call_step parse_uuid py_float json_loads py_int decrypt_secret
                      hmac_sha256_hex db c).
Proof.
  destruct c as [new_id clock payload|now clock req|now clock req|now clock req]; simpl.
  - revert db. unfold worker_register. never_activates_tac.
  - revert db. unfold worker_status, load_payload. never_activates_tac.
  - revert db. unfold worker_checklist, load_payload, payload_session_id. never_activates_tac.
  - revert db. unfold worker_result, load_payload, payload_session_id. never_activates_tac.
Qed.

Lemma run_worker_calls_never_activates (calls : list WorkerCall) (db : DB) :
  no_activation db (run_calls calls db).
Proof.
  unfold run_worker_calls. revert db.
  induction calls as [|c cs IH]; intros db; simpl; [apply no_activation_refl|].
  eapply no_activation_trans; [apply worker_call_never_activates|apply IH].
Qed.

Lemma worker_register_idle (new_id : string) (clock : Z) (payload : list (string * Json))
    (db db' : DB) (wid : string) :
  register new_id clock payload db = (db', inr wid) ->
  exists w, db'.(workers) !! wid = Some w /\ w.(w_status) = "idle".
Proof.
  unfold worker_register, bind, get_db, write_worker, modify, ret, err, raise.
  repeat case_match; intros Hreg; try discriminate; injection Hreg as <- <-; simpl;
    (eexists; split; [apply lookup_insert_eq|reflexivity]).
Qed.

(** C10: a successful registration leaves the registered worker with
    status "idle"; after it, whatever registrations and status, checklist
    and result callbacks follow (no administrative update), assigning a
    worker list that contains it to a product is rejected by
    [_resolve_workers]. *)
Theorem registered_worker_not_assignable (new_id : string) (clock : Z)
    (payload : list (string * Json)) (db db1 : DB) (wid : string) :
  register new_id clock payload db = (db1, inr wid) ->
  (exists w, db1.(workers) !! wid = Some w /\ w.(w_status) = "idle") /\
  forall calls ids, wid ∈ ids ->
    exists e, snd (_resolve_workers ids (run_calls calls db1)) = inl e.
Proof.
  intros H. destruct (worker_register_idle new_id clock payload db db1 wid H) as (w & Hw & Hs).
  split; [eauto|]. intros calls ids Hin.
  assert (Hna : exists w', (run_calls calls db1).(workers) !! wid = Some w' /\
                           w'.(w_status) <> "active").
  { destruct (run_worker_calls_never_activates calls db1 wid) as [E|E]; [|exact E].
    exists w. rewrite E, Hw, Hs. split; [reflexivity|discriminate]. }
  destruct Hna as (w' & Hw' & Hs').
  destruct (resolve_workers_rejects_inactive ids _ wid w' Hin Hw' Hs') as [e He].
  exists e. by rewrite He.
Qed.

End CallbackProofs.

(** C4 (code bug): the freshness check [abs(now - timestamp_value) >
    CLOCK_SKEW_SECONDS] is false for a NaN timestamp, and [float("nan")]
    parses, so a request stamped "nan" and correctly signed over
    body + "nan" is accepted at any current time, although
    [|now - timestamp| <= 300] does not hold. *)
Lemma C4_nan_timestamp_accepted :
  let db := cb_db "provisioning" in
  let req := mkRequest (Some "w1") (Some "nan") (Some (cb_hmac "k" (cb_body +:+ "nan"))) cb_body in
  _verify_request cb_parse_uuid cb_py_float cb_decrypt cb_hmac 1000%float req db =
    (db, inr ("w1", cb_worker, cb_body)) /\
  _verify_request cb_parse_uuid cb_py_float cb_decrypt cb_hmac 1760000000%float req db =
    (db, inr ("w1", cb_worker, cb_body)) /\
  cb_py_float "nan" = Some nan /\
  (abs (1000 - nan) <=? CLOCK_SKEW_SECONDS)%float = false /\
  (abs (1760000000 - nan) <=? CLOCK_SKEW_SECONDS)%float = false.
Proof. vm_compute. repeat split. Qed.

Lemma registered_worker_not_assignable_witness :
  let db1 := fst (worker_register cb_parse_uuid cb_decrypt "w2" 7 cb_register_payload
                    cb_register_db) in
  (exists w, db1.(workers) !! "w2" = Some w /\ w.(w_status) = "idle") /\
  forall calls ids, "w2" ∈ ids ->
    exists e, snd (_resolve_workers ids
                     (run_worker_calls cb_parse_uuid cb_py_float cb_json_loads cb_py_int
                        cb_decrypt cb_hmac calls db1)) = inl e.
Proof.
  apply (registered_worker_not_assignable cb_parse_uuid cb_py_float cb_json_loads cb_py_int
           cb_decrypt cb_hmac "w2" 7 cb_register_payload cb_register_db _ "w2").
  vm_compute. reflexivity.
Defined.

Lemma refund_on_failed_result_witness :
  let db := cb_db "provisioning" in
  let '(db', r) := worker_result cb_parse_uuid cb_py_float cb_json_loads cb_decrypt cb_hmac
                     1000%float 5 cb_req db in
  (exists evs, r = inr evs) /\
  (exists s', db'.(sessions) !! "s1" = Some s' /\ s'.(vs_status) = "failed") /\
  get_balance db' "u1" = get_balance db "u1" + cb_basic.(p_price_coins) /\
  db'.(ledger) = (db.(ledger) ++ [mkLedgerEntry "u1" "vps.refund" cb_basic.(p_price_coins)
                     (get_balance db "u1" + cb_basic.(p_price_coins)) (Some "s1") REFUND_META])%list.
Proof.
  apply (refund_on_failed_result cb_parse_uuid cb_py_float cb_json_loads cb_decrypt cb_hmac
           1000%float 5 cb_req (cb_db "provisioning") "w1" cb_worker cb_fields "s1" "s1"
           (cb_session "provisioning") "u1" "basic" 50 cb_basic);
    first [reflexivity | discriminate | vm_compute; reflexivity | vm_compute; congruence].
Defined.

Lemma repeated_failed_results_refund_n_times_witness :
  let db := cb_db "failed" in
  let dbn := repeat_worker_result cb_parse_uuid cb_py_float cb_json_loads cb_decrypt cb_hmac
               3 1000%float 5 cb_req db in
  get_balance dbn "u1" = get_balance db "u1" + Z.of_nat 3 * cb_basic.(p_price_coins) /\
  dbn.(ledger) = (db.(ledger) ++ refund_entries "u1" "s1" cb_basic.(p_price_coins)
                                   (get_balance db "u1") 3)%list /\
  length (refund_entries "u1" "s1" cb_basic.(p_price_coins) (get_balance db "u1") 3) = 3%nat /\
  Forall (fun e => e.(le_user_id) = "u1" /\ e.(le_type) = "vps.refund" /\
                   e.(le_amount) = cb_basic.(p_price_coins) /\ e.(le_ref_id) = Some "s1")
         (refund_entries "u1" "s1" cb_basic.(p_price_coins) (get_balance db "u1") 3).
Proof.
  apply (repeated_failed_results_refund_n_times cb_parse_uuid cb_py_float cb_json_loads
           cb_decrypt cb_hmac 1000%float 5 cb_req (cb_db "failed") "w1" cb_worker cb_fields
           "s1" "s1" (cb_session "failed") "u1" "basic" 50 cb_basic 3);
    first [reflexivity | discriminate | vm_compute; reflexivity | vm_compute; congruence].
Defined.
(* ------------------------------------------------------------------ *)
(** ** Wallet: users are isolated *)

(** [adjust_balance] for one user, accepted or rejected, leaves every
    other user's balance, wallet row, coins and ledger entries as they
    were. *)
Theorem adjust_balance_isolates_users (u v : string) (amount : Z) (ty : string)
    (r : option string) (meta : option Meta) (clock : Z) (db : DB) :
  v <> u ->
  let db' := fst (adjust_balance u amount ty r meta clock db) in
  get_balance db' v = get_balance db v /\
  db'.(wallets) !! v = db.(wallets) !! v /\
  db'.(users) !! v = db.(users) !! v /\
  filter (fun e => e.(le_user_id) = v) db'.(ledger) =
    filter (fun e => e.(le_user_id) = v) db.(ledger).
Proof.
  intros Hne. unfold adjust_balance, get_balance, user_coins.
  destruct (wallets db !! u) as [w|] eqn:Hw;
    [destruct (wl_balance w + amount <? 0) | destruct (default 0 (users db !! u) + amount <? 0)];
    cbn [fst set_wallets set_users set_ledger wallets users ledger];
    rewrite ?lookup_insert_ne by congruence; rewrite ?filter_app, ?filter_cons_False, ?app_nil_r
      by (cbn; congruence);
    repeat split.
Qed.
(* ------------------------------------------------------------------ *)
(** ** Token masking *)

Lemma mask_token_layout (token : list Z) :
  length (mask_token token) = length token /\
  take 4 (mask_token token) = take 4 token /\
  forall i c, (4 <= i)%nat -> mask_token token !! i = Some c -> c = BULLET.
Proof.
  unfold mask_token. destruct (Nat.leb_spec (length token) 4) as [Hle|Hgt].
  - split; [reflexivity|]. split; [reflexivity|].
    intros i c Hi Hc. apply lookup_lt_Some in Hc. lia.
  - assert (Ht : length (take 4 token) = 4%nat) by (rewrite length_take; lia).
    split; [rewrite length_app, Ht, repeat_length; lia|].
    split; [by rewrite take_app_length'|].
    intros i c Hi Hc. rewrite lookup_app_r in Hc by lia.
    apply repeat_spec with (n := (length token - 4)%nat).
    apply list_elem_of_In, list_elem_of_lookup_2 with (i - length (take 4 token))%nat.
    exact Hc.
Qed.

(** [mask_token] keeps the length and the first four characters of a
    token and replaces every later character by a bullet. *)
Theorem mask_token_shape (token : list Z) :
  length (mask_token token) = length token /\
  take 4 (mask_token token) = take 4 token /\
  forall i c, (4 <= i)%nat -> mask_token token !! i = Some c -> c = BULLET.
Proof. exact (mask_token_layout token). Qed.

(** Two tokens get the same mask exactly when they have the same length
    and the same first four characters: the mask reveals nothing else. *)
Theorem mask_token_reveals_only_prefix_and_length (t1 t2 : list Z) :
  mask_token t1 = mask_token t2 <-> length t1 = length t2 /\ take 4 t1 = take 4 t2.
Proof.
  destruct (mask_token_layout t1) as (Hl1 & Ht1 & _).
  destruct (mask_token_layout t2) as (Hl2 & Ht2 & _).
  split.
  - intros E. rewrite <- Hl1, <- Hl2, <- Ht1, <- Ht2, E. split; reflexivity.
  - intros [Hl Ht]. unfold mask_token. rewrite Hl.
    destruct (Nat.leb_spec (length t2) 4) as [Hle|Hgt].
    + rewrite <- (take_ge t1 4), <- (take_ge t2 4) by lia. exact Ht.
    + by rewrite Ht.
Qed.
(* ------------------------------------------------------------------ *)
(** ** The fallback AESGCM *)

Section FallbackAESGCMProofs.

Variable sha256_digest : list Z -> list Z.
Variable hmac_sha256_digest : list Z -> list Z -> list Z.

(** The digests have their fixed sizes: SHA-256 yields bytes, the HMAC
    tag is [_TAG_LENGTH] bytes. *)
Hypothesis sha256_nonempty : forall m, sha256_digest m <> [].
Hypothesis hmac_length : forall k m, length (hmac_sha256_digest k m) = _TAG_LENGTH.

Lemma expand_loop_long (fuel : nat) (key nonce : list Z) (n : nat) (counter : Z) (output : list Z) :
  (n <= length output + fuel)%nat ->
  (n <= length (expand_loop sha256_digest fuel key nonce n counter output))%nat.
Proof.
  revert counter output. induction fuel as [|fuel IH]; intros counter output Hn; simpl; [lia|].
  destruct (Nat.ltb_spec (length output) n) as [Hlt|Hge]; [|lia].
  apply IH. rewrite length_app.
  pose proof (sha256_nonempty (nonce ++ to_bytes4_big counter ++ key)) as Hne.
  destruct (sha256_digest _); [contradiction|simpl; lia].
Qed.

Lemma expand_length (key nonce : list Z) (n : nat) :
  length (_expand sha256_digest key nonce n) = n.
Proof.
  unfold _expand. rewrite length_take.
  pose proof (expand_loop_long n key nonce n 0 [] ltac:(simpl; lia)). lia.
Qed.

Lemma zip_with_lxor_length (l s : list Z) :
  length s = length l -> length (zip_with Z.lxor l s) = length l.
Proof. intros H. rewrite length_zip_with. lia. Qed.

Lemma zip_with_lxor_involutive (l s : list Z) :
  length s = length l -> zip_with Z.lxor (zip_with Z.lxor l s) s = l.
Proof.
  revert s. induction l as [|x l IH]; intros [|y s] H; simpl in *; try lia; [reflexivity|].
  rewrite Z.lxor_assoc, Z.lxor_nilpotent, Z.lxor_0_r. f_equal. apply IH. lia.
Qed.

(** Decryption inverts encryption: what [encrypt] returns for a key,
    nonce and associated data, [decrypt] with the same three turns back
    into the plaintext. *)
Theorem aesgcm_decrypt_encrypt (key nonce data : list Z) (associated_data : option (list Z)) :
  aesgcm_decrypt sha256_digest hmac_sha256_digest key nonce
    (aesgcm_encrypt sha256_digest hmac_sha256_digest key nonce data associated_data)
    associated_data = inr data.
Proof.
  unfold aesgcm_decrypt, aesgcm_encrypt.
  set (stream := _expand sha256_digest key nonce (length data)).
  assert (Hs : length stream = length data) by apply expand_length.
  set (ct := zip_with Z.lxor data stream).
  assert (Hct : length ct = length data) by (apply zip_with_lxor_length; exact Hs).
  set (mac := hmac_sha256_digest key (nonce ++ ct ++ ad_bytes associated_data)).
  assert (Hmac : length mac = _TAG_LENGTH) by apply hmac_length.
  rewrite length_app, Hmac.
  destruct (Nat.ltb_spec (length ct + _TAG_LENGTH) _TAG_LENGTH) as [H|_]; [lia|].
  replace (length ct + _TAG_LENGTH - _TAG_LENGTH)%nat with (length ct) by lia.
  rewrite take_app_length, drop_app_length.
  rewrite bool_decide_eq_true_2 by reflexivity.
  rewrite Hct. fold stream. f_equal. by apply zip_with_lxor_involutive.
Qed.

(** [decrypt] accepts exactly the authentic encryptions: data shorter
    than the tag is refused as "ciphertext too short", and whenever
    [decrypt] returns a plaintext, the data is the encryption of that
    plaintext under the same key, nonce and associated data (any other
    data is refused as "authentication failed" or too short). *)
Theorem aesgcm_decrypt_accepts_only_encryptions (key nonce data : list Z)
    (associated_data : option (list Z)) :
  ((length data < _TAG_LENGTH)%nat ->
   aesgcm_decrypt sha256_digest hmac_sha256_digest key nonce data associated_data =
     inl "ciphertext too short") /\
  (forall plaintext,
     aesgcm_decrypt sha256_digest hmac_sha256_digest key nonce data associated_data = inr plaintext ->
     data = aesgcm_encrypt sha256_digest hmac_sha256_digest key nonce plaintext associated_data).
Proof.
  unfold aesgcm_decrypt. split.
  - intros H. destruct (Nat.ltb_spec (length data) _TAG_LENGTH); [reflexivity|lia].
  - intros pt. destruct (Nat.ltb_spec (length data) _TAG_LENGTH) as [_|Hge]; [discriminate|].
    set (ct := take (length data - _TAG_LENGTH) data).
    set (tag := drop (length data - _TAG_LENGTH) data).
    case_bool_decide as Htag; [|discriminate].
    intros H. injection H as <-.
    set (stream := _expand sha256_digest key nonce (length ct)).
    assert (Hs : length stream = length ct) by apply expand_length.
    unfold aesgcm_encrypt. rewrite zip_with_lxor_length by exact Hs. fold stream.
    rewrite zip_with_lxor_involutive by exact Hs.
    rewrite <- Htag. unfold ct, tag. symmetry. apply take_drop.
Qed.

End FallbackAESGCMProofs.
(* ------------------------------------------------------------------ *)
(** ** Worker registry and product catalogue *)

Lemma strip_trailing_slashes_spec (l : list ascii) :
  exists n, l = (List.repeat "/"%char n ++ strip_trailing_slashes l)%list /\
            head (strip_trailing_slashes l) <> Some "/"%char.
Proof.
  induction l as [|c l IH].
  - exists 0%nat. split; [reflexivity|discriminate].
  - destruct (ascii_dec c "/"%char) as [->|Hc].
    + destruct IH as [n [Hl Hh]]. exists (S n). simpl. rewrite <- Hl. split; [reflexivity|exact Hh].
    + exists 0%nat.
      assert (E : strip_trailing_slashes (c :: l) = c :: l)
        by (destruct c as [[] [] [] [] [] [] [] []]; try reflexivity; exfalso; apply Hc; reflexivity).
      rewrite E. split; [reflexivity|]. simpl. congruence.
Qed.

(** [rstrip_slash s] is [s] without its trailing slashes. *)
Lemma rstrip_slash_spec (s : string) :
  exists n, list_ascii_of_string s =
              (list_ascii_of_string (rstrip_slash s) ++ List.repeat "/"%char n)%list /\
            forall pre, list_ascii_of_string (rstrip_slash s) <> (pre ++ ["/"%char])%list.
Proof.
  unfold rstrip_slash. rewrite list_ascii_of_string_of_list_ascii.
  destruct (strip_trailing_slashes_spec (rev (list_ascii_of_string s))) as [n [Hl Hh]].
  set (r := strip_trailing_slashes (rev (list_ascii_of_string s))) in *.
  exists n. split.
  - rewrite <- (rev_involutive (list_ascii_of_string s)) at 1. rewrite Hl, rev_app_distr.
    f_equal. clear. induction n as [|n IH]; [reflexivity|].
    simpl. rewrite IH. clear. induction n; simpl; congruence.
  - intros pre E. apply (f_equal (@rev ascii)) in E.
    rewrite rev_involutive, rev_app_distr in E. simpl in E. rewrite E in Hh. simpl in Hh.
    congruence.
Qed.

(** [_normalize_url] only reads; it rejects a base URL that is empty or
    blank with 400 "base_url required" and otherwise returns the stripped
    URL without its trailing slashes, which never ends with a slash (a URL
    made only of slashes becomes the empty string). *)
Theorem normalize_url_spec (raw : string) (db : DB) :
  fst (_normalize_url raw db) = db /\
  (snd (_normalize_url raw db) = inl (HTTPException 400 "base_url required") <->
   py_strip raw = EmptyString) /\
  (forall url, snd (_normalize_url raw db) = inr url ->
     url = rstrip_slash (py_strip raw) /\
     (exists n, list_ascii_of_string (py_strip raw) =
                  (list_ascii_of_string url ++ List.repeat "/"%char n)%list) /\
     forall pre, list_ascii_of_string url <> (pre ++ ["/"%char])%list).
Proof.
  unfold _normalize_url, err, raise, ret.
  destruct (String.eqb_spec (py_strip raw) EmptyString) as [E|E]; simpl.
  - split; [reflexivity|]. split; [tauto|]. discriminate.
  - split; [reflexivity|]. split; [split; [discriminate|contradiction]|].
    intros url [= <-]. split; [reflexivity|].
    destruct (rstrip_slash_spec (py_strip raw)) as [n [Hn Hs]]. split; [exists n|]; assumption.
Qed.

Lemma resolve_workers_facts (ids : list string) (db : DB) :
  fst (_resolve_workers ids db) = db /\
  ((exists found, snd (_resolve_workers ids db) = inr found) <->
   forall i, i ∈ ids -> exists w, db.(workers) !! i = Some w /\ w.(w_status) = "active") /\
  (forall found, snd (_resolve_workers ids db) = inr found ->
     NoDup (map fst found) /\
     forall i w, (i, w) ∈ found <-> i ∈ ids /\ db.(workers) !! i = Some w).
Proof.
  unfold _resolve_workers, err, raise, ret.
  destruct ids as [|i0 ids'].
  { simpl. split; [reflexivity|]. split.
    - split; [intros _ i Hi; by apply elem_of_nil in Hi|intros _; eexists; reflexivity].
    - intros f [= <-]. split; [constructor|]. intros i w.
      split; [intros Hi; by apply elem_of_nil in Hi|]. intros [Hi _]. by apply elem_of_nil in Hi. }
  cbv beta iota. set (ids := i0 :: ids').
  set (found := filter (fun iw : string * Worker => iw.1 ∈ ids) (map_to_list db.(workers))).
  assert (Hfound : forall i w, (i, w) ∈ found <-> i ∈ ids /\ db.(workers) !! i = Some w).
  { intros i w. unfold found. rewrite list_elem_of_filter, elem_of_map_to_list. simpl. tauto. }
  assert (Hnd : NoDup (map fst found)).
  { unfold found. apply NoDup_fmap_fst.
    - intros i w1 w2 H1 H2. apply list_elem_of_filter in H1 as [_ H1], H2 as [_ H2].
      apply elem_of_map_to_list in H1, H2. congruence.
    - apply NoDup_filter, NoDup_map_to_list. }
  {
    destruct (filter (fun i => db.(workers) !! i = None) ids) as [|m ms] eqn:Hmiss.
    + assert (Hall : forall i, i ∈ ids -> exists w, db.(workers) !! i = Some w).
      { intros i Hi. destruct (db.(workers) !! i) as [w|] eqn:Hw; [eauto|].
        assert (Hm : i ∈ filter (fun i => db.(workers) !! i = None) ids)
          by (apply list_elem_of_filter; auto).
        rewrite Hmiss in Hm. by apply elem_of_nil in Hm. }
      destruct (filter (fun iw : string * Worker => iw.2.(w_status) <> "active") found)
        as [|x xs] eqn:Hin.
      * simpl. split; [reflexivity|]. split.
        -- split; [|intros _; eexists; reflexivity]. intros _ i Hi.
           destruct (Hall i Hi) as [w Hw]. exists w. split; [exact Hw|].
           destruct (decide (w.(w_status) = "active")) as [E|E]; [exact E|].
           assert (Hm : (i, w) ∈ filter (fun iw : string * Worker => iw.2.(w_status) <> "active") found)
             by (apply list_elem_of_filter; split; [exact E|]; apply Hfound; auto).
           rewrite Hin in Hm. by apply elem_of_nil in Hm.
        -- intros f [= <-]. auto.
      * simpl. split; [reflexivity|]. split; [|discriminate].
        split; [intros [f Hf]; discriminate|]. intros Hact.
        assert (Hx : x ∈ filter (fun iw : string * Worker => iw.2.(w_status) <> "active") found)
          by (rewrite Hin; left).
        apply list_elem_of_filter in Hx as [Hs Hx]. destruct x as [i w].
        apply Hfound in Hx as [Hi Hw]. destruct (Hact i Hi) as (w' & Hw' & Hs').
        simpl in Hs. congruence.
    + simpl. split; [reflexivity|]. split; [|discriminate].
      split; [intros [f Hf]; discriminate|]. intros Hact.
      assert (Hm : m ∈ filter (fun i => db.(workers) !! i = None) ids) by (rewrite Hmiss; left).
      apply list_elem_of_filter in Hm as [Hn Hm]. destruct (Hact m Hm) as (w & Hw & _).
      congruence.
  }
Qed.

(** [_resolve_workers] only reads.  It succeeds exactly when every listed
    id names a worker whose status is "active", and then returns each
    listed worker once, with its row, however often the list repeats it. *)
Theorem resolve_workers_spec (ids : list string) (db : DB) :
  fst (_resolve_workers ids db) = db /\
  ((exists found, snd (_resolve_workers ids db) = inr found) <->
   forall i, i ∈ ids -> exists w, db.(workers) !! i = Some w /\ w.(w_status) = "active") /\
  (forall found, snd (_resolve_workers ids db) = inr found ->
     NoDup (map fst found) /\
     forall i w, (i, w) ∈ found <-> i ∈ ids /\ db.(workers) !! i = Some w).
Proof. exact (resolve_workers_facts ids db). Qed.
Lemma audit_value_eqb_refl (v : AuditValue) : audit_value_eqb v v = true.
Proof. destruct v; simpl; [reflexivity | apply String.eqb_refl | apply Z.eqb_refl]. Qed.

(** Equal dicts give no diff. *)
Lemma diff_dict_same (d : list (string * AuditValue)) : diff_dict (Some d) (Some d) = None.
Proof.
  unfold diff_dict. cbn [default].
  enough (H : forall ks, flat_map (fun key =>
             if audit_value_eqb (dict_get d key) (dict_get d key) then []
             else [(key, (dict_get d key, dict_get d key))]) ks = []) by (rewrite H; reflexivity).
  intros ks. induction ks as [|k ks IH]; simpl; [reflexivity|].
  by rewrite audit_value_eqb_refl.
Qed.

Lemma register_worker_diff (name : option string) (url : string) (m : Z) :
  diff_dict None (Some [("name", py_opt_str name); ("base_url", AVStr url); ("max_sessions", AVInt m)]) =
  Some ([("base_url", (AVNone, AVStr url)); ("max_sessions", (AVNone, AVInt m))] ++
        match name with Some n => [("name", (AVNone, AVStr n))] | None => [] end)%list.
Proof. destruct name; reflexivity. Qed.

(** [register_worker] fails with 400 "base_url required" on a blank base
    URL, with 400 "Worker health check failed: ..." when the health probe
    raises an [httpx.HTTPError], and with a 500 when it raises another
    exception, in all three cases adding no row and no audit entry;
    otherwise it stores an "active" worker with the normalized URL, no
    token and no jobs, appends one "worker.register" audit entry whose
    diff lists the base URL, the session limit and (when given) the name,
    and the worker is then accepted by [_resolve_workers] for a product
    pool. *)
Theorem register_worker_spec (health_check : string -> HealthOutcome) (new_id : string)
    (clock : Z) (context : AuditContext) (name : option string) (base_url : string)
    (max_sessions : Z) (s : AState) :
  let url := rstrip_slash (py_strip base_url) in
  let run := register_worker health_check new_id clock context name base_url max_sessions s in
  (py_strip base_url = EmptyString ->
   run = (s, inl (HTTPException 400 "base_url required"))) /\
  (forall exc, py_strip base_url <> EmptyString -> health_check url = HealthHTTPError exc ->
   run = (s, inl (HTTPException 400 ("Worker health check failed: " +:+ exc)))) /\
  (py_strip base_url <> EmptyString -> health_check url = HealthOtherError ->
   run = (s, inl (HTTPException 500 "Internal Server Error"))) /\
  (py_strip base_url <> EmptyString -> health_check url = HealthOk ->
   let w := mkWorker name url None "active" max_sessions 0 None clock in
   let db' := set_workers (<[new_id := w]> s.(as_db).(workers)) s.(as_db) in
   run = (mkAState db'
            (s.(audit_logs) ++
             [mkAuditLog context.(ctx_actor_user_id) "worker.register" "worker" (Some new_id)
                (Some ([("base_url", (AVNone, AVStr url)); ("max_sessions", (AVNone, AVInt max_sessions))] ++
                       match name with Some n => [("name", (AVNone, AVStr n))] | None => [] end)%list)
                context.(ctx_ip) context.(ctx_ua)]),
          inr (w, 0)) /\
   exists found, _resolve_workers [new_id] db' = (db', inr found) /\
                 forall i x, (i, x) ∈ found <-> i = new_id /\ x = w).
Proof.
  destruct s as [db logs]. intros url run. unfold run, url.
  unfold register_worker, abind, on_db, _normalize_url, err, raise, ret, aerr, aret,
    record_audit, write_worker, modify. cbn [as_db audit_logs].
  destruct (String.eqb_spec (py_strip base_url) EmptyString) as [E|E].
  - split; [reflexivity|]. split; [intros; contradiction|]. split; intros; contradiction.
  - split; [intros; contradiction|]. split; [|split].
    + intros exc _ Hh. by rewrite Hh.
    + intros _ Hh. by rewrite Hh.
    + intros _ Hh. rewrite Hh. cbv zeta. cbn [as_db audit_logs w_name w_base_url w_max_sessions].
      rewrite register_worker_diff. split; [reflexivity|].
      set (w := mkWorker name (rstrip_slash (py_strip base_url)) None "active" max_sessions 0 None clock).
      set (db' := set_workers (<[new_id := w]> db.(workers)) db).
      destruct (resolve_workers_facts [new_id] db') as (Hp & [_ Hok] & Hf).
      destruct Hok as [found Hfound].
      { intros i Hi. apply list_elem_of_singleton in Hi as ->. exists w.
        split; [apply lookup_insert_eq|reflexivity]. }
      exists found. split; [destruct (_resolve_workers _ db') as [d r]; simpl in Hp, Hfound; by subst|].
      intros i x. rewrite (proj2 (Hf found Hfound) i x), list_elem_of_singleton.
      split.
      * intros [-> Hx]. unfold db' in Hx. simpl in Hx. rewrite lookup_insert_eq in Hx.
        split; congruence.
      * intros [-> ->]. split; [reflexivity|apply lookup_insert_eq].
Qed.

(** [update_worker] on an unknown id ends in a 500 (the shadowed [status]
    makes the 404 unreachable) and on a blank base URL in 400 "base_url
    required", both leaving the table and the audit log as they were.
    With [status = "active"] on an existing worker, and a base URL that
    is absent or not blank, it rewrites that one row, keeps its token,
    jobs and creation time, reports its active-session count, appends one
    "worker.update" audit entry with the diff of the row's name, base
    URL, status and session limit (no diff when none of them changed),
    and makes the worker acceptable to [_resolve_workers]. *)
Theorem update_worker_spec (context : AuditContext) (wid : string)
    (name base_url status : option string) (max_sessions : option Z) (s : AState) :
  let db := s.(as_db) in
  let run := update_worker context wid name base_url status max_sessions s in
  (db.(workers) !! wid = None ->
   run = (s, inl (HTTPException 500 "Internal Server Error"))) /\
  (forall u, is_Some (db.(workers) !! wid) -> base_url = Some u -> py_strip u = EmptyString ->
   run = (s, inl (HTTPException 400 "base_url required"))) /\
  (forall w, db.(workers) !! wid = Some w -> status = Some "active" ->
   (forall u, base_url = Some u -> py_strip u <> EmptyString) ->
   exists w',
     let db' := set_workers (<[wid := w']> db.(workers)) db in
     let diff := diff_dict (Some (worker_audit_dict w)) (Some (worker_audit_dict w')) in
     run = (mkAState db'
              (s.(audit_logs) ++
               [mkAuditLog context.(ctx_actor_user_id) "worker.update" "worker" (Some wid) diff
                  context.(ctx_ip) context.(ctx_ua)]),
            inr (w', Z.of_nat (active_sessions_of db wid))) /\
     w'.(w_status) = "active" /\ w'.(w_token_id) = w.(w_token_id) /\
     w'.(w_current_jobs) = w.(w_current_jobs) /\ w'.(w_created_at) = w.(w_created_at) /\
     (worker_audit_dict w' = worker_audit_dict w -> diff = None) /\
     exists found, _resolve_workers [wid] db' = (db', inr found) /\
                   forall i x, (i, x) ∈ found <-> i = wid /\ x = w').
Proof.
  destruct s as [db logs]. intros db0 run. unfold run, db0. cbn [as_db audit_logs].
  split; [|split].
  - intros Hw. unfold update_worker. cbn [as_db]. rewrite Hw. reflexivity.
  - intros u [w Hw] -> Hu. unfold update_worker, abind, on_db. cbn [as_db]. rewrite Hw.
    unfold _normalize_url, err, raise. rewrite Hu. reflexivity.
  - intros w Hw -> Hu. unfold update_worker. cbn [as_db]. rewrite Hw. cbv zeta.
    set (url' := match base_url with Some u => rstrip_slash (py_strip u) | None => w_base_url w end).
    assert (Hurl : on_db (match base_url with Some u => _normalize_url u | None => ret (w_base_url w) end)
                     (mkAState db logs) = (mkAState db logs, inr url')).
    { unfold url', on_db. cbn [as_db audit_logs]. destruct base_url as [u|]; [|reflexivity].
      unfold _normalize_url. specialize (Hu u eq_refl).
      destruct (String.eqb_spec (py_strip u) EmptyString); [contradiction|reflexivity]. }
    unfold abind at 1. rewrite Hurl. cbv beta iota.
    set (w' := mkWorker (match name with Some n => Some n | None => w_name w end) url' (w_token_id w)
                 (default (w_status w) (Some "active")) (default (w_max_sessions w) max_sessions)
                 (w_current_jobs w) (w_last_heartbeat w) (w_created_at w)).
    exists w'. cbv zeta. split.
    { unfold abind, on_db, write_worker, modify, get_db, record_audit, aret. cbn [as_db audit_logs].
      rewrite active_session_counts_get by apply list_elem_of_singleton, eq_refl. reflexivity. }
    split; [reflexivity|]. split; [reflexivity|]. split; [reflexivity|]. split; [reflexivity|].
    split; [intros ->; apply diff_dict_same|].
    set (db' := set_workers (<[wid := w']> db.(workers)) db).
    destruct (resolve_workers_facts [wid] db') as (Hp & [_ Hok] & Hf).
    destruct Hok as [found Hfound].
    { intros i Hi. apply list_elem_of_singleton in Hi as ->. exists w'.
      split; [apply lookup_insert_eq|reflexivity]. }
    exists found. split; [destruct (_resolve_workers _ db') as [d r]; simpl in Hp, Hfound; by subst|].
    intros i x. rewrite (proj2 (Hf found Hfound) i x), list_elem_of_singleton.
    split.
    + intros [-> Hx]. unfold db' in Hx. simpl in Hx. rewrite lookup_insert_eq in Hx.
      split; congruence.
    + intros [-> ->]. split; [reflexivity|apply lookup_insert_eq].
Qed.

(** [TokenVaultService.revoke_token] acts on the tables and answers as
    [revoke_token] does.  It rejects an unknown id with 404 "Token not
    found." and changes nothing; on a known token it stamps [revoked_at]
    (keeping an earlier stamp), changes no other token and no other table
    of the application, and appends one "admin.token.revoke" audit entry
    (diff: [revoked_at] from [None] to the new stamp) exactly when the
    token was not yet revoked; a second revocation, at any time and by
    anyone, returns the same token and changes nothing, audit log
    included. *)
Theorem revoke_token_spec (isoformat : Z -> string) (clock : Z) (context : AuditContext)
    (tid : string) (s : AState) :
  let db := s.(as_db) in
  let run := TokenVaultService.revoke_token isoformat clock context tid s in
  (fst run).(as_db) = fst (revoke_token tid clock db) /\
  snd run = snd (revoke_token tid clock db) /\
  (db.(tokens) !! tid = None ->
   run = (s, inl (HTTPException 404 "Token not found."))) /\
  (forall tok, db.(tokens) !! tid = Some tok ->
   let db' := (fst run).(as_db) in
   exists tok',
     snd run = inr tok' /\
     db'.(tokens) !! tid = Some tok' /\
     tok'.(at_token_ciphertext) = tok.(at_token_ciphertext) /\
     tok'.(at_revoked_at) = Some (default clock tok.(at_revoked_at)) /\
     (forall k, k <> tid -> db'.(tokens) !! k = db.(tokens) !! k) /\
     db'.(users) = db.(users) /\ db'.(wallets) = db.(wallets) /\ db'.(ledger) = db.(ledger) /\
     db'.(workers) = db.(workers) /\ db'.(products) = db.(products) /\
     db'.(sessions) = db.(sessions) /\
     (fst run).(audit_logs) =
       (s.(audit_logs) ++
       match tok.(at_revoked_at) with
       | Some _ => []
       | None => [mkAuditLog context.(ctx_actor_user_id) "admin.token.revoke" "admin_token"
                    (Some tid) (Some [("revoked_at", (AVNone, AVStr (isoformat clock)))])
                    context.(ctx_ip) context.(ctx_ua)]
       end)%list /\
     forall clock' context',
       TokenVaultService.revoke_token isoformat clock' context' tid (fst run) = (fst run, inr tok')).
Proof.
  destruct s as [db logs]. intros db0 run. unfold run, db0. cbn [as_db audit_logs].
  unfold TokenVaultService.revoke_token, revoke_token, aerr, aret, err, raise, ret, abind, on_db,
    modify, record_audit. cbn [as_db audit_logs].
  destruct (tokens db !! tid) as [tok|] eqn:Htok.
  - destruct (at_revoked_at tok) as [t0|] eqn:Hr; cbn [fst snd as_db audit_logs].
    + split; [reflexivity|]. split; [reflexivity|]. split; [discriminate|].
      intros tok0 Heq. injection Heq as <-. exists tok.
      split; [reflexivity|]. split; [exact Htok|]. split; [reflexivity|].
      split; [by rewrite Hr|]. split; [reflexivity|]. repeat (split; [reflexivity|]).
      split; [by rewrite Hr, app_nil_r|].
      intros clock' context'. cbn [as_db]. by rewrite Htok, Hr.
    + split; [reflexivity|]. split; [reflexivity|]. split; [discriminate|].
      intros tok0 Heq. injection Heq as <-. eexists.
      split; [reflexivity|]. split; [apply lookup_insert_eq|]. split; [reflexivity|].
      split; [by rewrite Hr|].
      split; [intros k Hk; apply lookup_insert_ne; congruence|].
      repeat (split; [reflexivity|]).
      split; [rewrite Hr; reflexivity|].
      intros clock' context'. cbn [as_db]. unfold set_tokens at 1. cbn [tokens].
      rewrite lookup_insert_eq. reflexivity.
  - split; [reflexivity|]. split; [reflexivity|]. split; [reflexivity|].
    intros tok0 Heq. discriminate.
Qed.

(* ------------------------------------------------------------------ *)
(** ** Product catalogue *)

(** What the catalogue operations keep: no product has a negative price,
    and no pool lists a worker twice. *)
Definition catalogue_ok (db : DB) : Prop :=
  forall pid p, db.(products) !! pid = Some p ->
    0 <= p.(p_price_coins) /\ NoDup p.(p_workers).

Lemma resolve_workers_ok (ids : list string) (db db' : DB) (found : list (string * Worker)) :
  _resolve_workers ids db = (db', inr found) ->
  db' = db /\ NoDup (map fst found) /\
  forall wid, wid ∈ map fst found <->
              wid ∈ ids /\ exists w, db.(workers) !! wid = Some w /\ w.(w_status) = "active".
Proof.
  intros H. destruct (resolve_workers_facts ids db) as (Hp & [Hall _] & Hf).
  rewrite H in Hp, Hf. simpl in Hp. subst db'.
  destruct (Hf found eq_refl) as [Hnd Hmem]. split; [reflexivity|]. split; [exact Hnd|].
  assert (Hact : forall i, i ∈ ids -> exists w, db.(workers) !! i = Some w /\ w.(w_status) = "active")
    by (apply Hall; exists found; by rewrite H).
  intros wid. change (wid ∈ map fst found) with (wid ∈ fst <$> found).
  rewrite list_elem_of_fmap. split.
  - intros [[i w] [-> Hin]]. apply Hmem in Hin as [Hi Hw]. split; [exact Hi|].
    destruct (Hact i Hi) as (w' & Hw' & Hs). exists w'. split; [exact Hw'|exact Hs].
  - intros [Hi (w & Hw & _)]. exists (wid, w). split; [reflexivity|]. by apply Hmem.
Qed.

Lemma catalogue_ok_write (db : DB) (pid : string) (p : VpsProduct) :
  catalogue_ok db -> 0 <= p.(p_price_coins) -> NoDup p.(p_workers) ->
  catalogue_ok (set_products (<[pid := p]> db.(products)) db).
Proof.
  intros Hok Hc Hn k q Hq. simpl in Hq. destruct (decide (k = pid)) as [->|Hne].
  - rewrite lookup_insert_eq in Hq. injection Hq as <-. auto.
  - rewrite lookup_insert_ne in Hq by congruence. exact (Hok _ _ Hq).
Qed.

Lemma catalogue_ok_step (db : DB) (op : ProductOp) :
  catalogue_ok db -> catalogue_ok (product_step db op).
Proof.
  intros Hok. destruct op as [i c a act ids|i c a act ids|i|i]; simpl.
  - unfold create_product, err, raise, bind.
    destruct (Z.ltb_spec c 0) as [_|Hc]; [exact Hok|].
    destruct (_resolve_workers ids db) as [db1 [e|found]] eqn:Hr.
    + pose proof (proj1 (resolve_workers_facts ids db)) as Hp. rewrite Hr in Hp. simpl in Hp.
      by subst db1.
    + apply resolve_workers_ok in Hr as (-> & Hnd & _). simpl.
      apply catalogue_ok_write; assumption.
  - unfold update_product, bind, _get_product, err, raise, ret, write_product, modify.
    destruct (db.(products) !! i) as [p|] eqn:Hp; [|exact Hok].
    destruct (Hok _ _ Hp) as [Hpc Hpn].
    destruct c as [c0|]; [destruct (Z.ltb_spec c0 0) as [_|Hc0]; [exact Hok|]|];
      (destruct ids as [ids0|]; [destruct (_resolve_workers ids0 db) as [db3 [e|found]] eqn:Hr|]);
      cbv beta iota zeta; cbn [fst];
      try (pose proof (proj1 (resolve_workers_facts ids0 db)) as Hq; rewrite Hr in Hq;
           simpl in Hq; subst db3; exact Hok);
      try (apply resolve_workers_ok in Hr as (-> & Hnd & _));
      apply catalogue_ok_write; simpl; assumption.
  - unfold deactivate_product, bind, _get_product, err, raise, ret.
    destruct (db.(products) !! i) as [p|] eqn:Hp; [|exact Hok].
    destruct (Hok _ _ Hp). simpl. apply catalogue_ok_write; assumption.
  - unfold delete_product, bind, _get_product, err, raise, ret, modify.
    destruct (db.(products) !! i) as [p|] eqn:Hp; [|exact Hok].
    intros k q Hq. simpl in Hq. destruct (decide (k = i)) as [->|Hne].
    + by rewrite lookup_delete_eq in Hq.
    + rewrite lookup_delete_ne in Hq by congruence. exact (Hok _ _ Hq).
Qed.

(** Any sequence of [create_product], [update_product],
    [deactivate_product] and [delete_product] calls, accepted or rejected,
    keeps every stored price non-negative and every pool free of
    repeated workers, even when the requested worker list repeats ids. *)
Theorem run_products_catalogue_ok (ops : list ProductOp) (db : DB) :
  catalogue_ok db -> catalogue_ok (run_products ops db).
Proof.
  unfold run_products. revert db.
  induction ops as [|op ops IH]; intros db Hok; simpl; [exact Hok|].
  apply IH, catalogue_ok_step, Hok.
Qed.

(** A product created, or updated with a worker list, gets as its pool
    exactly the listed workers, each once, and each of them existed with
    status "active" at that moment; a created product has the given
    price, which is not negative. *)
Theorem product_pool_assignment (db db' : DB) (p : VpsProduct) :
  (forall new_id c a act ids,
     create_product new_id c a act ids db = (db', inr p) ->
     db'.(products) !! new_id = Some p /\ p.(p_price_coins) = c /\ 0 <= c /\ NoDup p.(p_workers) /\
     forall wid, wid ∈ p.(p_workers) <->
       wid ∈ ids /\ exists w, db.(workers) !! wid = Some w /\ w.(w_status) = "active") /\
  (forall pid c a act ids,
     update_product pid c a act (Some ids) db = (db', inr p) ->
     db'.(products) !! pid = Some p /\ NoDup p.(p_workers) /\
     forall wid, wid ∈ p.(p_workers) <->
       wid ∈ ids /\ exists w, db.(workers) !! wid = Some w /\ w.(w_status) = "active").
Proof.
  split.
  - intros new_id c a act ids. unfold create_product, err, raise, bind.
    destruct (Z.ltb_spec c 0) as [_|Hc]; [discriminate|].
    destruct (_resolve_workers ids db) as [db1 [e|found]] eqn:Hr; [discriminate|].
    apply resolve_workers_ok in Hr as (-> & Hnd & Hmem).
    intros [= <- <-]. simpl. rewrite lookup_insert_eq. auto.
  - intros pid c a act ids.
    unfold update_product, bind, _get_product, err, raise, ret, write_product, modify.
    destruct (db.(products) !! pid) as [q|] eqn:Hq; [|discriminate].
    destruct c as [c0|]; [destruct (Z.ltb_spec c0 0) as [_|Hc0]; [discriminate|]|];
      destruct (_resolve_workers ids db) as [db3 [e|found]] eqn:Hr; try discriminate;
      apply resolve_workers_ok in Hr as (-> & Hnd & Hmem);
      intros [= <- <-]; simpl; rewrite lookup_insert_eq; auto.
Qed.
(* ------------------------------------------------------------------ *)
(** ** Worker listing *)

Lemma Sorted_map {A B} (f : A -> B) (R1 : relation A) (R2 : relation B) (l : list A) :
  (forall x y, R1 x y -> R2 (f x) (f y)) -> Sorted R1 l -> Sorted R2 (map f l).
Proof.
  intros Hf. induction 1 as [|x l Hs IH Hd]; simpl; constructor; [exact IH|].
  destruct Hd; constructor. by apply Hf.
Qed.

(** [list_workers] only reads and lists every worker row once, newest
    first, each with the number of its sessions in an active status;
    [get_worker] returns the row with that same count, or 404 "Worker not
    found." for an unknown id. *)
Theorem list_and_get_worker_counts (db : DB) :
  (exists rows,
     list_workers db = (db, inr rows) /\
     map (fun r => r.1.1) rows ≡ₚ map fst (map_to_list db.(workers)) /\
     (forall wid w c, (wid, w, c) ∈ rows ->
        db.(workers) !! wid = Some w /\ c = Z.of_nat (active_sessions_of db wid)) /\
     Sorted (fun r1 r2 => r2.1.2.(w_created_at) <= r1.1.2.(w_created_at)) rows) /\
  (forall wid, db.(workers) !! wid = None ->
     get_worker wid db = (db, inl (HTTPException 404 "Worker not found."))) /\
  (forall wid w, db.(workers) !! wid = Some w ->
     get_worker wid db = (db, inr (w, Z.of_nat (active_sessions_of db wid)))).
Proof.
  split; [|split].
  - set (ws := merge_sort created_desc (map_to_list db.(workers))).
    assert (Hperm : ws ≡ₚ map_to_list db.(workers)) by apply merge_sort_Permutation.
    eexists. split; [reflexivity|]. split; [|split].
    + rewrite map_map. simpl. fold ws. by rewrite Hperm.
    + intros wid w c Hin. apply list_elem_of_In, in_map_iff in Hin as ([i x] & Heq & Hin).
      injection Heq as -> -> <-. apply list_elem_of_In in Hin.
      assert (Hm : (wid, w) ∈ map_to_list db.(workers)) by (rewrite <- Hperm; exact Hin).
      split; [by apply elem_of_map_to_list|].
      apply active_session_counts_get.
      change (wid ∈ map fst ws) with (wid ∈ fst <$> ws).
      apply list_elem_of_fmap. exists (wid, w). split; [reflexivity|exact Hin].
    + apply Sorted_map with (R1 := created_desc); [intros x y H; exact H|].
      assert (Htot : Total created_desc) by (intros x y; unfold created_desc; lia).
      apply (Sorted_merge_sort created_desc).
  - intros wid Hw. unfold get_worker. by rewrite Hw.
  - intros wid w Hw. unfold get_worker, ret. rewrite Hw.
    rewrite active_session_counts_get by apply list_elem_of_singleton, eq_refl. reflexivity.
Qed.
(* ------------------------------------------------------------------ *)
(** ** Gift codes *)

Lemma _normalize_code_state (code : string) (gs : GiftState) :
  _normalize_code code gs = (gs, snd (_normalize_code code gs)).
Proof.
  unfold _normalize_code, gerr, gret.
  destruct (String.eqb _ _); [reflexivity|]. destruct (Nat.ltb _ _); reflexivity.
Qed.

Lemma redeem_code_inv (uid : string) (clock : Z) (code : string) (gs gs' : GiftState)
    (r : GiftCodeRedemption) (gc' : GiftCode) :
  redeem_code uid clock code gs = (gs', inr (r, gc')) ->
  exists cid gc n b,
    snd (_normalize_code code gs) = inr n /\
    codes_with gs n None = [(cid, gc)] /\
    gc.(gc_is_active) = true /\ gc.(gc_redeemed_count) < gc.(gc_total_uses) /\
    redemptions_of gs cid uid = [] /\
    adjust_balance uid gc.(gc_reward_amount) "giftcode.redeem" (Some cid)
      (Some [("code", gc.(gc_code))]) clock gs.(gs_db) = (gs'.(gs_db), inr b) /\
    r = mkGiftCodeRedemption cid uid gc.(gc_reward_amount) /\
    gc' = mkGiftCode gc.(gc_title) gc.(gc_code) gc.(gc_reward_amount) gc.(gc_total_uses)
            (gc.(gc_redeemed_count) + 1) gc.(gc_is_active) gc.(gc_created_by) (Some clock) /\
    gs'.(gift_codes) = <[cid := gc']> gs.(gift_codes) /\
    gs'.(redemptions) = (gs.(redemptions) ++ [r])%list.
Proof.
  intros H. unfold redeem_code, gbind at 1 in H.
  rewrite _normalize_code_state in H.
  destruct (snd (_normalize_code code gs)) as [e|n] eqn:Hn; [discriminate|].
  unfold gbind at 1 in H.
  destruct (codes_with gs n None) as [|[cid gc] [|x rest]] eqn:Hc;
    cbn in H; try discriminate.
  destruct (gc_is_active gc) eqn:Ha; cbn in H; [|discriminate].
  destruct (Z.leb_spec (gc_total_uses gc) (gc_redeemed_count gc)) as [Hle|Hlt];
    cbn in H; [discriminate|].
  unfold gbind at 1 in H.
  destruct (redemptions_of gs cid uid) as [|x [|y l]] eqn:Hr; cbn in H; try discriminate.
  unfold gbind at 1, lift_db in H. cbv beta in H.
  destruct (adjust_balance uid (gc_reward_amount gc) "giftcode.redeem" (Some cid)
              (Some [("code", gc_code gc)]) clock (gs_db gs)) as [db' [e|b]] eqn:Hadj;
    cbn in H; [discriminate|].
  injection H as <- <- <-.
  exists cid, gc, n, b. rewrite Ha. cbn. repeat split; auto.
Qed.

(** A redemption that succeeds found exactly one row with the normalized
    code, active and not used up, and no earlier redemption of it by the
    user; it credits the code's reward to the user through
    [adjust_balance] (one ledger entry "giftcode.redeem" referring to the
    code, with the code as meta), raises the row's [redeemed_count] by one,
    stamps it, and appends the redemption row. *)
Theorem redeem_code_effect (uid : string) (clock : Z) (code : string) (gs gs' : GiftState)
    (r : GiftCodeRedemption) (gc' : GiftCode) :
  redeem_code uid clock code gs = (gs', inr (r, gc')) ->
  exists cid gc n,
    snd (_normalize_code code gs) = inr n /\
    codes_with gs n None = [(cid, gc)] /\
    gc.(gc_is_active) = true /\ gc.(gc_redeemed_count) < gc.(gc_total_uses) /\
    redemptions_of gs cid uid = [] /\
    r = mkGiftCodeRedemption cid uid gc.(gc_reward_amount) /\
    gc' = mkGiftCode gc.(gc_title) gc.(gc_code) gc.(gc_reward_amount) gc.(gc_total_uses)
            (gc.(gc_redeemed_count) + 1) gc.(gc_is_active) gc.(gc_created_by) (Some clock) /\
    gs'.(gift_codes) = <[cid := gc']> gs.(gift_codes) /\
    gs'.(redemptions) = (gs.(redemptions) ++ [r])%list /\
    get_balance gs'.(gs_db) uid = get_balance gs.(gs_db) uid + gc.(gc_reward_amount) /\
    gs'.(gs_db).(ledger) =
      (gs.(gs_db).(ledger) ++ [mkLedgerEntry uid "giftcode.redeem" gc.(gc_reward_amount)
                                 (get_balance gs.(gs_db) uid + gc.(gc_reward_amount))
                                 (Some cid) [("code", gc.(gc_code))]])%list.
Proof.
  intros H.
  destruct (redeem_code_inv _ _ _ _ _ _ _ H)
    as (cid & gc & n & b & Hn & Hc & Ha & Hlt & Hr & Hadj & Hr' & Hgc' & Hcodes & Hred).
  apply adjust_balance_success in Hadj as (-> & _ & Hled & Hbal & _).
  exists cid, gc, n. repeat split; auto.
Qed.

Lemma codes_with_elem (gs : GiftState) (n : string) (ex : option string) (x : string * GiftCode) :
  x ∈ codes_with gs n ex <->
  gs.(gift_codes) !! x.1 = Some x.2 /\ x.2.(gc_code) = n /\ Some x.1 <> ex.
Proof.
  unfold codes_with. rewrite list_elem_of_filter. destruct x as [i g]. cbn.
  rewrite elem_of_map_to_list. tauto.
Qed.

Lemma codes_with_NoDup (gs : GiftState) (n : string) (ex : option string) :
  NoDup (codes_with gs n ex).
Proof. unfold codes_with. apply NoDup_filter, NoDup_map_to_list. Qed.

Lemma NoDup_singleton_elems {A} (l : list A) (a : A) :
  NoDup l -> (forall x, x ∈ l <-> x = a) -> l = [a].
Proof.
  intros Hnd Hel. destruct l as [|y l].
  - exfalso. apply (not_elem_of_nil a), Hel. reflexivity.
  - assert (y = a) as -> by (apply Hel; left). f_equal.
    apply NoDup_cons in Hnd as [Hna _].
    destruct l as [|z l]; [reflexivity|].
    assert (z = a) as -> by (apply Hel; right; left). exfalso; apply Hna; left.
Qed.

Lemma codes_with_insert_same (gs gs' : GiftState) (cid : string) (gc gc' : GiftCode) (n : string) :
  codes_with gs n None = [(cid, gc)] -> gc'.(gc_code) = gc.(gc_code) ->
  gs'.(gift_codes) = <[cid := gc']> gs.(gift_codes) ->
  codes_with gs' n None = [(cid, gc')].
Proof.
  intros Hc Hcode Hm.
  assert (Hin : (cid, gc) ∈ codes_with gs n None) by (rewrite Hc; left).
  apply codes_with_elem in Hin as (_ & Hn & _). cbn in Hn.
  apply NoDup_singleton_elems; [apply codes_with_NoDup|].
  intros [i g]. rewrite codes_with_elem. cbn. rewrite Hm. split.
  - intros (Hl & Hg & _). destruct (String.eqb_spec i cid) as [->|Hne].
    + rewrite lookup_insert_eq in Hl. congruence.
    + rewrite lookup_insert_ne in Hl by congruence.
      assert (Hx : (i, g) ∈ codes_with gs n None) by (apply codes_with_elem; cbn; auto).
      rewrite Hc in Hx. apply list_elem_of_singleton in Hx. congruence.
  - intros [= -> ->]. rewrite lookup_insert_eq. split; [reflexivity|]. split; [congruence|discriminate].
Qed.

(** A user cannot redeem the same code twice: once a redemption has
    succeeded, the same user's next redemption of that code fails with
    409 ("giftcode_out_of_stock" if that redemption used the code up,
    "giftcode_already_redeemed" otherwise) and changes nothing. *)
Theorem redeem_code_twice (uid : string) (clock clock' : Z) (code : string)
    (gs gs' : GiftState) (r : GiftCodeRedemption) (gc' : GiftCode) :
  redeem_code uid clock code gs = (gs', inr (r, gc')) ->
  redeem_code uid clock' code gs' =
    (gs', inl (HTTPException 409
                 (if gc'.(gc_total_uses) <=? gc'.(gc_redeemed_count)
                  then "giftcode_out_of_stock" else "giftcode_already_redeemed"))).
Proof.
  intros H.
  destruct (redeem_code_inv _ _ _ _ _ _ _ H)
    as (cid & gc & n & b & Hn & Hc & Ha & Hlt & Hr & Hadj & -> & -> & Hcodes & Hred).
  set (gc' := mkGiftCode _ _ _ _ _ _ _ _) in Hcodes |- *.
  assert (Hc' : codes_with gs' n None = [(cid, gc')])
    by (eapply codes_with_insert_same; [exact Hc|reflexivity|exact Hcodes]).
  assert (Hr' : redemptions_of gs' cid uid = [mkGiftCodeRedemption cid uid (gc_reward_amount gc)]).
  { unfold redemptions_of in *. rewrite Hred, filter_app, Hr.
    rewrite filter_cons_True by (cbn; auto). reflexivity. }
  unfold redeem_code, gbind at 1.
  rewrite _normalize_code_state.
  assert (Hn' : snd (_normalize_code code gs') = inr n).
  { rewrite <- Hn. unfold _normalize_code, gerr, gret.
    destruct (String.eqb _ _); [reflexivity|]. destruct (Nat.ltb _ _); reflexivity. }
  rewrite Hn'. unfold gbind at 1. rewrite Hc'. cbn [scalar_one_or_none gret].
  cbn [gc_is_active gc_total_uses gc_redeemed_count gc']. rewrite Ha. cbn [negb].
  destruct (gc_total_uses gc <=? gc_redeemed_count gc + 1); [reflexivity|].
  unfold gbind at 1. rewrite Hr'. reflexivity.
Qed.
(** No two gift-code rows share a code. *)
Definition codes_unique (m : gmap string GiftCode) : Prop :=
  forall c1 c2 g1 g2, m !! c1 = Some g1 -> m !! c2 = Some g2 ->
    g1.(gc_code) = g2.(gc_code) -> c1 = c2.

(** The consistency of the two gift-code tables: every row's reward is at
    least 1 and its [redeemed_count] is between 0 and [total_uses] and
    equals the number of its redemption rows; every redemption row refers
    to a code row; no user has two redemptions of one code; codes are
    unique. *)
Definition gift_inv (gs : GiftState) : Prop :=
  (forall cid gc, gs.(gift_codes) !! cid = Some gc ->
     1 <= gc.(gc_reward_amount) /\ 0 <= gc.(gc_redeemed_count) <= gc.(gc_total_uses) /\
     gc.(gc_redeemed_count) =
       Z.of_nat (length (filter (fun r => r.(gr_gift_code_id) = cid) gs.(redemptions)))) /\
  (forall r, r ∈ gs.(redemptions) -> is_Some (gs.(gift_codes) !! r.(gr_gift_code_id))) /\
  NoDup (map (fun r => (r.(gr_gift_code_id), r.(gr_user_id))) gs.(redemptions)) /\
  codes_unique gs.(gift_codes).

(** Every [GCreate] of a sequence uses an id no row has (the ids are
    [uuid4]s). *)
Fixpoint ops_fresh (ops : list GiftOp) (gs : GiftState) : Prop :=
  match ops with
  | [] => True
  | op :: ops' =>
      match op with
      | GCreate i _ _ _ _ _ _ => gs.(gift_codes) !! i = None
      | _ => True
      end /\ ops_fresh ops' (gift_step gs op)
  end.

Lemma gbind_inv {A B} (m : GM A) (k : A -> GM B) (gs gs' : GiftState) (res : HttpError + B) :
  gbind m k gs = (gs', res) ->
  (exists e, m gs = (gs', inl e) /\ res = inl e) \/
  (exists gs1 a, m gs = (gs1, inr a) /\ k a gs1 = (gs', res)).
Proof.
  unfold gbind. destruct (m gs) as [gs1 [e|a]]; intros H.
  - left. injection H as <- <-. eauto.
  - right. eauto.
Qed.

Lemma ensure_unique_code_inv (n : string) (ex : option string) (gs gs1 : GiftState) (res : HttpError + unit) :
  _ensure_unique_code n ex gs = (gs1, res) ->
  gs1 = gs /\ (res = inr tt -> codes_with gs n ex = []).
Proof.
  unfold _ensure_unique_code, gbind.
  destruct (codes_with gs n ex) as [|x [|y l]]; cbn; intros H; injection H as <- <-;
    split; try reflexivity; discriminate.
Qed.

Lemma normalize_code_inv (c : string) (gs gs1 : GiftState) (res : HttpError + string) :
  _normalize_code c gs = (gs1, res) -> gs1 = gs /\ res = snd (_normalize_code c gs).
Proof. rewrite _normalize_code_state. intros H; injection H as <- <-. auto. Qed.

Lemma create_code_cases (i t c : string) (r n : Z) (a : bool) (b : option string)
    (gs gs' : GiftState) (res : HttpError + GiftCode) :
  create_code i t c r n a b gs = (gs', res) ->
  gs' = gs \/
  exists nc, codes_with gs nc None = [] /\ 1 <= r /\ 1 <= n /\
    gs' = mkGiftState gs.(gs_db)
            (<[i := mkGiftCode (py_strip t) nc r n 0 a b None]> gs.(gift_codes)) gs.(redemptions).
Proof.
  unfold create_code. intros H.
  destruct (Z.ltb_spec r 1); [injection H as <- _; by left|].
  destruct (Z.ltb_spec n 1); [injection H as <- _; by left|].
  apply gbind_inv in H as [(e & Hm & _)|(gs1 & nc & Hm & H)];
    [apply normalize_code_inv in Hm as [-> _]; by left|].
  apply normalize_code_inv in Hm as [-> _].
  apply gbind_inv in H as [(e & Hm & _)|(gs2 & [] & Hm & H)];
    [apply ensure_unique_code_inv in Hm as [-> _]; by left|].
  apply ensure_unique_code_inv in Hm as [-> Hnone].
  destruct (Nat.ltb _ _); [injection H as <- _; by left|].
  injection H as <- _. right. exists nc. split; [by apply Hnone|]. split; [lia|]. split; [lia|].
  reflexivity.
Qed.

Lemma update_code_cases (i : string) (k : Z) (t c : option string) (r n : option Z)
    (a : option bool) (gs gs' : GiftState) (res : HttpError + GiftCode) :
  update_code i k t c r n a gs = (gs', res) ->
  gs' = gs \/
  exists gc gc', gs.(gift_codes) !! i = Some gc /\
    gs' = mkGiftState gs.(gs_db) (<[i := gc']> gs.(gift_codes)) gs.(redemptions) /\
    gc'.(gc_redeemed_count) = gc.(gc_redeemed_count) /\
    (gc'.(gc_reward_amount) = gc.(gc_reward_amount) \/ 1 <= gc'.(gc_reward_amount)) /\
    (gc'.(gc_total_uses) = gc.(gc_total_uses) \/ gc.(gc_redeemed_count) <= gc'.(gc_total_uses)) /\
    (gc'.(gc_code) = gc.(gc_code) \/ codes_with gs gc'.(gc_code) (Some i) = []).
Proof.
  unfold update_code. intros H.
  apply gbind_inv in H as [(e & Hm & _)|(gs1 & gc & Hm & H)].
  { unfold get_by_id in Hm. destruct (gift_codes gs !! i); injection Hm as <-; by left. }
  unfold get_by_id in Hm. destruct (gift_codes gs !! i) as [gc0|] eqn:Hl;
    [injection Hm as <- <-|discriminate].
  (* the code *)
  apply gbind_inv in H as [(e & Hm & _)|(gs2 & code' & Hm & H)].
  { left. destruct c as [c|]; [|discriminate].
    apply gbind_inv in Hm as [(e' & Hm & _)|(gs3 & nc & Hm & Hm')];
      apply normalize_code_inv in Hm as [-> _]; [reflexivity|].
    destruct (String.eqb _ _); [discriminate|].
    apply gbind_inv in Hm' as [(e'' & Hm' & _)|(gs4 & [] & Hm' & Hm'')];
      apply ensure_unique_code_inv in Hm' as [-> _]; [reflexivity|discriminate]. }
  assert (Hcode : gs2 = gs /\ (code' = gc_code gc0 \/ codes_with gs code' (Some i) = [])).
  { destruct c as [c|]; [|injection Hm as <- <-; auto].
    apply gbind_inv in Hm as [(e' & Hm & He)|(gs3 & nc & Hm & Hm')]; [discriminate He|].
    apply normalize_code_inv in Hm as [-> _].
    destruct (String.eqb_spec nc (gc_code gc0)); [injection Hm' as <- <-; auto|].
    apply gbind_inv in Hm' as [(e'' & Hm' & He)|(gs4 & [] & Hm' & Hm'')]; [discriminate He|].
    apply ensure_unique_code_inv in Hm' as [-> Hnone]. injection Hm'' as <- <-. auto. }
  destruct Hcode as [-> Hcode]. clear Hm.
  (* the reward *)
  apply gbind_inv in H as [(e & Hm & _)|(gs3 & reward' & Hm & H)].
  { left. destruct r as [r|]; [|discriminate]. destruct (r <? 1); [|discriminate].
    by injection Hm as <-. }
  assert (Hrew : gs3 = gs /\ (reward' = gc_reward_amount gc0 \/ 1 <= reward')).
  { destruct r as [r|]; [|injection Hm as <- <-; auto].
    destruct (Z.ltb_spec r 1); [discriminate|]. injection Hm as <- <-. auto. }
  destruct Hrew as [-> Hrew]. clear Hm.
  (* the total *)
  apply gbind_inv in H as [(e & Hm & _)|(gs4 & total' & Hm & H)].
  { left. destruct n as [n|]; [|discriminate].
    destruct (n <? 1); [by injection Hm as <-|].
    destruct (n <? gc_redeemed_count gc0); [by injection Hm as <-|discriminate]. }
  assert (Htot : gs4 = gs /\ (total' = gc_total_uses gc0 \/ gc_redeemed_count gc0 <= total')).
  { destruct n as [n|]; [|injection Hm as <- <-; auto].
    destruct (Z.ltb_spec n 1); [discriminate|].
    destruct (Z.ltb_spec n (gc_redeemed_count gc0)); [discriminate|].
    injection Hm as <- <-. auto. }
  destruct Htot as [-> Htot]. clear Hm.
  destruct (Nat.ltb _ _); [injection H as <- _; by left|].
  unfold gbind, write_code, gret in H. injection H as <- _.
  right. eexists gc0, _. split; [reflexivity|]. split; [reflexivity|]. cbn.
  split; [reflexivity|]. auto.
Qed.

Lemma redeem_code_err (uid : string) (clock : Z) (code : string) (gs gs' : GiftState)
    (e : HttpError) :
  redeem_code uid clock code gs = (gs', inl e) ->
  gs'.(gift_codes) = gs.(gift_codes) /\ gs'.(redemptions) = gs.(redemptions).
Proof.
  intros H. unfold redeem_code, gbind at 1 in H.
  rewrite _normalize_code_state in H.
  destruct (snd (_normalize_code code gs)) as [e0|n]; [by injection H as <-|].
  unfold gbind at 1 in H.
  destruct (codes_with gs n None) as [|[cid gc] [|x rest]]; cbn in H; try (by injection H as <-).
  destruct (gc_is_active gc); cbn in H; [|by injection H as <-].
  destruct (gc_total_uses gc <=? gc_redeemed_count gc); cbn in H; [by injection H as <-|].
  unfold gbind at 1 in H.
  destruct (redemptions_of gs cid uid) as [|x [|y l]]; cbn in H; try (by injection H as <-).
  unfold gbind at 1, lift_db in H. cbv beta in H.
  destruct (adjust_balance uid (gc_reward_amount gc) "giftcode.redeem" (Some cid)
              (Some [("code", gc_code gc)]) clock (gs_db gs)) as [db' [e1|b]];
    cbn in H; [by injection H as <-|discriminate].
Qed.

Lemma filter_nil_of_not {A} (P : A -> Prop) `{forall x, Decision (P x)} (l : list A) :
  (forall x, x ∈ l -> ~ P x) -> filter P l = [].
Proof.
  induction l as [|x l IH]; intros Hn; [reflexivity|].
  rewrite filter_cons_False by (apply Hn; left). apply IH. intros y Hy; apply Hn; by right.
Qed.

Lemma codes_unique_insert (m : gmap string GiftCode) (cid : string) (g' : GiftCode) :
  codes_unique m ->
  (forall c g, m !! c = Some g -> c <> cid -> g.(gc_code) <> g'.(gc_code)) ->
  codes_unique (<[cid := g']> m).
Proof.
  intros Hu Hnew c1 c2 g1 g2 H1 H2 Hc.
  destruct (String.eqb_spec c1 cid) as [->|N1], (String.eqb_spec c2 cid) as [->|N2]; [done| | |].
  - rewrite lookup_insert_eq in H1. rewrite lookup_insert_ne in H2 by congruence.
    injection H1 as <-. exfalso. apply (Hnew c2 g2 H2 N2). congruence.
  - rewrite lookup_insert_eq in H2. rewrite lookup_insert_ne in H1 by congruence.
    injection H2 as <-. exfalso. apply (Hnew c1 g1 H1 N1). congruence.
  - rewrite lookup_insert_ne in H1, H2 by congruence. eauto.
Qed.

Lemma gift_inv_create (i t c : string) (r n : Z) (a : bool) (b : option string) (gs : GiftState) :
  gift_inv gs -> gs.(gift_codes) !! i = None -> gift_inv (fst (create_code i t c r n a b gs)).
Proof.
  intros (H1 & H2 & H3 & H4) Hfresh.
  destruct (create_code i t c r n a b gs) as [gs' res] eqn:H. cbn [fst].
  apply create_code_cases in H as [->|(nc & Hnone & Hr & Hn & ->)]; [by split|].
  unfold gift_inv. cbn [gift_codes redemptions]. split; [|split; [|split]].
  - intros cid gc Hl. destruct (String.eqb_spec cid i) as [->|Hne].
    + rewrite lookup_insert_eq in Hl. injection Hl as <-. cbn.
      rewrite filter_nil_of_not; [cbn; lia|].
      intros x Hx Hxi. destruct (H2 x Hx) as [g Hg]. congruence.
    + rewrite lookup_insert_ne in Hl by congruence. eauto.
  - intros x Hx. destruct (String.eqb_spec (gr_gift_code_id x) i) as [->|Hne].
    + rewrite lookup_insert_eq. eauto.
    + rewrite lookup_insert_ne by congruence. eauto.
  - exact H3.
  - apply codes_unique_insert; [exact H4|]. intros c0 g Hg Hne Heq. cbn in Heq.
    assert (Hx : (c0, g) ∈ codes_with gs nc None)
      by (apply codes_with_elem; cbn; split; [exact Hg|split; [exact Heq|discriminate]]).
    rewrite Hnone in Hx. by eapply not_elem_of_nil.
Qed.

Lemma gift_inv_update (i : string) (k : Z) (t c : option string) (r n : option Z)
    (a : option bool) (gs : GiftState) :
  gift_inv gs -> gift_inv (fst (update_code i k t c r n a gs)).
Proof.
  intros (H1 & H2 & H3 & H4).
  destruct (update_code i k t c r n a gs) as [gs' res] eqn:H. cbn [fst].
  apply update_code_cases in H
    as [->|(gc & gc' & Hl & -> & Hcnt & Hrew & Htot & Hcode)]; [by split|].
  unfold gift_inv. cbn [gift_codes redemptions]. destruct (H1 i gc Hl) as (Hr1 & Hb & Hlen).
  split; [|split; [|split]].
  - intros cid g Hg. destruct (String.eqb_spec cid i) as [->|Hne].
    + rewrite lookup_insert_eq in Hg. injection Hg as <-.
      split; [destruct Hrew; lia|]. split; [destruct Htot; lia|]. lia.
    + rewrite lookup_insert_ne in Hg by congruence. eauto.
  - intros x Hx. destruct (String.eqb_spec (gr_gift_code_id x) i) as [->|Hne].
    + rewrite lookup_insert_eq. eauto.
    + rewrite lookup_insert_ne by congruence. eauto.
  - exact H3.
  - apply codes_unique_insert; [exact H4|]. intros c0 g Hg Hne Heq.
    destruct Hcode as [Hsame|Hnone].
    + apply Hne. apply (H4 c0 i g gc Hg Hl). congruence.
    + assert (Hx : (c0, g) ∈ codes_with gs (gc_code gc') (Some i))
        by (apply codes_with_elem; cbn; split; [exact Hg|split; [exact Heq|congruence]]).
      rewrite Hnone in Hx. by eapply not_elem_of_nil.
Qed.

Lemma gift_inv_redeem (uid : string) (clock : Z) (code : string) (gs : GiftState) :
  gift_inv gs -> gift_inv (fst (redeem_code uid clock code gs)).
Proof.
  intros Hinv. destruct Hinv as (H1 & H2 & H3 & H4) eqn:Hinv'.
  destruct (redeem_code uid clock code gs) as [gs' [e|[r gc']]] eqn:H; cbn [fst].
  { apply redeem_code_err in H as [Hc Hr]. unfold gift_inv. rewrite Hc, Hr. exact Hinv. }
  destruct (redeem_code_inv _ _ _ _ _ _ _ H)
    as (cid & gc & n & b & Hn & Hc & Ha & Hlt & Hr & Hadj & -> & -> & Hcodes & Hred).
  assert (Hin : (cid, gc) ∈ codes_with gs n None) by (rewrite Hc; left).
  apply codes_with_elem in Hin as (Hl & Hgn & _). cbn in Hl, Hgn.
  destruct (H1 cid gc Hl) as (Hr1 & Hb & Hlen).
  unfold gift_inv. rewrite Hcodes, Hred. split; [|split; [|split]].
  - intros c g Hg. rewrite filter_app. rewrite length_app.
    destruct (String.eqb_spec c cid) as [->|Hne].
    + rewrite lookup_insert_eq in Hg. injection Hg as <-. cbn.
      rewrite decide_True by reflexivity. cbn [length]. lia.
    + rewrite lookup_insert_ne in Hg by congruence.
      rewrite filter_cons_False by (cbn; congruence). cbn. rewrite Nat.add_0_r. eauto.
  - intros x Hx. apply elem_of_app in Hx as [Hx|Hx].
    + destruct (String.eqb_spec (gr_gift_code_id x) cid) as [->|Hne].
      * rewrite lookup_insert_eq. eauto.
      * rewrite lookup_insert_ne by congruence. eauto.
    + apply list_elem_of_singleton in Hx as ->. cbn. rewrite lookup_insert_eq. eauto.
  - rewrite map_app. apply NoDup_app. split; [exact H3|]. split; [|apply NoDup_singleton].
    intros p Hp Hp'. cbn in Hp'. apply list_elem_of_singleton in Hp' as ->.
    change ((cid, uid) ∈ (fun r => (gr_gift_code_id r, gr_user_id r)) <$> redemptions gs) in Hp.
    apply list_elem_of_fmap in Hp as (x & Hxe & Hx).
    assert (Hxr : x ∈ redemptions_of gs cid uid)
      by (apply list_elem_of_filter; split; [|exact Hx]; split; congruence).
    rewrite Hr in Hxr. by eapply not_elem_of_nil.
  - apply codes_unique_insert; [exact H4|]. intros c0 g Hg Hne Heq. cbn in Heq.
    apply Hne. apply (H4 c0 cid g gc Hg Hl Heq).
Qed.

(** Whatever sequence of creations, updates and redemptions runs (each
    creation with a fresh id), the gift-code tables stay consistent: no
    code is redeemed more than [total_uses] times, each row's
    [redeemed_count] is its number of redemptions, no user redeems a code
    twice, every redemption belongs to an existing code and no two codes
    are equal. *)
Theorem run_gift_inv (ops : list GiftOp) (gs : GiftState) :
  gift_inv gs -> ops_fresh ops gs -> gift_inv (run_gift ops gs).
Proof.
  unfold run_gift. revert gs. induction ops as [|op ops IH]; intros gs Hinv Hfresh; [exact Hinv|].
  destruct Hfresh as [Hop Hrest]. cbn [foldl]. apply IH; [|exact Hrest].
  destruct op; cbn [gift_step].
  - by apply gift_inv_create.
  - by apply gift_inv_update.
  - by apply gift_inv_redeem.
Qed.
Lemma run_gift_inv_witness :
  gift_inv (run_gift [GCreate "c1" " Welcome " " welcome " 5 2 true None;
                      GRedeem "u1" 10 "Welcome"; GRedeem "u1" 11 "WELCOME";
                      GUpdate "c1" 12 None None None (Some 1) None;
                      GRedeem "u2" 13 "welcome"]
                     (mkGiftState empty_db ∅ [])).
Proof.
  apply run_gift_inv.
  - split; [|split; [|split]].
    + intros cid gc Hl. discriminate.
    + intros r Hr. by apply not_elem_of_nil in Hr.
    + constructor.
    + intros c1 c2 g1 g2 H1. discriminate.
  - vm_compute. repeat split.
Defined.

Lemma redeem_code_twice_witness :
  let gs0 := fst (create_code "c1" "Welcome" "welcome" 5 2 true None (mkGiftState empty_db ∅ [])) in
  let '(gs1, res) := redeem_code "u1" 10 "WELCOME" gs0 in
  match res with
  | inr (r, gc') =>
      redeem_code "u1" 11 "WELCOME" gs1 =
        (gs1, inl (HTTPException 409
                     (if gc'.(gc_total_uses) <=? gc'.(gc_redeemed_count)
                      then "giftcode_out_of_stock" else "giftcode_already_redeemed")))
  | inl _ => False
  end.
Proof.
  cbv zeta.
  destruct (redeem_code "u1" 10 "WELCOME" _) as [gs1 res] eqn:H.
  destruct res as [e|[r gc']].
  - vm_compute in H. discriminate.
  - exact (redeem_code_twice _ _ _ _ _ _ _ _ H).
Defined.
Lemma adjust_balance_isolates_users_witness :
  let db := set_users (<["u1" := 30]> (<["u2" := 7]> ∅)) empty_db in
  "u2" <> "u1" /\
  let db' := fst (adjust_balance "u1" (-10) "vps.purchase" (Some "s1") None 5 db) in
  get_balance db' "u2" = get_balance db "u2" /\
  db'.(wallets) !! "u2" = db.(wallets) !! "u2" /\
  db'.(users) !! "u2" = db.(users) !! "u2" /\
  filter (fun e => e.(le_user_id) = "u2") db'.(ledger) =
    filter (fun e => e.(le_user_id) = "u2") db.(ledger).
Proof.
  cbv zeta. split; [discriminate|].
  apply adjust_balance_isolates_users. discriminate.
Defined.

(** A stand-in digest pair of the right sizes, to exercise the round trip. *)
Definition sample_digest (m : list Z) : list Z :=
  List.repeat (fold_left Z.add m 0 mod 256) 32.
Definition sample_hmac (k m : list Z) : list Z := sample_digest (k ++ m).

Lemma aesgcm_decrypt_encrypt_witness :
  (forall m, sample_digest m <> []) /\
  (forall k m, length (sample_hmac k m) = _TAG_LENGTH) /\
  aesgcm_decrypt sample_digest sample_hmac [1; 2] [3; 4]
    (aesgcm_encrypt sample_digest sample_hmac [1; 2] [3; 4] [104; 105; 33] (Some [9]))
    (Some [9]) = inr [104; 105; 33].
Proof.
  assert (Hne : forall m, sample_digest m <> []) by (intros m; unfold sample_digest; discriminate).
  assert (Hl : forall k m, length (sample_hmac k m) = _TAG_LENGTH)
    by (intros k m; unfold sample_hmac, sample_digest; apply repeat_length).
  split; [exact Hne|]. split; [exact Hl|].
  apply (aesgcm_decrypt_encrypt sample_digest sample_hmac Hne Hl).
Defined.

Lemma aesgcm_decrypt_accepts_only_encryptions_witness :
  (forall m, sample_digest m <> []) /\
  ((length [1; 2; 3]%Z < _TAG_LENGTH)%nat ->
   aesgcm_decrypt sample_digest sample_hmac [1; 2] [3; 4] [1; 2; 3] None =
     inl "ciphertext too short") /\
  (forall plaintext,
     aesgcm_decrypt sample_digest sample_hmac [1; 2] [3; 4] [1; 2; 3] None = inr plaintext ->
     [1; 2; 3] = aesgcm_encrypt sample_digest sample_hmac [1; 2] [3; 4] plaintext None).
Proof.
  assert (Hne : forall m, sample_digest m <> []) by (intros m; unfold sample_digest; discriminate).
  split; [exact Hne|].
  apply (aesgcm_decrypt_accepts_only_encryptions sample_digest sample_hmac Hne).
Defined.

Lemma run_products_catalogue_ok_witness :
  catalogue_ok empty_db /\
  catalogue_ok (run_products [OpCreate "p1" 10 1 true []; OpUpdate "p1" (Some (-1)) None None None;
                              OpDeactivate "p1"; OpDelete "p1"] empty_db).
Proof.
  assert (H0 : catalogue_ok empty_db) by (intros k q Hq; discriminate).
  split; [exact H0|]. apply run_products_catalogue_ok, H0.
Defined.

Lemma redeem_code_effect_witness :
  let gs := fst (create_code "c1" "Welcome" "welcome" 5 2 true None (mkGiftState empty_db ∅ [])) in
  let '(gs', res) := redeem_code "u1" 10 " Welcome " gs in
  match res with
  | inr (r, gc') =>
      exists cid gc n,
        snd (_normalize_code " Welcome " gs) = inr n /\
        codes_with gs n None = [(cid, gc)] /\
        gc.(gc_is_active) = true /\ gc.(gc_redeemed_count) < gc.(gc_total_uses) /\
        redemptions_of gs cid "u1" = [] /\
        r = mkGiftCodeRedemption cid "u1" gc.(gc_reward_amount) /\
        gc' = mkGiftCode gc.(gc_title) gc.(gc_code) gc.(gc_reward_amount) gc.(gc_total_uses)
                (gc.(gc_redeemed_count) + 1) gc.(gc_is_active) gc.(gc_created_by) (Some 10) /\
        gs'.(gift_codes) = <[cid := gc']> gs.(gift_codes) /\
        gs'.(redemptions) = (gs.(redemptions) ++ [r])%list /\
        get_balance gs'.(gs_db) "u1" = get_balance gs.(gs_db) "u1" + gc.(gc_reward_amount) /\
        gs'.(gs_db).(ledger) =
          (gs.(gs_db).(ledger) ++ [mkLedgerEntry "u1" "giftcode.redeem" gc.(gc_reward_amount)
                                     (get_balance gs.(gs_db) "u1" + gc.(gc_reward_amount))
                                     (Some cid) [("code", gc.(gc_code))]])%list
  | inl _ => False
  end.
Proof.
  cbv zeta.
  destruct (redeem_code "u1" 10 " Welcome " _) as [gs' res] eqn:H.
  destruct res as [e|[r gc']].
  - vm_compute in H. discriminate.
  - exact (redeem_code_effect _ _ _ _ _ _ _ H).
Defined.
(* ------------------------------------------------------------------ *)
(** ** Worker callbacks and registration, continued *)

Section CallbackExtras.

Variable parse_uuid : string -> option string.
Variable py_float : string -> option float.
Variable json_loads : string -> option Json.
Variable py_int : Json -> option Z.
Variable decrypt_secret : string -> option string.
Variable hmac_sha256_hex : string -> string -> string.

Local Abbreviation verify := (_verify_request parse_uuid py_float decrypt_secret hmac_sha256_hex).
Local Abbreviation result :=
  (worker_result parse_uuid py_float json_loads decrypt_secret hmac_sha256_hex).
Local Abbreviation status_cb :=
  (worker_status parse_uuid py_float json_loads py_int decrypt_secret hmac_sha256_hex).
Local Abbreviation checklist_cb :=
  (worker_checklist parse_uuid py_float json_loads decrypt_secret hmac_sha256_hex).
Local Abbreviation register := (worker_register parse_uuid decrypt_secret).

Local Ltac step H := rewrite (bind_inr _ _ _ _ _ H); cbv beta iota zeta.

Lemma revoke_token_revoked (tid : string) (clock : Z) (db db' : DB) (tok : AdminToken) :
  revoke_token tid clock db = (db', inr tok) ->
  db'.(tokens) !! tid = Some tok /\ is_Some tok.(at_revoked_at) /\ db'.(workers) = db.(workers).
Proof.
  unfold revoke_token, err, raise, ret.
  destruct (tokens db !! tid) as [t|] eqn:Ht; [|discriminate].
  destruct (at_revoked_at t) as [r|] eqn:Hr; intros H; cbv iota in H; injection H as <- <-.
  - rewrite Ht, Hr. eauto.
  - cbn. rewrite lookup_insert_eq. eauto.
Qed.

(** Revocation takes effect at once: after [revoke_token] succeeds, every
    signed status, checklist or result callback of a worker bound to that
    token is rejected with 401 "Worker token revoked" and changes nothing,
    and [POST /workers/register] with that token id is rejected with 401
    "Token unavailable" and changes nothing. *)
Theorem revoke_token_locks_out_workers (tid : string) (clock : Z) (db db' : DB) (tok : AdminToken) :
  revoke_token tid clock db = (db', inr tok) ->
  (forall now clock' req wu w,
     header_missing req.(x_worker_id) = false -> header_missing req.(x_timestamp) = false ->
     header_missing req.(x_signature) = false ->
     parse_uuid (default EmptyString req.(x_worker_id)) = Some wu ->
     db'.(workers) !! wu = Some w -> w.(w_token_id) = Some tid ->
     verify now req db' = (db', inl (HTTPException 401 "Worker token revoked")) /\
     status_cb now clock' req db' = (db', inl (HTTPException 401 "Worker token revoked")) /\
     checklist_cb now clock' req db' = (db', inl (HTTPException 401 "Worker token revoked")) /\
     result now clock' req db' = (db', inl (HTTPException 401 "Worker token revoked"))) /\
  (forall new_id clock' payload,
     py_truthy (get_or payload "token_id" JNull) = true ->
     py_truthy (get_or payload "admin_token" JNull) = true ->
     py_truthy (get_or payload "base_url" JNull) = true ->
     parse_uuid (py_str (get_or payload "token_id" JNull)) = Some tid ->
     register new_id clock' payload db' = (db', inl (HTTPException 401 "Token unavailable"))).
Proof.
  intros H. apply revoke_token_revoked in H as (Htok & [r Hr] & _). split.
  - intros now clock' req wu w H1 H2 H3 Hu Hw Ht.
    assert (Hv : verify now req db' = (db', inl (HTTPException 401 "Worker token revoked"))).
    { unfold _verify_request. rewrite H1, H2, H3. cbn [orb].
      rewrite Hu, Hw, Ht, Htok, Hr. reflexivity. }
    split; [exact Hv|].
    split; [|split]; [unfold worker_status|unfold worker_checklist|unfold worker_result];
      apply bind_inl, Hv.
  - intros new_id clock' payload H1 H2 H3 Hu.
    unfold worker_register. rewrite H1, H2, H3. cbn [negb orb].
    rewrite Hu. unfold bind, get_db. rewrite Htok, Hr. reflexivity.
Qed.

Lemma find_worker_by_token_url_some (db : DB) (t u : string) (i : string) (w : Worker) :
  db.(workers) !! i = Some w -> w.(w_token_id) = Some t -> w.(w_base_url) = u ->
  exists j w', find_worker_by_token_url db t u = Some (j, w') /\ db.(workers) !! j = Some w'.
Proof.
  intros Hw Ht Hu. unfold find_worker_by_token_url.
  destruct (List.find _ (map_to_list (workers db))) as [[j w']|] eqn:Hf.
  - apply List.find_some in Hf as [Hin _]. exists j, w'. split; [reflexivity|].
    by apply elem_of_map_to_list, list_elem_of_In.
  - exfalso. apply elem_of_map_to_list, list_elem_of_In in Hw.
    apply (List.find_none _ _ Hf) in Hw. cbn in Hw. rewrite Ht, Hu, !String.eqb_refl in Hw.
    discriminate.
Qed.

(** What a successful registration checked and wrote. *)
Lemma worker_register_ok (new_id : string) (clock : Z) (payload : list (string * Json))
    (db db1 : DB) (wid : string) :
  register new_id clock payload db = (db1, inr wid) ->
  exists tu token secret w,
    py_truthy (get_or payload "token_id" JNull) = true /\
    py_truthy (get_or payload "admin_token" JNull) = true /\
    py_truthy (get_or payload "base_url" JNull) = true /\
    parse_uuid (py_str (get_or payload "token_id" JNull)) = Some tu /\
    db.(tokens) !! tu = Some token /\ token.(at_revoked_at) = None /\
    decrypt_secret token.(at_token_ciphertext) = Some secret /\
    py_eq_str (get_or payload "admin_token" JNull) secret = true /\
    db1 = set_workers (<[wid := w]> db.(workers)) db /\
    w.(w_token_id) = Some tu /\ w.(w_base_url) = rstrip_slash (py_str (get_or payload "base_url" JNull)).
Proof.
  unfold worker_register, bind, get_db, write_worker, modify, ret, err, raise.
  destruct (py_truthy (get_or payload "token_id" JNull)) eqn:H1;
    destruct (py_truthy (get_or payload "admin_token" JNull)) eqn:H2;
    destruct (py_truthy (get_or payload "base_url" JNull)) eqn:H3; cbn [negb orb];
    try discriminate.
  destruct (parse_uuid _) as [tu|] eqn:Hu; [|discriminate].
  destruct (tokens db !! tu) as [token|] eqn:Ht; [|discriminate].
  destruct (at_revoked_at token) eqn:Hr; [discriminate|].
  destruct (decrypt_secret _) as [secret|] eqn:Hd; [|discriminate].
  destruct (py_eq_str _ secret) eqn:He; cbn [negb]; [|discriminate].
  destruct (find_worker_by_token_url db tu _) as [[j ex]|] eqn:Hf; intros H; injection H as <- <-.
  - unfold find_worker_by_token_url in Hf. apply List.find_some in Hf as [_ Hp]. cbn in Hp.
    destruct (w_token_id ex) as [t'|] eqn:Hte; [|discriminate].
    apply andb_prop in Hp as [Hp1 _]. apply String.eqb_eq in Hp1. subst t'.
    eexists tu, token, secret, _. repeat split; eauto.
  - eexists tu, token, secret, _. repeat split; eauto.
Qed.

(** Registering again with the same payload adds no worker row: once a
    registration has succeeded, the same registration (with any new id
    and time) succeeds as well, returns the id of an existing row and
    leaves the set of worker ids as it was. *)
Theorem worker_register_again_adds_no_row (new_id new_id' : string) (clock clock' : Z)
    (payload : list (string * Json)) (db db1 : DB) (wid : string) :
  register new_id clock payload db = (db1, inr wid) ->
  exists db2 wid2,
    register new_id' clock' payload db1 = (db2, inr wid2) /\
    is_Some (db1.(workers) !! wid2) /\
    (forall k, is_Some (db2.(workers) !! k) <-> is_Some (db1.(workers) !! k)).
Proof.
  intros H.
  destruct (worker_register_ok _ _ _ _ _ _ H)
    as (tu & token & secret & w & H1 & H2 & H3 & Hu & Ht & Hr & Hd & He & -> & Hwt & Hwu).
  set (db1 := set_workers (<[wid := w]> (workers db)) db).
  assert (Hw1 : db1.(workers) !! wid = Some w) by apply lookup_insert_eq.
  destruct (find_worker_by_token_url_some db1 tu _ wid w Hw1 Hwt Hwu) as (j & w' & Hf & Hj).
  unfold worker_register, bind, get_db, write_worker, modify, ret, err, raise.
  rewrite H1, H2, H3. cbn [negb orb]. rewrite Hu.
  change (tokens db1) with (tokens db). rewrite Ht, Hr, Hd, He. cbn [negb].
  rewrite Hf. eexists _, j. split; [reflexivity|]. split; [by eexists|].
  intros k. cbn [workers set_workers]. destruct (String.eqb_spec k j) as [->|Hne].
  - rewrite lookup_insert_eq. fold db1. rewrite Hj. split; intros _; by eexists.
  - rewrite lookup_insert_ne by congruence. reflexivity.
Qed.

(** A "ready" result credits and debits nobody: an authentic result
    callback with status "ready" for an existing session succeeds, stores
    the session as ready with the connection fields of the payload,
    updates the reporting worker's job count, leaves users, wallets, the
    ledger, tokens and products as they were, and publishes
    "status.update" then "ready". *)
Theorem ready_result_moves_no_coins (now : float) (clock : Z) (req : Request) (db : DB)
    (wu : string) (w : Worker) (fields : list (string * Json)) (sid su : string)
    (s : VpsSession) :
  verify now req db = (db, inr (wu, w, req.(req_body))) ->
  json_loads req.(req_body) = Some (JObj fields) ->
  get_or fields "session_id" JNull = JStr sid -> sid <> EmptyString ->
  parse_uuid sid = Some su ->
  db.(sessions) !! su = Some s ->
  get_or fields "status" JNull = JStr "ready" ->
  exists db',
    result now clock req db =
      (db', inr [mkPublished su "status.update" [("status", JStr "ready")];
                 mkPublished su "ready"
                   [("rdp_host", get_or fields "rdp_host" JNull);
                    ("rdp_port", get_or fields "rdp_port" JNull);
                    ("rdp_user", get_or fields "rdp_user" JNull);
                    ("rdp_password", get_or fields "rdp_password" JNull);
                    ("log_url", get_or fields "log_url" JNull)]]) /\
    db'.(sessions) = <[su := session_ready s fields clock]> db.(sessions) /\
    db'.(workers) = <[wu := result_worker_update w clock]> db.(workers) /\
    db'.(users) = db.(users) /\ db'.(wallets) = db.(wallets) /\ db'.(ledger) = db.(ledger) /\
    db'.(tokens) = db.(tokens) /\ db'.(products) = db.(products).
Proof.
  intros Hv Hj Hg Hne Hu Hs Hst.
  unfold worker_result. step Hv. step (load_payload_ok json_loads _ _ db Hj).
  step (payload_session_id_ok parse_uuid _ _ _ db Hg Hne Hu).
  assert (Hls : _load_session su db = (db, inr s)) by (unfold _load_session; rewrite Hs; reflexivity).
  step Hls.
  assert (Hg0 : get_db db = (db, inr db)) by reflexivity. step Hg0.
  rewrite Hst. change (py_eq_str (JStr "ready") "ready") with true. cbv iota.
  set (s1 := session_ready s fields clock).
  set (db_a := set_sessions (<[su:=s1]> (sessions db)) db).
  assert (Hm : (let! _ := write_session su s1 in ret s1) db = (db_a, inr s1)) by reflexivity.
  step Hm.
  set (db_c := set_workers (<[wu := result_worker_update w clock]> (workers db_a)) db_a).
  assert (Hww : write_worker wu (result_worker_update w clock) db_a = (db_c, inr tt))
    by reflexivity.
  step Hww.
  set (db_d := set_sessions (<[su := s1]> (sessions db_c)) db_c).
  assert (Hws : write_session su s1 db_c = (db_d, inr tt)) by reflexivity.
  step Hws.
  change (vs_status s1) with "ready".
  change (("ready" =? "ready")%string) with true. cbv iota.
  exists db_d. split; [reflexivity|].
  split; [|repeat split].
  change (<[su:=s1]> (<[su:=s1]> (sessions db)) = <[su:=s1]> (sessions db)).
  apply insert_insert_eq.
Qed.

(** The worker bookkeeping of a result callback never leaves a negative
    job count, and marks the worker "busy" exactly when jobs remain. *)
Theorem result_worker_update_jobs (w : Worker) (clock : Z) :
  let w' := result_worker_update w clock in
  0 <= w'.(w_current_jobs) /\
  (w'.(w_status) = "busy" <-> 0 < w'.(w_current_jobs)) /\
  (w'.(w_status) = "idle" <-> w'.(w_current_jobs) = 0) /\
  (0 < w.(w_current_jobs) -> w'.(w_current_jobs) = w.(w_current_jobs) - 1) /\
  w'.(w_token_id) = w.(w_token_id) /\ w'.(w_last_heartbeat) = Some clock.
Proof.
  unfold result_worker_update. cbn [w_current_jobs w_status w_token_id w_last_heartbeat].
  set (cj := if negb (w_current_jobs w =? 0) then Z.max (w_current_jobs w - 1) 0
             else w_current_jobs w).
  assert (Hcj : 0 <= cj /\ (0 < w_current_jobs w -> cj = w_current_jobs w - 1)).
  { subst cj. destruct (Z.eqb_spec (w_current_jobs w) 0); cbn [negb]; lia. }
  destruct Hcj as [Hcj1 Hcj2].
  destruct (Z.eqb_spec cj 0) as [E|E]; cbn [negb].
  - repeat split; try lia; auto; try discriminate.
  - repeat split; try lia; auto; try discriminate.
Qed.

End CallbackExtras.

Lemma revoke_token_locks_out_workers_witness :
  let db1 := set_tokens (<["t1" := mkAdminToken "ct" (Some 5)]> (cb_db "pending").(tokens))
               (cb_db "pending") in
  revoke_token "t1" 5 (cb_db "pending") = (db1, inr (mkAdminToken "ct" (Some 5))) /\
  worker_result cb_parse_uuid cb_py_float cb_json_loads cb_decrypt cb_hmac 1000%float 7 cb_req db1
    = (db1, inl (HTTPException 401 "Worker token revoked")) /\
  worker_register cb_parse_uuid cb_decrypt "w9" 7 cb_register_payload db1
    = (db1, inl (HTTPException 401 "Token unavailable")).
Proof.
  intros db1.
  assert (H : revoke_token "t1" 5 (cb_db "pending") = (db1, inr (mkAdminToken "ct" (Some 5))))
    by reflexivity.
  destruct (revoke_token_locks_out_workers cb_parse_uuid cb_py_float cb_json_loads cb_py_int
              cb_decrypt cb_hmac _ _ _ _ _ H) as [Hcb Hreg].
  split; [exact H|split].
  - refine (proj2 (proj2 (proj2 (Hcb 1000%float 7 cb_req "w1" cb_worker _ _ _ _ _ _))));
      reflexivity.
  - apply Hreg; reflexivity.
Defined.

Lemma worker_register_again_adds_no_row_witness :
  exists db1, worker_register cb_parse_uuid cb_decrypt "w2" 3 cb_register_payload cb_register_db
                = (db1, inr "w2") /\
  exists db2 wid2,
    worker_register cb_parse_uuid cb_decrypt "w3" 4 cb_register_payload db1 = (db2, inr wid2) /\
    is_Some (db1.(workers) !! wid2).
Proof.
  exists (fst (worker_register cb_parse_uuid cb_decrypt "w2" 3 cb_register_payload
                cb_register_db)).
  split; [reflexivity|].
  destruct (worker_register_again_adds_no_row cb_parse_uuid cb_decrypt "w2" "w3" 3 4
              cb_register_payload cb_register_db _ "w2" eq_refl)
    as (db2 & wid2 & H1 & H2 & _).
  exists db2, wid2. split; [exact H1|exact H2].
Defined.

Lemma ready_result_moves_no_coins_witness :
  let loads := fun _ : string =>
    Some (JObj [("session_id", JStr "s1"); ("status", JStr "ready"); ("rdp_host", JStr "h")]) in
  exists db',
    worker_result cb_parse_uuid cb_py_float loads cb_decrypt cb_hmac 1000%float 7 cb_req
      (cb_db "pending")
    = (db', inr [mkPublished "s1" "status.update" [("status", JStr "ready")];
                 mkPublished "s1" "ready"
                   [("rdp_host", JStr "h"); ("rdp_port", JNull); ("rdp_user", JNull);
                    ("rdp_password", JNull); ("log_url", JNull)]]) /\
    db'.(wallets) = (cb_db "pending").(wallets) /\ db'.(ledger) = (cb_db "pending").(ledger).
Proof.
  intros loads.
  destruct (ready_result_moves_no_coins cb_parse_uuid cb_py_float loads cb_decrypt cb_hmac
              1000%float 7 cb_req (cb_db "pending") "w1" cb_worker
              [("session_id", JStr "s1"); ("status", JStr "ready"); ("rdp_host", JStr "h")]
              "s1" "s1" (cb_session "pending"))
    as (db' & Hr & _ & _ & _ & Hw & Hl & _); try reflexivity.
  - discriminate.
  - exists db'. split; [exact Hr|split; assumption].
Defined.
